(** * sortmedia: date resolution and collision-safe placement

    A shallow embedding of [sortmedia.py] (the rewrite of sortphotos):
    [format_offset], [get_offset], [parse_date], [get_date] and the
    per-file loop of [sort], followed by the properties of the
    specification that are settled on it.

    Conventions of the embedding.
    - A Python [str] is a [string]; its characters are the code points
      below 256.  An [int] is a [Z].
    - A call that can raise returns a [result]; [Raise e] propagates
      through the bind [x ← c; k] the way an uncaught exception does.
    - A [dict] is a [gmap]; the file system is a [gmap] from the text of
      a path to the regular file stored there (POSIX, [os.path.sep] is
      the slash).  Directories are not represented: [os.makedirs] has no
      effect on the model.
    - The library calls whose result depends on the platform or on data
      that is not part of the program ([strftime], the timezone map and
      database) are the fields of the class [Runtime]. *)

From Stdlib Require Import ZArith Ascii String List Lia Bool.
From stdpp Require Import base option list gmap strings pretty fin_maps fin_sets.

Local Open Scope string_scope.
Local Open Scope Z_scope.

(** ** Exceptions and results *)

(** The exception classes the modelled calls raise.  All of them derive
    from [Exception]. *)
Inductive exn : Type :=
  | ValueError
  | OverflowError
  | KeyError
  | FileNotFoundError
  | UnknownTimeZoneError
  | OtherError (name : string).

(** [OutOfFuel] is the model's own outcome for a loop that was cut off. *)
Inductive result (A : Type) : Type :=
  | Ok (a : A)
  | Raise (e : exn)
  | OutOfFuel.

Arguments Ok {A} a.
Arguments Raise {A} e.
Arguments OutOfFuel {A}.

Global Instance result_ret : MRet result := fun A a => Ok a.

Global Instance result_bind : MBind result := fun A B k c =>
  match c with
  | Ok a => k a
  | Raise e => Raise e
  | OutOfFuel => OutOfFuel
  end.

Definition exn_eqb (a b : exn) : bool :=
  match a, b with
  | ValueError, ValueError => true
  | OverflowError, OverflowError => true
  | KeyError, KeyError => true
  | FileNotFoundError, FileNotFoundError => true
  | UnknownTimeZoneError, UnknownTimeZoneError => true
  | OtherError x, OtherError y => String.eqb x y
  | _, _ => false
  end.

(** [try: x = c  except E: return ...]: [None] stands for the handler
    having been taken. *)
Definition attempt {A : Type} (c : result A) (E : exn) : result (option A) :=
  match c with
  | Ok a => Ok (Some a)
  | Raise e => if exn_eqb e E then Ok None else Raise e
  | OutOfFuel => OutOfFuel
  end.

(** [try: return c  except Exception: return h] *)
Definition try_except_Exception {A : Type} (c : result A) (h : result A) : result A :=
  match c with
  | Raise _ => h
  | r => r
  end.

(** ** Strings *)

Module Str.

Definition code (c : ascii) : Z := Z.of_N (N_of_ascii c).

(** [str.isspace] on the code points below 256. *)
Definition is_space (c : ascii) : bool :=
  let n := code c in
  ((9 <=? n) && (n <=? 13)) || ((28 <=? n) && (n <=? 32))
  || (n =? 133) || (n =? 160).

Definition is_digit (c : ascii) : bool :=
  let n := code c in (48 <=? n) && (n <=? 57).

Definition cons_head (c : ascii) (l : list string) : list string :=
  match l with
  | h :: t => String c h :: t
  | [] => [String c ""]
  end.

(** [s.split(sep)] for a separator of one character. *)
Fixpoint split (sep : ascii) (s : string) : list string :=
  match s with
  | "" => [""]
  | String c r =>
      if Ascii.eqb c sep then "" :: split sep r
      else cons_head c (split sep r)
  end.

(** [s.split()]: the maximal runs of characters that are not white space. *)
Fixpoint split_ws (s : string) : list string :=
  match s with
  | "" => []
  | String c r =>
      if is_space c then split_ws r
      else match r with
           | "" => [String c ""]
           | String c' _ =>
               if is_space c' then String c "" :: split_ws r
               else cons_head c (split_ws r)
           end
  end.

Fixpoint lstrip (s : string) : string :=
  match s with
  | String c r => if is_space c then lstrip r else s
  | "" => ""
  end.

Fixpoint rev_acc (s acc : string) : string :=
  match s with
  | "" => acc
  | String c r => rev_acc r (String c acc)
  end.

Definition rev (s : string) : string := rev_acc s "".

Definition strip (s : string) : string := rev (lstrip (rev (lstrip s))).

Definition startswith (s p : string) : bool := String.prefix p s.

(** [sub in s] *)
Fixpoint contains (sub s : string) : bool :=
  String.prefix sub s ||
  match s with
  | "" => false
  | String _ r => contains sub r
  end.

(** [''.join(l)] *)
Definition join (l : list string) : string := fold_right String.append "" l.

(** [a > b] on strings: lexicographic on the code points. *)
Definition gt (a b : string) : bool := String.ltb b a.

(** [re.split('(\+|-|Z)', s)]: the text between the separators and,
    because of the group, the separators themselves. *)
Definition is_sep (c : ascii) : bool :=
  Ascii.eqb c "+" || Ascii.eqb c "-" || Ascii.eqb c "Z".

Fixpoint re_split (s : string) : list string :=
  match s with
  | "" => [""]
  | String c r =>
      if is_sep c then "" :: String c "" :: re_split r
      else cons_head c (re_split r)
  end.

(** [str.lower] on the code points below 256. *)
Definition lower_char (c : ascii) : ascii :=
  let n := code c in
  if ((65 <=? n) && (n <=? 90))
     || ((192 <=? n) && (n <=? 222) && negb (n =? 215))
  then ascii_of_N (Z.to_N (n + 32)) else c.

Fixpoint lower (s : string) : string :=
  match s with
  | "" => ""
  | String c r => String (lower_char c) (lower r)
  end.

(** The digits of [int(s)]: one or more decimal digits, single
    underscores allowed between two digits. *)
Fixpoint digits (acc : Z) (after_digit : bool) (s : string) : option Z :=
  match s with
  | "" => if after_digit then Some acc else None
  | String c r =>
      if is_digit c then digits (10 * acc + (code c - 48)) true r
      else if Ascii.eqb c "_" then
             if after_digit then digits acc false r else None
           else None
  end.

(** [int(s)] *)
Definition int (s : string) : result Z :=
  let r :=
    match strip s with
    | String "+" d => digits 0 false d
    | String "-" d => Z.opp <$> digits 0 false d
    | d => digits 0 false d
    end in
  match r with
  | Some z => Ok z
  | None => Raise ValueError
  end.

(** [str(n)] for an [int]. *)
Definition of_int (n : Z) : string := pretty n.

(** ['{:02d}'.format(n)] for [n >= 0]. *)
Definition pad2 (n : Z) : string :=
  if (0 <=? n) && (n <? 10) then "0" +:+ of_int n else of_int n.

End Str.

(** ** [datetime] and [timedelta]

    The two classes are modelled on the documented behaviour of the
    standard library: a naive [datetime] is its six calendar fields (the
    microsecond is always 0 here), a [timedelta] a whole number of
    seconds; constructors and arithmetic check the documented ranges. *)

Record datetime : Type := mkDatetime {
  year : Z; month : Z; day : Z; hour : Z; minute : Z; second : Z
}.

Record timedelta : Type := mkTimedelta { total_seconds : Z }.

Module Datetime.

Definition MINYEAR : Z := 1.
Definition MAXYEAR : Z := 9999.
Definition MAXORDINAL : Z := 3652059.
Definition MAXDAYS : Z := 999999999.

Definition is_leap (y : Z) : bool :=
  (y mod 4 =? 0) && (negb (y mod 100 =? 0) || (y mod 400 =? 0)).

Definition DAYS_IN_MONTH (m : Z) : Z :=
  if m =? 2 then 28
  else if (m =? 4) || (m =? 6) || (m =? 9) || (m =? 11) then 30
  else 31.

Fixpoint days_before (m : nat) : Z :=
  match m with
  | O => 0
  | S k => days_before k + DAYS_IN_MONTH (Z.of_nat (S k))
  end.

(** The days of a common year before the first of month [m]. *)
Definition DAYS_BEFORE_MONTH (m : Z) : Z := days_before (Z.to_nat (m - 1)).

Definition days_in_month (y m : Z) : Z :=
  if (m =? 2) && is_leap y then 29 else DAYS_IN_MONTH m.

Definition valid (y m d h mi s : Z) : bool :=
  (MINYEAR <=? y) && (y <=? MAXYEAR) && (1 <=? m) && (m <=? 12)
  && (1 <=? d) && (d <=? days_in_month y m)
  && (0 <=? h) && (h <=? 23) && (0 <=? mi) && (mi <=? 59)
  && (0 <=? s) && (s <=? 59).

(** [datetime(y, m, d, h, mi, s)] *)
Definition new (y m d h mi s : Z) : result datetime :=
  if valid y m d h mi s then Ok (mkDatetime y m d h mi s)
  else Raise ValueError.

Definition days_before_year (y : Z) : Z :=
  let p := y - 1 in p * 365 + p / 4 - p / 100 + p / 400.

Definition days_before_month (y m : Z) : Z :=
  DAYS_BEFORE_MONTH m + (if (2 <? m) && is_leap y then 1 else 0).

Definition ymd2ord (y m d : Z) : Z :=
  days_before_year y + days_before_month y m + d.

Definition toordinal (t : datetime) : Z := ymd2ord (year t) (month t) (day t).

Definition ord2ymd (n0 : Z) : Z * Z * Z :=
  let n := n0 - 1 in
  let n400 := n / 146097 in let n := n mod 146097 in
  let n100 := n / 36524 in let n := n mod 36524 in
  let n4 := n / 1461 in let n := n mod 1461 in
  let n1 := n / 365 in let n := n mod 365 in
  let y := n400 * 400 + 1 + n100 * 100 + n4 * 4 + n1 in
  if (n1 =? 4) || (n100 =? 4) then (y - 1, 12, 31)
  else
    let leapyear := (n1 =? 3) && (negb (n4 =? 24) || (n100 =? 3)) in
    let m := Z.shiftr (n + 50) 5 in
    let preceding :=
      DAYS_BEFORE_MONTH m + (if (2 <? m) && leapyear then 1 else 0) in
    if n <? preceding
    then
      let m := m - 1 in
      let preceding :=
        preceding
        - (DAYS_IN_MONTH m + (if (m =? 2) && leapyear then 1 else 0)) in
      (y, m, n - preceding + 1)
    else (y, m, n - preceding + 1).

(** Seconds since midnight. *)
Definition day_seconds (t : datetime) : Z :=
  hour t * 3600 + minute t * 60 + second t.

(** [timedelta(hours=h, minutes=m)] *)
Definition delta (h m : Z) : result timedelta :=
  let s := h * 3600 + m * 60 in
  if (- MAXDAYS <=? s / 86400) && (s / 86400 <=? MAXDAYS)
  then Ok (mkTimedelta s) else Raise OverflowError.

Definition zero : timedelta := mkTimedelta 0.

(** [d * k] *)
Definition mul (d : timedelta) (k : Z) : result timedelta :=
  let s := total_seconds d * k in
  if (- MAXDAYS <=? s / 86400) && (s / 86400 <=? MAXDAYS)
  then Ok (mkTimedelta s) else Raise OverflowError.

(** [t + d] *)
Definition add (t : datetime) (d : timedelta) : result datetime :=
  let total := toordinal t * 86400 + day_seconds t + total_seconds d in
  let days := total / 86400 in
  let rem := total mod 86400 in
  if (0 <? days) && (days <=? MAXORDINAL) then
    let '(y, m, dd) := ord2ymd days in
    Ok (mkDatetime y m dd (rem / 3600) ((rem mod 3600) / 60) (rem mod 60))
  else Raise OverflowError.

(** [t - d], which Python computes as [t + (-d)]. *)
Definition sub_delta (t : datetime) (d : timedelta) : result datetime :=
  nd ← mul d (-1); add t nd.

(** [a - b] on two naive values. *)
Definition diff (a b : datetime) : timedelta :=
  mkTimedelta ((toordinal a - toordinal b) * 86400
               + (day_seconds a - day_seconds b)).

End Datetime.

(** ** The run-time environment

    [strftime] is the C library's formatter: which dates it refuses is a
    property of the platform.  The timezone of a position comes from
    timezonefinder's map and pytz's database.  An aware [datetime] is a
    naive one with the UTC offset its [tzinfo] reports. *)

Record aware : Type := mkAware { naive : datetime; utcoffset : timedelta }.

Class Runtime : Type := {
  (** [date.strftime(format)] *)
  strftime : datetime -> string -> result string;
  (** [TimezoneFinder().certain_timezone_at(lng=lng, lat=lat)] *)
  certain_timezone_at : string -> string -> result (option string);
  (** the [tzinfo] objects of pytz *)
  tzinfo : Type;
  (** [pytz.timezone(name)] *)
  timezone : string -> result tzinfo;
  (** [tz.localize(date)] *)
  localize : tzinfo -> datetime -> result aware
}.

(** [utc.localize(date)] *)
Definition utc_localize (date : datetime) : aware := mkAware date Datetime.zero.

(** [a - b] on two aware values with different [tzinfo]. *)
Definition aware_sub (a b : aware) : timedelta :=
  mkTimedelta (total_seconds (Datetime.diff (naive a) (naive b))
               + total_seconds (utcoffset b) - total_seconds (utcoffset a)).

Definition MEDIA_TYPE_PHOTO : string := "photo".
Definition MEDIA_TYPE_VIDEO : string := "video".

Definition TAG_DATE_PHOTO : string := "EXIF:DateTimeOriginal".
Definition TAG_DATE_VIDEO : string := "QuickTime:CreateDate".
Definition TAG_DATE_FILE : string := "File:FileModifyDate".
Definition TAG_GPS_LATITUDE : string := "Composite:GPSLatitude".
Definition TAG_GPS_LONGITUDE : string := "Composite:GPSLongitude".

(** [l[i]] where the index is known to be in range. *)
Definition item (l : list string) (i : nat) : string := nth i l "".

(** [int(offset.total_seconds() / 60)]: the quotient is truncated
    towards zero. *)
Definition format_offset (offset : timedelta) : string :=
  let diff_min := Z.quot (total_seconds offset) 60 in
  (if diff_min <? 0 then "-" else "+") +:+ " "
  +:+ Str.pad2 (Z.abs diff_min / 60) +:+ ":" +:+ Str.pad2 (Z.abs diff_min mod 60).

Section Dates.

Context `{Runtime}.

(** The body of the [try] of [get_offset]. *)
Definition get_offset_body (lat lng : string) (date : datetime)
  : result (option timedelta) :=
  tz_name ← certain_timezone_at lng lat;
  match tz_name with
  | None => Ok None
  | Some tz_name =>
      tz ← timezone tz_name;
      date_tz ← localize tz date;
      let date_utc := utc_localize date in
      Ok (Some (aware_sub date_utc date_tz))
  end.

Definition get_offset (lat lng : string) (date : datetime)
  : result (option timedelta) :=
  try_except_Exception (get_offset_body lat lng date) (Ok None).

(** [parse_date], lines 82-89: year, month and day of the date token. *)
Definition parse_date_entries (date_entries : list string)
  : result (option (Z * Z * Z)) :=
  if (length date_entries =? 3)%nat
     && Str.gt (item date_entries 0) "0000"
     && negb (Str.contains "." (Str.join date_entries))
  then
    year ← Str.int (item date_entries 0);
    month ← Str.int (item date_entries 1);
    day ← Str.int (item date_entries 2);
    Ok (Some (year, month, day))
  else Ok None.

(** [parse_date], lines 104-111: the time before the first separator. *)
Definition parse_time_entries (time : list string) : result (Z * Z * Z) :=
  if (length time =? 3)%nat then
    hour ← Str.int (item time 0);
    minute ← Str.int (item time 1);
    second ← Str.int (item (Str.split "." (item time 2)) 0);
    Ok (hour, minute, second)
  else if (length time =? 2)%nat then
    hour ← Str.int (item time 0);
    minute ← Str.int (item time 1);
    Ok (hour, minute, 0)
  else Ok (12, 0, 0).

(** [parse_date], lines 97 and 114-121: the offset, [timedelta(0)]
    unless a separator is followed by two fields. *)
Definition parse_offset_entries (time_entries : list string)
  : result timedelta :=
  if (2 <? length time_entries)%nat then
    let offset_entries := Str.split ":" (item time_entries 2) in
    if (length offset_entries =? 2)%nat then
      offset_hours ← Str.int (item offset_entries 0);
      offset_minutes ← Str.int (item offset_entries 1);
      offset ← Datetime.delta offset_hours offset_minutes;
      if String.eqb (item time_entries 1) "-"
      then Datetime.mul offset (-1)
      else Ok offset
    else Ok Datetime.zero
  else Ok Datetime.zero.

(** [parse_date], lines 77-121: the six numbers handed to the
    [datetime] constructor and the offset, or [None] where the function
    returns [None, None] before it gets there. *)
Definition parse_fields (text : string)
  : result (option (Z * Z * Z * (Z * Z * Z) * timedelta)) :=
  let elements := Str.split_ws (Str.strip text) in
  if (length elements <? 1)%nat then Ok None
  else
    let date_entries := Str.split ":" (item elements 0) in
    ymd ← parse_date_entries date_entries;
    match ymd with
    | None => Ok None
    | Some ymd =>
        if (1 <? length elements)%nat then
          let time_entries := Str.re_split (item elements 1) in
          let time := Str.split ":" (item time_entries 0) in
          hms ← parse_time_entries time;
          offset ← parse_offset_entries time_entries;
          Ok (Some (ymd, hms, offset))
        else Ok (Some (ymd, (12, 0, 0), Datetime.zero))
    end.

Definition parse_date (text : string)
  : result (option datetime * option timedelta) :=
  fields ← parse_fields text;
  match fields with
  | None => Ok (None, None)
  | Some (year, month, day, (hour, minute, second), offset) =>
      date ← attempt (Datetime.new year month day hour minute second) ValueError;
      match date with
      | None => Ok (None, None)
      | Some date =>
          formatted ← attempt (strftime date "%Y/%m") ValueError;
          match formatted with
          | None => Ok (None, None)
          | Some _ => Ok (Some date, Some offset)
          end
      end
  end.

(** The two heuristics of [get_date] that return from inside the video
    branch give [Some] of what they return, and [None] where the code
    falls through to the next statement. *)
Definition via_gps (data : gmap string string) (date_video : datetime)
  : result (option (option datetime * option string)) :=
  match data !! TAG_GPS_LATITUDE, data !! TAG_GPS_LONGITUDE with
  | Some lat, Some lng =>
      offset_gps ← get_offset lat lng date_video;
      match offset_gps with
      | Some offset_gps =>
          date_video ← Datetime.add date_video offset_gps;
          Ok (Some (Some date_video,
                    Some (TAG_DATE_VIDEO +:+ " in UTC "
                          +:+ format_offset offset_gps +:+ " via GPS")))
      | None => Ok None
      end
  | _, _ => Ok None
  end.

Definition via_file (data : gmap string string) (date_video : datetime)
  : result (option (option datetime * option string)) :=
  match data !! TAG_DATE_FILE with
  | Some text =>
      '(date_file, offset_file) ← parse_date text;
      match date_file, offset_file with
      | Some date_file, Some offset_file =>
          local ← Datetime.sub_delta date_file offset_file;
          if Z.abs (total_seconds (Datetime.diff local date_video)) <=? 3
          then
            date_video ← Datetime.add date_video offset_file;
            Ok (Some (Some date_video,
                      Some (TAG_DATE_VIDEO +:+ " in UTC "
                            +:+ format_offset offset_file +:+ " via File")))
          else Ok None
      | _, _ => Ok None
      end
  | None => Ok None
  end.

Definition get_date (data : gmap string string) (media_type : string)
  : result (option datetime * option string) :=
  if String.eqb media_type MEDIA_TYPE_PHOTO then
    match data !! TAG_DATE_PHOTO with
    | Some text =>
        '(date_photo, _) ← parse_date text;
        match date_photo with
        | Some date_photo =>
            Ok (Some date_photo,
                Some (TAG_DATE_PHOTO +:+ " defined in local time"))
        | None => Ok (None, None)
        end
    | None => Ok (None, None)
    end
  else if String.eqb media_type MEDIA_TYPE_VIDEO then
    match data !! TAG_DATE_VIDEO with
    | Some text =>
        '(date_video, _) ← parse_date text;
        match date_video with
        | Some date_video =>
            gps ← via_gps data date_video;
            match gps with
            | Some r => Ok r
            | None =>
                file ← via_file data date_video;
                match file with
                | Some r => Ok r
                | None =>
                    Ok (Some date_video,
                        Some (TAG_DATE_VIDEO +:+ " assumed in local time"))
                end
            end
        | None => Ok (None, None)
        end
    | None => Ok (None, None)
    end
  else Ok (None, None).

End Dates.

(** ** Paths ([posixpath]) *)

Module Path.

(** [s.rpartition(c)] when [c] occurs in [s]: the text before and after
    the last occurrence. *)
Fixpoint rpartition (c : ascii) (s : string) : option (string * string) :=
  match s with
  | "" => None
  | String a r =>
      match rpartition c r with
      | Some (x, y) => Some (String a x, y)
      | None => if Ascii.eqb a c then Some ("", r) else None
      end
  end.

Definition endswith_sep (s : string) : bool :=
  match rpartition "/" s with
  | Some (_, "") => true
  | _ => false
  end.

(** [os.path.join(a, b)] *)
Definition join (a b : string) : string :=
  if Str.startswith b "/" then b
  else if String.eqb a "" || endswith_sep a then a +:+ b
  else a +:+ "/" +:+ b.

(** [os.path.basename(p)] *)
Definition basename (p : string) : string :=
  match rpartition "/" p with
  | Some (_, b) => b
  | None => p
  end.

Fixpoint all_dots (s : string) : bool :=
  match s with
  | "" => true
  | String c r => Ascii.eqb c "." && all_dots r
  end.

(** [os.path.splitext(p)]: the extension starts at the last dot of the
    last component, unless only dots come before it there. *)
Definition splitext (p : string) : string * string :=
  let '(dir, base) :=
    match rpartition "/" p with
    | Some (d, b) => (d +:+ "/", b)
    | None => ("", p)
    end in
  match rpartition "." base with
  | Some (stem, e) =>
      if all_dots stem then (p, "") else (dir +:+ stem, "." +:+ e)
  | None => (p, "")
  end.

End Path.

(** ** The file system *)

(** A regular file: what [os.stat] reports of it that [filecmp] looks
    at, and its bytes. *)
Record file : Type := mkFile { st_mtime : Z; content : string }.

Definition st_size (f : file) : nat := String.length (content f).

Module FS.

Definition isfile (fs : gmap string file) (p : string) : bool :=
  bool_decide (is_Some (fs !! p)).

(** [filecmp.cmp(f1, f2)] with the default [shallow=True]: two regular
    files with the same size and modification time are taken to be
    equal; otherwise they are equal when their bytes are. *)
Definition cmp_files (a b : file) : bool :=
  if (st_size a =? st_size b)%nat && (st_mtime a =? st_mtime b) then true
  else if negb (st_size a =? st_size b)%nat then false
  else String.eqb (content a) (content b).

Definition cmp (fs : gmap string file) (f1 f2 : string) : result bool :=
  match fs !! f1, fs !! f2 with
  | Some a, Some b => Ok (cmp_files a b)
  | _, _ => Raise FileNotFoundError
  end.

(** [os.remove(p)] *)
Definition remove (fs : gmap string file) (p : string)
  : result (gmap string file) :=
  match fs !! p with
  | Some _ => Ok (delete p fs)
  | None => Raise FileNotFoundError
  end.

(** [shutil.copy2(src, dst)]: the bytes and the times of [src]. *)
Definition copy2 (fs : gmap string file) (src dst : string)
  : result (gmap string file) :=
  match fs !! src with
  | Some f =>
      if String.eqb src dst then Raise (OtherError "SameFileError")
      else Ok (<[dst := f]> fs)
  | None => Raise FileNotFoundError
  end.

(** [shutil.move(src, dst)] *)
Definition move (fs : gmap string file) (src dst : string)
  : result (gmap string file) :=
  match fs !! src with
  | Some f => Ok (<[dst := f]> (delete src fs))
  | None => Raise FileNotFoundError
  end.

End FS.

(** ** [sort]: the loop over the metadata records (lines 228-359) *)

(** The arguments of [sort] that the loop reads. *)
Record config : Type := mkConfig {
  media_type : string;
  dst_dir : string;
  copy : bool;
  keep : bool;
  test : bool;
  subdir_format : string;
  filename_format : option string
}.

(** The variables the loop updates, and the file system. *)
Record state : Type := mkState {
  files : gmap string file;
  test_file_dict : gmap string string;
  num_ignored : Z;
  num_duplicates : Z;
  num_processed : Z;
  processed : list (string * string)
}.

Definition initial (fs : gmap string file) : state :=
  mkState fs ∅ 0 0 0 [].

Definition ignore (st : state) : state :=
  mkState (files st) (test_file_dict st) (num_ignored st + 1)
          (num_duplicates st) (num_processed st) (processed st).

Definition claim (dst_file src_file : string) (st : state) : state :=
  mkState (files st) (<[dst_file := src_file]> (test_file_dict st))
          (num_ignored st) (num_duplicates st) (num_processed st) (processed st).

Definition count_duplicate (st : state) : state :=
  mkState (files st) (test_file_dict st) (num_ignored st)
          (num_duplicates st + 1) (num_processed st) (processed st).

Definition count_processed (src_file dst_file : string) (st : state) : state :=
  mkState (files st) (test_file_dict st) (num_ignored st)
          (num_duplicates st) (num_processed st + 1)
          (processed st ++ [(src_file, dst_file)]).

Definition with_files (fs : gmap string file) (st : state) : state :=
  mkState fs (test_file_dict st) (num_ignored st)
          (num_duplicates st) (num_processed st) (processed st).

(** The paths the collision loop finds taken. *)
Definition occupied (cfg : config) (st : state) (p : string) : bool :=
  FS.isfile (files st) p
  || (test cfg && bool_decide (p ∈ dom (test_file_dict st))).

(** [dst_root + '_' + str(same_name_appendix) + dst_ext] *)
Definition renamed (dst_root dst_ext : string) (same_name_appendix : Z) : string :=
  dst_root +:+ "_" +:+ Str.of_int same_name_appendix +:+ dst_ext.

(** The [while True] loop of lines 320-340; it returns [dst_file],
    [identical_file_exists] and [same_name_appendix] as they are when
    the loop is left. *)
Fixpoint collision_loop (fuel : nat) (cfg : config) (st : state)
    (src_file dst_root dst_ext dst_file : string) (same_name_appendix : Z)
  : result (string * bool * Z) :=
  match fuel with
  | O => OutOfFuel
  | S fuel =>
      let same_filename_exists := FS.isfile (files st) dst_file in
      if same_filename_exists
         || (test cfg && bool_decide (dst_file ∈ dom (test_file_dict st)))
      then
        let dst_compare :=
          if same_filename_exists then dst_file
          else test_file_dict st !!! dst_file in
        identical ←
          (if keep cfg then Ok false
           else FS.cmp (files st) src_file dst_compare);
        if (identical : bool) then Ok (dst_file, true, same_name_appendix)
        else
          collision_loop fuel cfg st src_file dst_root dst_ext
            (renamed dst_root dst_ext same_name_appendix)
            (same_name_appendix + 1)
      else Ok (dst_file, false, same_name_appendix)
  end.

(** Iterations that are always enough: two more than there are files and
    claimed paths. *)
Definition budget (st : state) : nat :=
  S (S (size (dom (files st) ∪ dom (test_file_dict st)))).

(** The three tests of lines 262-276. *)
Definition ignored_dot (src_file : string) : bool :=
  (Str.startswith src_file "." && negb (Str.startswith src_file "./"))
  || Str.contains "/." src_file.

Definition ignored_at (src_file : string) : bool :=
  Str.startswith src_file "@" || Str.contains "/@" src_file.

Definition ignored_hash (src_file : string) : bool :=
  Str.startswith src_file "#" || Str.contains "/#" src_file.

Section Sort.

Context `{Runtime}.

(** Lines 290-310: the destination of a file before collisions are
    looked at. *)
Definition destination (cfg : config) (src_file : string) (date : datetime)
  : result string :=
  dst_subdirs_path ← strftime date (subdir_format cfg);
  let dst_subdirs := Str.split "/" dst_subdirs_path in
  let dst_file := fold_left Path.join dst_subdirs (dst_dir cfg) in
  let filename := Path.basename src_file in
  filename ←
    match filename_format cfg with
    | Some filename_format =>
        name ← strftime date filename_format;
        let ext := Str.lower (snd (Path.splitext filename)) in
        let ext := if String.eqb ext ".jpeg" then ".jpg" else ext in
        Ok (name +:+ ext)
    | None => Ok filename
    end;
  Ok (Path.join dst_file filename).

(** Lines 317-359: collisions, the ledger of a dry run, and the
    transfer. *)
Definition place (cfg : config) (st : state) (src_file dst_file : string)
  : result state :=
  let '(dst_root, dst_ext) := Path.splitext dst_file in
  '(dst_file, identical_file_exists, _) ←
    collision_loop (budget st) cfg st src_file dst_root dst_ext dst_file 1;
  let st := if test cfg then claim dst_file src_file st else st in
  if (identical_file_exists : bool) then
    let st := count_duplicate st in
    if negb (test cfg) then
      if copy cfg then Ok st
      else fs ← FS.remove (files st) src_file; Ok (with_files fs st)
    else Ok st
  else
    let st := count_processed src_file dst_file st in
    if negb (test cfg) then
      if copy cfg
      then fs ← FS.copy2 (files st) src_file dst_file; Ok (with_files fs st)
      else fs ← FS.move (files st) src_file dst_file; Ok (with_files fs st)
    else Ok st.

(** One iteration of the [for] loop of line 244. *)
Definition sort_one (cfg : config) (st : state) (data : gmap string string)
  : result state :=
  src_file ← match data !! "SourceFile" with
             | Some s => Ok s
             | None => Raise KeyError
             end;
  '(date, info) ← get_date data (media_type cfg);
  if ignored_dot src_file then Ok (ignore st)
  else if ignored_at src_file then Ok (ignore st)
  else if ignored_hash src_file then Ok (ignore st)
  else
    match date with
    | None => Ok (ignore st)
    | Some date =>
        dst_file ← destination cfg src_file date;
        place cfg st src_file dst_file
    end.

Fixpoint sort_loop (cfg : config) (st : state)
    (metadata : list (gmap string string)) : result state :=
  match metadata with
  | [] => Ok st
  | data :: rest =>
      st ← sort_one cfg st data;
      sort_loop cfg st rest
  end.

Definition sort (cfg : config) (fs : gmap string file)
    (metadata : list (gmap string string)) : result state :=
  sort_loop cfg (initial fs) metadata.

End Sort.

(** ** A run-time environment for the worked examples

    [strftime] knows the directives the examples use and never fails, as
    on a platform whose C library formats every year; the timezone map
    knows one position in Tokyo, has no certain zone for a point at sea,
    and rejects a latitude beyond the pole. *)

Module Example.

Fixpoint format (date : datetime) (fmt : string) : string :=
  match fmt with
  | String "%" (String d r) =>
      (if Ascii.eqb d "Y" then Str.of_int (year date)
       else if Ascii.eqb d "m" then Str.pad2 (month date)
       else if Ascii.eqb d "d" then Str.pad2 (day date)
       else if Ascii.eqb d "H" then Str.pad2 (hour date)
       else if Ascii.eqb d "M" then Str.pad2 (minute date)
       else if Ascii.eqb d "S" then Str.pad2 (second date)
       else String d "") +:+ format date r
  | String c r => String c (format date r)
  | "" => ""
  end.

Definition zone_at (lng lat : string) : result (option string) :=
  if String.eqb lat "35.6762" && String.eqb lng "139.6503"
  then Ok (Some "Asia/Tokyo")
  else if String.eqb lat "95.0" then Raise ValueError
  else Ok None.

Definition zone (name : string) : result Z :=
  if String.eqb name "Asia/Tokyo" then Ok 32400
  else Raise UnknownTimeZoneError.

#[export] Instance runtime : Runtime := {|
  strftime date fmt := Ok (format date fmt);
  certain_timezone_at := zone_at;
  tzinfo := Z;
  timezone := zone;
  localize tz date := Ok (mkAware date (mkTimedelta tz))
|}.


(** A video taken in Tokyo at noon UTC. *)
Definition create_date : string := "2021:06:01 12:00:00".

Definition noon : datetime := mkDatetime 2021 6 1 12 0 0.

Definition video_gps : gmap string string :=
  <[TAG_DATE_VIDEO := create_date]>
    (<[TAG_GPS_LATITUDE := "35.6762"]>
       (<[TAG_GPS_LONGITUDE := "139.6503"]> ∅)).

(** The same video without position, written to disk three seconds
    later by a camera set to Tokyo time. *)
Definition video_file : gmap string string :=
  <[TAG_DATE_VIDEO := create_date]>
    (<[TAG_DATE_FILE := "2021:06:01 21:00:03+09:00"]> ∅).

(** The same video with a position at sea. *)
Definition video_at_sea : gmap string string :=
  <[TAG_DATE_VIDEO := create_date]>
    (<[TAG_GPS_LATITUDE := "0.0"]>
       (<[TAG_GPS_LONGITUDE := "0.0"]>
          (<[TAG_DATE_FILE := "2021:06:01 21:00:03+09:00"]> ∅))).

(** Three different photos of June 2021 with the same name. *)
Definition photo (src_file date : string) : gmap string string :=
  <["SourceFile" := src_file]> (<[TAG_DATE_PHOTO := date]> ∅).

Definition batch : list (gmap string string) :=
  [photo "a/photo.jpg" "2021:06:01 10:00:00";
   photo "b/photo.jpg" "2021:06:02 11:00:00";
   photo "c/photo.jpg" "2021:06:03 12:00:00"].

Definition disk : gmap string file :=
  <["a/photo.jpg" := mkFile 100 "first"]>
    (<["b/photo.jpg" := mkFile 200 "second"]>
       (<["c/photo.jpg" := mkFile 300 "the third"]> ∅)).

(** Two copies of one photo and a hidden file. *)
Definition twins : list (gmap string string) :=
  [photo "a/photo.jpg" "2021:06:01 10:00:00";
   photo "b/photo.jpg" "2021:06:01 10:00:00";
   photo ".trash/photo.jpg" "2021:06:01 10:00:00"].

Definition twin_disk : gmap string file :=
  <["a/photo.jpg" := mkFile 100 "first"]>
    (<["b/photo.jpg" := mkFile 200 "first"]>
       (<[".trash/photo.jpg" := mkFile 300 "old"]> ∅)).

Definition cfg (copy keep test : bool) : config :=
  mkConfig MEDIA_TYPE_PHOTO "out" copy keep test "%Y/%m" None.

(** The disk of the twins once the first of them has been copied. *)
Definition sorted_disk : gmap string file :=
  <["out/2021/06/photo.jpg" := mkFile 100 "first"]> twin_disk.

(** The dry run of the twins after its first record. *)
Definition after_first : state :=
  mkState twin_disk {["out/2021/06/photo.jpg" := "a/photo.jpg"]} 0 0 1
          [("a/photo.jpg", "out/2021/06/photo.jpg")].

End Example.

(** ** The vocabulary of the properties *)

(** The GPS heuristic gives nothing: a coordinate tag is missing, or
    the resolver returns [None]. *)
Definition gps_gives_nothing `{Runtime} (data : gmap string string)
    (date_video : datetime) : Prop :=
  data !! TAG_GPS_LATITUDE = None
  \/ data !! TAG_GPS_LONGITUDE = None
  \/ exists lat lng,
      data !! TAG_GPS_LATITUDE = Some lat
      /\ data !! TAG_GPS_LONGITUDE = Some lng
      /\ get_offset lat lng date_video = Ok None.

(** The bookkeeping of lines 341-354 for a file the loop left at
    [dst_file]: the claim of a dry run and the counters. *)
Definition settle (cfg : config) (st : state) (src_file dst_file : string)
    (identical : bool) : state :=
  let st := if test cfg then claim dst_file src_file st else st in
  if identical then count_duplicate st
  else count_processed src_file dst_file st.

(** The transfer of lines 347-359. *)
Definition transfer (cfg : config) (fs : gmap string file)
    (src_file dst_file : string) (identical : bool)
  : result (gmap string file) :=
  if test cfg then Ok fs
  else if identical then
         if copy cfg then Ok fs else FS.remove fs src_file
       else if copy cfg then FS.copy2 fs src_file dst_file
            else FS.move fs src_file dst_file.

(** What one record does to the counters. *)
Definition counts_one (st st' : state) : Prop :=
  (num_ignored st' = num_ignored st + 1
   /\ num_duplicates st' = num_duplicates st
   /\ num_processed st' = num_processed st
   /\ processed st' = processed st)
  \/ (num_ignored st' = num_ignored st
      /\ num_duplicates st' = num_duplicates st + 1
      /\ num_processed st' = num_processed st
      /\ processed st' = processed st)
  \/ (num_ignored st' = num_ignored st
      /\ num_duplicates st' = num_duplicates st
      /\ num_processed st' = num_processed st + 1
      /\ exists pair, processed st' = (processed st ++ [pair])%list).

(** The file the loop compares the source with at [dst_file]: the file
    on disk or, in a dry run, the source file that claimed the path. *)
Definition occupant (cfg : config) (st : state) (dst_file : string)
  : option file :=
  match files st !! dst_file with
  | Some g => Some g
  | None =>
      if test cfg then
        owner ← test_file_dict st !! dst_file; files st !! owner
      else None
  end.

(** Paths the three tests of lines 262-276 catch: a leading [@] or [#],
    a leading dot not followed by a slash, and a component after a slash
    that starts with one of the three characters. *)
Definition ignorable (src_file : string) : Prop :=
  (exists rest, src_file = "@" +:+ rest)
  \/ (exists rest, src_file = "#" +:+ rest)
  \/ (exists rest, src_file = "." +:+ rest /\ Str.startswith rest "/" = false)
  \/ (exists before mark after,
        mark ∈ ["."; "@"; "#"]
        /\ src_file = before +:+ "/" +:+ mark +:+ after).

(** The paths of a chain in the order the loop tries them: the
    destination itself, then the destination with suffix 1, 2, ... *)
Definition candidate (dst_root dst_ext dst_file : string) (k : Z) : string :=
  if k =? 0 then dst_file else renamed dst_root dst_ext k.

(** The destinations of the processed pairs. *)
Definition dsts (st : state) : list string := (processed st).*2.

(** The source paths of the records. *)
Definition sources (metadata : list (gmap string string)) : list string :=
  omap (fun data : gmap string string => data !! "SourceFile") metadata.

(** The invariant of the run: the destinations assigned so far are
    distinct and taken; in move mode, moreover, the sources still to
    come are distinct files on disk, none of them an assigned
    destination. *)
Definition placed_apart (cfg : config) (st : state)
    (rest : list (gmap string string)) : Prop :=
  NoDup (dsts st)
  /\ (forall d, d ∈ dsts st -> occupied cfg st d = true)
  /\ (test cfg = false -> copy cfg = false ->
      NoDup (sources rest)
      /\ (forall s, s ∈ sources rest -> is_Some (files st !! s))
      /\ (forall d, d ∈ dsts st -> d ∉ sources rest)).

(** The record is not ignored, and its date and name give the
    destination [first]. *)
Definition maps_to `{Runtime} (cfg : config) (data : gmap string string)
    (src_file first : string) : Prop :=
  data !! "SourceFile" = Some src_file
  /\ ignored_dot src_file = false
  /\ ignored_at src_file = false
  /\ ignored_hash src_file = false
  /\ exists date info,
      get_date data (media_type cfg) = Ok (Some date, info)
      /\ destination cfg src_file date = Ok first.

(** One record that is not ignored: the loop's result, the transfer and
    the state after it. *)
Definition placed (cfg : config) (st st' : state) (src_file : string) : Prop :=
  exists first dst_final identical a fs,
    collision_loop (budget st) cfg st src_file
      (Path.splitext first).1 (Path.splitext first).2 first 1
    = Ok (dst_final, identical, a)
    /\ transfer cfg (files st) src_file dst_final identical = Ok fs
    /\ st' = with_files fs (settle cfg st src_file dst_final identical).

(** What one record does to the disk and to the list of processed
    pairs. *)
Definition disk_step (cfg : config) (st st' : state) (src_file : string) : Prop :=
  (files st' = files st /\ processed st' = processed st)
  \/ (test cfg = true /\ files st' = files st
      /\ exists d, files st !! d = None
                   /\ processed st' = (processed st ++ [(src_file, d)])%list)
  \/ (test cfg = false /\ copy cfg = false /\ keep cfg = false
      /\ is_Some (files st !! src_file)
      /\ files st' = delete src_file (files st)
      /\ processed st' = processed st)
  \/ (test cfg = false /\ copy cfg = true
      /\ exists d f,
          files st !! d = None /\ files st !! src_file = Some f
          /\ files st' = <[d := f]> (files st)
          /\ processed st' = (processed st ++ [(src_file, d)])%list)
  \/ (test cfg = false /\ copy cfg = false
      /\ exists d f,
          files st !! d = None /\ files st !! src_file = Some f
          /\ files st' = <[d := f]> (delete src_file (files st))
          /\ processed st' = (processed st ++ [(src_file, d)])%list).

(** ** Further worked inputs *)

Module Cases.


End Cases.

(** ** The texts of dates *)

(** Every character of [s] passes the test [P]. *)
Fixpoint only (P : ascii -> bool) (s : string) : bool :=
  match s with
  | "" => true
  | String c r => P c && only P r
  end.

(** [s] is a decimal numeral, one or more digits, of value [n]. *)
Definition numeral (s : string) (n : Z) : bool :=
  negb (String.eqb s "") && only Str.is_digit s
  && match Str.digits 0 false s with
     | Some z => z =? n
     | None => false
     end.

(** ['{:04d}'.format(n)] for [n >= 0]. *)
Definition pad4 (n : Z) : string :=
  if n <? 10 then "000" +:+ Str.of_int n
  else if n <? 100 then "00" +:+ Str.of_int n
  else if n <? 1000 then "0" +:+ Str.of_int n
  else Str.of_int n.

(** The text of a date as ExifTool prints it, [YYYY:MM:DD HH:MM:SS]
    (the comment of lines 71-74). *)
Definition exif_date (date : datetime) : string :=
  pad4 (year date) +:+ ":" +:+ Str.pad2 (month date)
  +:+ ":" +:+ Str.pad2 (day date).

Definition exif_time (date : datetime) : string :=
  Str.pad2 (hour date) +:+ ":" +:+ Str.pad2 (minute date)
  +:+ ":" +:+ Str.pad2 (second date).

Definition exif_text (date : datetime) : string :=
  exif_date date +:+ " " +:+ exif_time date.

(** ** Runs side by side *)




(** ** [sortphotos.py], the script the rewrite started from

    The script runs under Python 2, where [str] is a string of bytes
    and white space and [int] depend on the interpreter and the locale
    that line 37 sets: the two built-ins that differ from the ones
    modelled in [Str] are taken from the interpreter. *)

Class Python2 : Type := {
  (** [s.strip().split()] on a byte string *)
  strip_split : string -> list string;
  (** [int(s)] on a byte string *)
  int_of_str : string -> result Z
}.

Section Exif.

Context `{Runtime} `{Python2}.

(** [parse_date_exif], lines 64-69. *)
Definition exif_date_entries (date_entries : list string)
  : result (option (Z * Z * Z)) :=
  if (length date_entries =? 3)%nat
     && Str.gt (item date_entries 0) "0000"
     && negb (Str.contains "." (Str.join date_entries))
  then
    year ← int_of_str (item date_entries 0);
    month ← int_of_str (item date_entries 1);
    day ← int_of_str (item date_entries 2);
    Ok (Some (year, month, day))
  else Ok None.

(** Lines 82-88. *)
Definition exif_time_entries (time : list string) : result (Z * Z * Z) :=
  if (length time =? 3)%nat then
    hour ← int_of_str (item time 0);
    minute ← int_of_str (item time 1);
    second ← int_of_str (item (Str.split "." (item time 2)) 0);
    Ok (hour, minute, second)
  else if (length time =? 2)%nat then
    hour ← int_of_str (item time 0);
    minute ← int_of_str (item time 1);
    Ok (hour, minute, 0)
  else Ok (12, 0, 0).

(** Lines 91-104: [dateadd] where [time_zone_adjust] is set. *)
Definition exif_time_zone (use_local_time : bool) (time_entries : list string)
  : result (option timedelta) :=
  if negb use_local_time && (2 <? length time_entries)%nat then
    let time_zone := Str.split ":" (item time_entries 2) in
    if (length time_zone =? 2)%nat then
      time_zone_hour ← int_of_str (item time_zone 0);
      time_zone_min ← int_of_str (item time_zone 1);
      let time_zone_hour :=
        if String.eqb (item time_entries 1) "+" then time_zone_hour * -1
        else time_zone_hour in
      dateadd ← Datetime.delta time_zone_hour time_zone_min;
      Ok (Some dateadd)
    else Ok None
  else Ok None.

(** Lines 56-104: the six numbers handed to [datetime] and the
    adjustment, or [None] where the function returns [None] before it
    gets there. *)
Definition exif_fields (date_string : string) (use_local_time : bool)
  : result (option (Z * Z * Z * (Z * Z * Z) * option timedelta)) :=
  let elements := strip_split date_string in
  if (length elements <? 1)%nat then Ok None
  else
    let date_entries := Str.split ":" (item elements 0) in
    ymd ← exif_date_entries date_entries;
    match ymd with
    | None => Ok None
    | Some ymd =>
        if (1 <? length elements)%nat then
          let time_entries := Str.re_split (item elements 1) in
          let time := Str.split ":" (item time_entries 0) in
          hms ← exif_time_entries time;
          dateadd ← exif_time_zone use_local_time time_entries;
          Ok (Some (ymd, hms, dateadd))
        else Ok (Some (ymd, (12, 0, 0), None))
    end.

(** [parse_date_exif(date_string, use_local_time)], where
    [date_string] is the text [str] makes of the argument. *)
Definition parse_date_exif (date_string : string) (use_local_time : bool)
  : result (option datetime) :=
  fields ← exif_fields date_string use_local_time;
  match fields with
  | None => Ok None
  | Some (year, month, day, (hour, minute, second), dateadd) =>
      date ← attempt (Datetime.new year month day hour minute second) ValueError;
      match date with
      | None => Ok None
      | Some date =>
          formatted ← attempt (strftime date "%Y/%m-%b") ValueError;
          match formatted with
          | None => Ok None
          | Some _ =>
              match dateadd with
              | Some dateadd =>
                  date ← Datetime.add date dateadd; Ok (Some date)
              | None => Ok (Some date)
              end
          end
      end
  end.

End Exif.

(** An interpreter whose built-ins do on every text what [Str] does. *)
Definition python2_like_str : Python2 := {|
  strip_split text := Str.split_ws (Str.strip text);
  int_of_str := Str.int
|}.

(** The printable characters of ASCII. *)
Definition printable (c : ascii) : bool :=
  (32 <=? Str.code c) && (Str.code c <=? 126).

(** What every Python 2 does on plain text: a text of printable
    characters is split at its blanks, and a numeral is read as its
    value. *)
Definition plain_python2 `{Python2} : Prop :=
  (forall text,
      only printable text = true ->
      strip_split text = Str.split_ws (Str.strip text))
  /\ (forall s n, numeral s n = true -> int_of_str s = Ok n).

(** ** [get_oldest_timestamp] (lines 127-182) *)

(** A value of the record as the function looks at it: whether it is
    a list, and the text [str] makes of it or of each of its items. *)
Inductive value : Type :=
  | Scalar (text : string)
  | Items (texts : list string).

(** A [datetime] with its microsecond, which is 0 for every parsed
    date and anything for [datetime.now()]. *)
Definition stamp : Type := datetime * Z.

Definition stamp_fields (t : stamp) : list Z :=
  [year t.1; month t.1; day t.1; hour t.1; minute t.1; second t.1; t.2].

Fixpoint lex_lt (a b : list Z) : bool :=
  match a, b with
  | x :: a, y :: b => (x <? y) || ((x =? y) && lex_lt a b)
  | _, _ => false
  end.

(** [a < b] and [a == b] on two naive values: field by field. *)
Definition stamp_lt (a b : stamp) : bool :=
  lex_lt (stamp_fields a) (stamp_fields b).

Definition stamp_eqb (a b : stamp) : bool :=
  bool_decide (stamp_fields a = stamp_fields b).

(** The variables of the loop. *)
Record oldest : Type := mkOldest {
  date_available : bool;
  oldest_date : stamp;
  oldest_keys : list string
}.

(** Lines 140-141. *)
Definition ignore_groups (additional_groups_to_ignore : list string)
  : list string :=
  "ICC_Profile" :: additional_groups_to_ignore.

Definition ignore_tags (additional_tags_to_ignore : list string)
  : list string :=
  "SourceFile" :: "XMP:HistoryWhen" :: additional_tags_to_ignore.

(** The test of line 150. *)
Definition considered (ignore_groups ignore_tags : list string)
    (key : string) : bool :=
  negb (bool_decide (key ∈ ignore_tags))
  && negb (bool_decide (item (Str.split ":" key) 0 ∈ ignore_groups))
  && negb (Str.contains "GPS" key).

(** Lines 152-160: the value, or the first item of a list. *)
Definition first_text (date : value) : result string :=
  match date with
  | Scalar text => Ok text
  | Items (text :: _) => Ok text
  | Items [] => Raise (OtherError "IndexError")
  end.

Section Oldest.

Context `{Runtime} `{Python2}.

(** One pass of the loop of line 147. *)
Definition oldest_step (use_local_time : bool)
    (ignore_groups ignore_tags : list string) (st : oldest)
    (entry : string * value) : result oldest :=
  let '(key, date) := entry in
  if considered ignore_groups ignore_tags key then
    date ← first_text date;
    exifdate ← try_except_Exception (parse_date_exif date use_local_time)
                                    (Ok None);
    match exifdate with
    | Some exifdate =>
        if stamp_lt (exifdate, 0) (oldest_date st)
        then Ok (mkOldest true (exifdate, 0) [key])
        else if stamp_eqb (exifdate, 0) (oldest_date st)
             then Ok (mkOldest (date_available st) (oldest_date st)
                               (oldest_keys st ++ [key]))
             else Ok st
    | None => Ok st
    end
  else Ok st.

Fixpoint oldest_loop (use_local_time : bool)
    (ignore_groups ignore_tags : list string) (st : oldest)
    (data : list (string * value)) : result oldest :=
  match data with
  | [] => Ok st
  | entry :: rest =>
      st ← oldest_step use_local_time ignore_groups ignore_tags st entry;
      oldest_loop use_local_time ignore_groups ignore_tags st rest
  end.

(** [get_oldest_timestamp]: [data] is the record as the list of its
    items in the order of [data.keys()], [now] what [datetime.now()]
    returns. *)
Definition get_oldest_timestamp (now : stamp) (data : list (string * value))
    (additional_groups_to_ignore additional_tags_to_ignore : list string)
    (use_local_time : bool)
  : result (value * option datetime * list string) :=
  src_file ← match (list_to_map data : gmap string value) !! "SourceFile" with
             | Some v => Ok v
             | None => Raise KeyError
             end;
  st ← oldest_loop use_local_time
         (ignore_groups additional_groups_to_ignore)
         (ignore_tags additional_tags_to_ignore)
         (mkOldest false now []) data;
  Ok (src_file,
      if date_available st then Some (oldest_date st).1 else None,
      oldest_keys st).

(** The date the loop sees for an item: none for a key that is passed
    over and for a text the parser rejects or stumbles over. *)
Definition tag_date (use_local_time : bool)
    (ignore_groups ignore_tags : list string) (entry : string * value)
  : option datetime :=
  if considered ignore_groups ignore_tags entry.1 then
    match first_text entry.2 with
    | Ok text =>
        match parse_date_exif text use_local_time with
        | Ok (Some exifdate) => Some exifdate
        | _ => None
        end
    | _ => None
    end
  else None.

(** The keys, in the order of the record, whose date is [at_]. *)
Definition keys_dated (use_local_time : bool)
    (ignore_groups ignore_tags : list string) (at_ : stamp)
    (data : list (string * value)) : list string :=
  (List.filter
     (fun entry =>
        match tag_date use_local_time ignore_groups ignore_tags entry with
        | Some exifdate => stamp_eqb (exifdate, 0) at_
        | None => false
        end) data).*1.

(** The dates the loop sees, in the order of the record. *)
Definition dates_seen (use_local_time : bool)
    (ignore_groups ignore_tags : list string)
    (data : list (string * value)) : list datetime :=
  omap (tag_date use_local_time ignore_groups ignore_tags) data.

(** The loop so far: the date it holds is at or below every date it
    has seen, is [now] until one of them is below [now], and its keys
    are the keys that carry it. *)
Definition oldest_so_far (use_local_time : bool) (groups tags : list string)
    (now : stamp) (st : oldest) (seen : list (string * value)) : Prop :=
  (forall d, d ∈ dates_seen use_local_time groups tags seen ->
             stamp_lt (d, 0) (oldest_date st) = false)
  /\ (if date_available st
      then stamp_lt (oldest_date st) now = true
           /\ exists d, d ∈ dates_seen use_local_time groups tags seen
                        /\ oldest_date st = (d, 0)
      else oldest_date st = now)
  /\ oldest_keys st
     = keys_dated use_local_time groups tags (oldest_date st) seen.

End Oldest.

(** A photo with three dates, one of them in the future, one GPS date
    and one text that is no date. *)
Definition dated_record : list (string * value) :=
  [("SourceFile", Scalar "a/photo.jpg");
   ("EXIF:CreateDate", Scalar "2021:06:01 12:00:00");
   ("EXIF:GPSDateStamp", Scalar "2019:01:01 00:00:00");
   ("EXIF:DateTimeOriginal", Items ["2021:06:01 12:00:00"; "2021:06:02 12:00:00"]);
   ("XMP:Rating", Scalar "5");
   ("File:FileModifyDate", Scalar "2031:01:01 00:00:00+09:00")].

(** * Properties *)

(** ** Results *)

Lemma bind_Ok {A B : Type} (c : result A) (k : A -> result B) (b : B) :
  (x ← c; k x) = Ok b -> exists a, c = Ok a /\ k a = Ok b.
Proof. destruct c as [a| |]; simpl; intros Hk; try discriminate. eauto. Qed.

Lemma bind_OutOfFuel {A B : Type} (c : result A) (k : A -> result B) :
  (x ← c; k x) = OutOfFuel ->
  c = OutOfFuel \/ exists a, c = Ok a /\ k a = OutOfFuel.
Proof. destruct c as [a| |]; simpl; intros Hk; try discriminate; eauto. Qed.

Lemma attempt_Ok {A : Type} (c : result A) (E : exn) (o : option A) :
  attempt c E = Ok o ->
  match o with
  | Some a => c = Ok a
  | None => exists e, c = Raise e /\ exn_eqb e E = true
  end.
Proof.
  destruct c as [a|e|]; simpl; try discriminate.
  - intros [= Ho]. subst o. reflexivity.
  - destruct (exn_eqb e E) eqn:He; try discriminate.
    intros [= Ho]. subst o. eauto.
Qed.

Lemma exn_eqb_eq (a b : exn) : exn_eqb a b = true -> a = b.
Proof.
  destruct a, b; simpl; try discriminate; try reflexivity.
  intros Heq%String.eqb_eq. now subst.
Qed.

(** ** Strings *)

Lemma string_app_nil (s : string) : "" +:+ s = s.
Proof. reflexivity. Qed.

Lemma string_app_cons (x : ascii) (a b : string) :
  String x a +:+ b = String x (a +:+ b).
Proof. reflexivity. Qed.

Lemma string_app_assoc (a b c : string) : (a +:+ b) +:+ c = a +:+ b +:+ c.
Proof.
  induction a as [|x a IH]; [reflexivity|].
  rewrite !string_app_cons. now rewrite IH.
Qed.

Lemma string_length_app (a b : string) :
  String.length (a +:+ b) = (String.length a + String.length b)%nat.
Proof.
  induction a as [|x a IH]; [reflexivity|].
  rewrite string_app_cons. simpl. now rewrite IH.
Qed.

Lemma string_app_inv_tail (a b c : string) : a +:+ c = b +:+ c -> a = b.
Proof.
  revert b. induction a as [|x a IH]; intros [|y b] Heq.
  - reflexivity.
  - apply (f_equal String.length) in Heq.
    rewrite !string_length_app in Heq. simpl in Heq. lia.
  - apply (f_equal String.length) in Heq.
    rewrite !string_length_app in Heq. simpl in Heq. lia.
  - rewrite !string_app_cons in Heq. injection Heq as -> Heq.
    f_equal. now apply IH.
Qed.


Lemma prefix_refl_app (p b : string) : String.prefix p (p +:+ b) = true.
Proof.
  induction p as [|x p IH]; [now destruct b|].
  rewrite string_app_cons. simpl.
  destruct (ascii_dec x x); [assumption | congruence].
Qed.


Lemma contains_app_r (sub a b : string) :
  Str.contains sub b = true -> Str.contains sub (a +:+ b) = true.
Proof.
  intros Hb. induction a as [|x a IH]; [exact Hb|].
  rewrite string_app_cons.
  cbn [Str.contains]. rewrite IH. apply orb_true_r.
Qed.

Lemma contains_middle (sub a b : string) :
  Str.contains sub (a +:+ sub +:+ b) = true.
Proof.
  apply contains_app_r. destruct sub as [|x sub].
  - now destruct b.
  - rewrite string_app_cons.
    cbn [Str.contains]. apply orb_true_iff. left.
    rewrite <- string_app_cons. apply prefix_refl_app.
Qed.


(** ** The timestamp parser *)

Section ParseDate.

Context `{Runtime}.





End ParseDate.

(** The two malformed dates of the specification, a year of zeros and a
    thirteenth month with a fortieth day, on any platform. *)
Lemma parse_date_malformed_examples `{Runtime} :
  parse_date "0000:01:01" = Ok (None, None)
  /\ parse_date "2020:13:40" = Ok (None, None).
Proof. split; reflexivity. Qed.


(** A field that is not an integer literal is none of the cases above:
    [int] raises outside the two [try] blocks, and the exception leaves
    [parse_date]. *)
Remark parse_date_raises_on_letters `{Runtime} :
  parse_date "2020:ab:01" = Raise ValueError
  /\ parse_date "2020:13:40 1x:00:00" = Raise ValueError.
Proof. split; reflexivity. Qed.

Section ParseOffset.

Context `{Runtime}.

Lemma parse_date_accepts (text : string) (date : datetime)
    (offset : option timedelta) :
  parse_date text = Ok (Some date, offset) ->
  exists y m d h mi s off,
    parse_fields text = Ok (Some (y, m, d, (h, mi, s), off))
    /\ Datetime.valid y m d h mi s = true
    /\ date = mkDatetime y m d h mi s
    /\ offset = Some off.
Proof.
  unfold parse_date. intros Hparse.
  apply bind_Ok in Hparse as ([fields|] & Hfields & Hparse); [|discriminate].
  destruct fields as [[[[y m] d] [[h mi] s]] off].
  apply bind_Ok in Hparse as ([built|] & Hnew & Hparse); [|discriminate].
  apply attempt_Ok in Hnew.
  apply bind_Ok in Hparse as ([formatted|] & _ & Hparse); [|discriminate].
  injection Hparse as <- <-.
  unfold Datetime.new in Hnew.
  destruct (Datetime.valid y m d h mi s) eqn:Hvalid; [|discriminate].
  injection Hnew as <-.
  exists y, m, d, h, mi, s, off. auto.
Qed.

Lemma parse_fields_offset (text : string) ymd hms (off : timedelta) :
  parse_fields text = Ok (Some (ymd, hms, off)) ->
  let elements := Str.split_ws (Str.strip text) in
  ((length elements <= 1)%nat /\ off = Datetime.zero)
  \/ ((1 < length elements)%nat
      /\ parse_offset_entries (Str.re_split (item elements 1)) = Ok off).
Proof.
  intros Hfields elements. unfold parse_fields in Hfields.
  cbv zeta in Hfields. fold elements in Hfields.
  destruct (length elements <? 1)%nat eqn:Hlen; [discriminate|].
  apply bind_Ok in Hfields as ([ymd'|] & _ & Hfields); [|discriminate].
  destruct (1 <? length elements)%nat eqn:Htime.
  - apply bind_Ok in Hfields as (hms' & _ & Hfields).
    apply bind_Ok in Hfields as (off' & Hoff & Hfields).
    assert (off' = off) as <- by congruence. right. split; [|assumption].
    now apply Nat.ltb_lt.
  - assert (Datetime.zero = off) as <- by congruence.
    left. split; [|reflexivity].
    apply Nat.ltb_ge in Htime. lia.
Qed.

(** C5, as the code has it.  When [parse_date] accepts a text: a
    separator followed by two colon-separated fields gives the offset
    of that many hours and minutes, negated when the separator is the
    minus sign; a text without a time token, or whose time token has
    no separator, gives the offset [timedelta(0)].  The offset of an
    accepted text is never [None]. *)
Theorem parse_date_offset (text : string) (date : datetime)
    (offset : option timedelta) :
  parse_date text = Ok (Some date, offset) ->
  let elements := Str.split_ws (Str.strip text) in
  let time_entries := Str.re_split (item elements 1) in
  (forall t sign rem more hh mm,
      (1 < length elements)%nat ->
      time_entries = t :: sign :: rem :: more ->
      Str.split ":" rem = [hh; mm] ->
      exists h m,
        Str.int hh = Ok h /\ Str.int mm = Ok m
        /\ offset = Some (mkTimedelta
                            ((if String.eqb sign "-" then -1 else 1)
                             * (h * 3600 + m * 60))))
  /\ ((length elements <= 1)%nat \/ (length time_entries <= 2)%nat ->
      offset = Some Datetime.zero)
  /\ offset ≠ None.
Proof.
  intros Hparse elements time_entries.
  apply parse_date_accepts in Hparse
    as (y & m & d & h & mi & s & off & Hfields & _ & _ & ->).
  apply parse_fields_offset in Hfields. fold elements in Hfields.
  fold time_entries in Hfields.
  split; [|split; [|discriminate]].
  - intros t sign rem more hh mm Hlen Hentries Hsplit.
    destruct Hfields as [[Hshort _]|[_ Hoff]]; [lia|].
    unfold parse_offset_entries in Hoff. rewrite Hentries in Hoff.
    cbn [length Nat.ltb Nat.leb item nth] in Hoff.
    rewrite Hsplit in Hoff. cbn [length Nat.eqb item nth] in Hoff.
    apply bind_Ok in Hoff as (oh & Hh & Hoff).
    apply bind_Ok in Hoff as (om & Hm & Hoff).
    apply bind_Ok in Hoff as (delta & Hdelta & Hoff).
    exists oh, om. split; [assumption|]. split; [assumption|].
    unfold Datetime.delta in Hdelta.
    destruct (_ && _) in Hdelta; [|discriminate]. injection Hdelta as <-.
    destruct (String.eqb sign "-").
    + unfold Datetime.mul in Hoff. cbn [total_seconds] in Hoff.
      destruct (_ && _) in Hoff; [|discriminate]. injection Hoff as <-.
      do 2 f_equal. lia.
    + injection Hoff as <-. do 2 f_equal. lia.
  - intros Hnone. destruct Hfields as [[_ ->]|[Hlong Hoff]]; [reflexivity|].
    destruct Hnone as [Hshort|Hshort]; [lia|].
    unfold parse_offset_entries in Hoff.
    destruct (2 <? length time_entries)%nat eqn:Hlen.
    + apply Nat.ltb_lt in Hlen. lia.
    + now injection Hoff as <-.
Qed.

End ParseOffset.

(** C5 as the specification words it fails: a time without sign or
    marker is accepted with the offset [timedelta(0)], the same value a
    trailing [+00:00] gives, and not with an absent offset. *)
Lemma parse_date_offset_not_absent :
  Str.re_split "10:30:00" = ["10:30:00"]
  /\ @parse_date Example.runtime "2020:01:15 10:30:00"
     = Ok (Some (mkDatetime 2020 1 15 10 30 0), Some (mkTimedelta 0))
  /\ @parse_date Example.runtime "2020:01:15 10:30:00+00:00"
     = @parse_date Example.runtime "2020:01:15 10:30:00".
Proof. repeat split. Qed.

Lemma parse_date_offset_witness :
  (exists h m,
      Str.int "02" = Ok h /\ Str.int "30" = Ok m
      /\ Some (mkTimedelta (-9000))
         = Some (mkTimedelta ((if String.eqb "-" "-" then -1 else 1)
                              * (h * 3600 + m * 60))))
  /\ Some (mkTimedelta 0) = Some Datetime.zero.
Proof.
  split.
  - apply (proj1 (@parse_date_offset Example.runtime
                    "2020:01:15 10:30:00-02:30"
                    (mkDatetime 2020 1 15 10 30 0)
                    (Some (mkTimedelta (-9000))) eq_refl)
             "10:30:00" "-" "02:30" [] "02" "30");
      [vm_compute; lia | reflexivity | reflexivity].
  - apply (proj1 (proj2 (@parse_date_offset Example.runtime
                           "2020:01:15 10:30:00"
                           (mkDatetime 2020 1 15 10 30 0)
                           (Some (mkTimedelta 0)) eq_refl))).
    right. vm_compute. lia.
Defined.

(** ** The date of a video *)

Section GetDate.

Context `{Runtime}.

Lemma via_gps_nothing data date_video :
  gps_gives_nothing data date_video -> via_gps data date_video = Ok None.
Proof.
  unfold via_gps. intros [Hlat|[Hlng|(lat & lng & Hlat & Hlng & Hoff)]].
  - now rewrite Hlat.
  - rewrite Hlng. now destruct (data !! TAG_GPS_LATITUDE).
  - rewrite Hlat, Hlng, Hoff. reflexivity.
Qed.

Lemma get_date_video data text date_video o :
  data !! TAG_DATE_VIDEO = Some text ->
  parse_date text = Ok (Some date_video, o) ->
  get_date data MEDIA_TYPE_VIDEO =
    (gps ← via_gps data date_video;
     match gps with
     | Some r => Ok r
     | None =>
         file ← via_file data date_video;
         match file with
         | Some r => Ok r
         | None =>
             Ok (Some date_video,
                 Some (TAG_DATE_VIDEO +:+ " assumed in local time"))
         end
     end).
Proof.
  intros Htag Hparse. unfold get_date.
  change (String.eqb MEDIA_TYPE_VIDEO MEDIA_TYPE_PHOTO) with false.
  change (String.eqb MEDIA_TYPE_VIDEO MEDIA_TYPE_VIDEO) with true.
  cbv iota. rewrite Htag, Hparse. reflexivity.
Qed.

Lemma get_offset_cases lat lng date :
  match get_offset_body lat lng date with
  | Ok r => get_offset lat lng date = Ok r
  | Raise _ => get_offset lat lng date = Ok None
  | OutOfFuel => get_offset lat lng date = OutOfFuel
  end.
Proof. unfold get_offset. now destruct (get_offset_body lat lng date). Qed.

(** C8.  [get_offset] never raises: whatever the lookup of the zone,
    the zone database or the localization raise, and when the position
    has no certain zone, it returns [None]; and [get_date] then gives
    the video the date it would have without its GPS tags. *)
Theorem get_offset_never_raises (lat lng : string) (date : datetime) :
  (forall e, get_offset lat lng date ≠ Raise e)
  /\ (forall e, get_offset_body lat lng date = Raise e ->
                get_offset lat lng date = Ok None)
  /\ (certain_timezone_at lng lat = Ok None ->
      get_offset lat lng date = Ok None)
  /\ (forall data text o,
         data !! TAG_DATE_VIDEO = Some text ->
         parse_date text = Ok (Some date, o) ->
         data !! TAG_GPS_LATITUDE = Some lat ->
         data !! TAG_GPS_LONGITUDE = Some lng ->
         get_offset lat lng date = Ok None ->
         get_date data MEDIA_TYPE_VIDEO
         = get_date (delete TAG_GPS_LATITUDE (delete TAG_GPS_LONGITUDE data))
                    MEDIA_TYPE_VIDEO).
Proof.
  pose proof (get_offset_cases lat lng date) as Hcases.
  refine (conj _ (conj _ (conj _ _))).
  - intros e He. destruct (get_offset_body lat lng date); congruence.
  - intros e He. now rewrite He in Hcases.
  - intros Hzone. unfold get_offset, get_offset_body. now rewrite Hzone.
  - intros data text o Htag Hparse Hlat Hlng Hoff.
    rewrite (get_date_video data text date o Htag Hparse).
    rewrite (get_date_video _ text date o); [|now rewrite !lookup_delete_ne|assumption].
    rewrite !via_gps_nothing.
    + unfold via_file. now rewrite !lookup_delete_ne.
    + left. apply lookup_delete_eq.
    + right. right. eauto.
Qed.


Lemma via_file_parsed data date_video ftext date_file offset_file :
  data !! TAG_DATE_FILE = Some ftext ->
  parse_date ftext = Ok (Some date_file, Some offset_file) ->
  via_file data date_video =
    (local ← Datetime.sub_delta date_file offset_file;
     if Z.abs (total_seconds (Datetime.diff local date_video)) <=? 3
     then
       shifted ← Datetime.add date_video offset_file;
       Ok (Some (Some shifted,
                 Some (TAG_DATE_VIDEO +:+ " in UTC "
                       +:+ format_offset offset_file +:+ " via File")))
     else Ok None).
Proof. intros Htag Hparse. unfold via_file. now rewrite Htag, Hparse. Qed.

(** C2.  For a video to which the GPS heuristic gives nothing and whose
    [File:FileModifyDate] parses to a time and an offset, [get_date]
    takes the file time minus its offset, compares it with the video's
    date, and adds the file's offset to the video's date when the two
    are at most 3 seconds apart.  Where both operations stay in the
    range of [datetime]: the result is the shifted date, with the offset
    and "via File" in the text, exactly when the distance is at most 3
    seconds; further apart, the video's date is returned as it is. *)
Theorem get_date_file_corroboration (data : gmap string string)
    (text ftext : string) (date_video date_file : datetime)
    (o : option timedelta) (offset_file : timedelta) :
  data !! TAG_DATE_VIDEO = Some text ->
  parse_date text = Ok (Some date_video, o) ->
  gps_gives_nothing data date_video ->
  data !! TAG_DATE_FILE = Some ftext ->
  parse_date ftext = Ok (Some date_file, Some offset_file) ->
  get_date data MEDIA_TYPE_VIDEO =
    (local ← Datetime.sub_delta date_file offset_file;
     if Z.abs (total_seconds (Datetime.diff local date_video)) <=? 3
     then
       shifted ← Datetime.add date_video offset_file;
       Ok (Some shifted,
           Some ("QuickTime:CreateDate in UTC "
                 +:+ format_offset offset_file +:+ " via File"))
     else
       Ok (Some date_video, Some "QuickTime:CreateDate assumed in local time"))
  /\ (forall local shifted,
         Datetime.sub_delta date_file offset_file = Ok local ->
         Datetime.add date_video offset_file = Ok shifted ->
         let apart := Z.abs (total_seconds (Datetime.diff local date_video)) in
         (get_date data MEDIA_TYPE_VIDEO =
            Ok (Some shifted,
                Some ("QuickTime:CreateDate in UTC "
                      +:+ format_offset offset_file +:+ " via File"))
          <-> apart <= 3)
         /\ (3 < apart ->
             get_date data MEDIA_TYPE_VIDEO =
               Ok (Some date_video,
                   Some "QuickTime:CreateDate assumed in local time"))).
Proof.
  intros Htag Hparse Hgps Hftag Hfparse.
  rewrite (get_date_video data text date_video o Htag Hparse).
  rewrite (via_gps_nothing _ _ Hgps).
  rewrite (via_file_parsed _ _ _ _ _ Hftag Hfparse).
  split.
  - unfold mbind, result_bind. cbv beta iota.
    destruct (Datetime.sub_delta date_file offset_file) as [local| |];
      try reflexivity.
    destruct (_ <=? 3); [|reflexivity].
    now destruct (Datetime.add date_video offset_file).
  - intros local shifted Hlocal Hshifted apart. rewrite Hlocal.
    unfold mbind, result_bind. cbv beta iota. fold apart.
    destruct (Z.leb_spec apart 3) as [Hnear|Hfar].
    + rewrite Hshifted. split; [|lia]. split; [lia|reflexivity].
    + split; [|reflexivity]. split; [|lia].
      intros Heq. exfalso. injection Heq as _ Htext. discriminate Htext.
Qed.

End GetDate.

Lemma get_offset_never_raises_witness :
  @get_offset Example.runtime "95.0" "0.0" Example.noon = Ok None
  /\ @get_offset Example.runtime "0.0" "0.0" Example.noon = Ok None
  /\ @get_date Example.runtime Example.video_at_sea MEDIA_TYPE_VIDEO
     = @get_date Example.runtime
         (delete TAG_GPS_LATITUDE
            (delete TAG_GPS_LONGITUDE Example.video_at_sea))
         MEDIA_TYPE_VIDEO.
Proof.
  pose proof (@get_offset_never_raises Example.runtime "95.0" "0.0" Example.noon)
    as (_ & Hraise & _ & _).
  pose proof (@get_offset_never_raises Example.runtime "0.0" "0.0" Example.noon)
    as (_ & _ & Hnone & Hdate).
  refine (conj _ (conj _ _)).
  - apply (Hraise ValueError). reflexivity.
  - apply Hnone. reflexivity.
  - apply (Hdate _ Example.create_date (Some Datetime.zero));
      vm_compute; reflexivity.
Defined.


(** The example of the specification: the file was written at 21:00:03
    at +09:00, three seconds after noon UTC. *)
Lemma get_date_file_corroboration_witness :
  @get_date Example.runtime Example.video_file MEDIA_TYPE_VIDEO
  = Ok (Some (mkDatetime 2021 6 1 21 0 0),
        Some "QuickTime:CreateDate in UTC + 09:00 via File").
Proof.
  pose proof (@get_date_file_corroboration Example.runtime Example.video_file
                Example.create_date "2021:06:01 21:00:03+09:00"
                Example.noon (mkDatetime 2021 6 1 21 0 3)
                (Some Datetime.zero) (mkTimedelta 32400))
    as Hfile.
  destruct Hfile as (_ & Hiff);
    [vm_compute; reflexivity | vm_compute; reflexivity
    | left; vm_compute; reflexivity
    | vm_compute; reflexivity ..|].
  apply (Hiff (mkDatetime 2021 6 1 12 0 3) (mkDatetime 2021 6 1 21 0 0));
    [vm_compute; reflexivity ..|].
  vm_compute. discriminate.
Defined.

(** ** The collision loop *)

Lemma renamed_inj (dst_root dst_ext : string) (i j : Z) :
  renamed dst_root dst_ext i = renamed dst_root dst_ext j -> i = j.
Proof.
  unfold renamed, Str.of_int. intros Heq.
  apply (inj (String.app dst_root)) in Heq.
  apply (inj (String.app "_")) in Heq.
  apply string_app_inv_tail in Heq.
  now apply (inj pretty) in Heq.
Qed.

Lemma occupied_dom (cfg : config) (st : state) (p : string) :
  occupied cfg st p = true -> p ∈ dom (files st) ∪ dom (test_file_dict st).
Proof.
  unfold occupied, FS.isfile.
  intros [Hfile|[_ Hclaimed]%andb_true_iff]%orb_true_iff.
  - apply bool_decide_eq_true in Hfile. apply elem_of_union_l.
    now apply elem_of_dom.
  - apply bool_decide_eq_true in Hclaimed. now apply elem_of_union_r.
Qed.

(** What the loop returns: the appendix counts the renamings, the path
    is the last one tried, and every path tried before it was taken. *)
Lemma collision_loop_Ok (fuel : nat) (cfg : config) (st : state)
    (src_file dst_root dst_ext : string) :
  forall (dst_file : string) (a : Z) (dst_final : string) (identical : bool)
         (a_final : Z),
    collision_loop fuel cfg st src_file dst_root dst_ext dst_file a
    = Ok (dst_final, identical, a_final) ->
    a <= a_final
    /\ dst_final = (if a_final =? a then dst_file
                    else renamed dst_root dst_ext (a_final - 1))
    /\ (a < a_final -> occupied cfg st dst_file = true)
    /\ (forall j, a <= j < a_final - 1 ->
                  occupied cfg st (renamed dst_root dst_ext j) = true)
    /\ occupied cfg st dst_final = identical
    /\ (identical = true -> keep cfg = false).
Proof.
  induction fuel as [|fuel IH]; intros dst_file a dst_final identical a_final;
    [discriminate|].
  cbn [collision_loop]. fold (occupied cfg st dst_file).
  destruct (occupied cfg st dst_file) eqn:Hocc.
  - intros Hloop. apply bind_Ok in Hloop as (same & Hcmp & Hloop).
    destruct same.
    + injection Hloop as <- <- <-. rewrite Z.eqb_refl.
      repeat split; try lia; try assumption.
      intros _. destruct (keep cfg); [discriminate|reflexivity].
    + apply IH in Hloop as (Hle & Hfinal & Hfirst & Hbefore & Hident & Hkeep).
      destruct (Z.eqb_spec a_final a) as [->|_]; [lia|].
      repeat split; try lia; try assumption.
      * rewrite Hfinal. destruct (Z.eqb_spec a_final (a + 1)) as [->|_];
          [f_equal; lia | reflexivity].
      * intros j Hj. destruct (Z.eq_dec j a) as [->|Hne].
        -- apply Hfirst. lia.
        -- apply Hbefore. lia.
  - intros [= <- <- <-]. rewrite Z.eqb_refl.
    repeat split; try lia; try assumption; try discriminate.
Qed.

Lemma cmp_not_OutOfFuel (fs : gmap string file) (f1 f2 : string) :
  FS.cmp fs f1 f2 ≠ OutOfFuel.
Proof. unfold FS.cmp. now destruct (fs !! f1), (fs !! f2). Qed.

(** A loop that was cut off found every path it tried taken. *)
Lemma collision_loop_OutOfFuel (fuel : nat) (cfg : config) (st : state)
    (src_file dst_root dst_ext : string) :
  forall (dst_file : string) (a : Z),
    collision_loop fuel cfg st src_file dst_root dst_ext dst_file a = OutOfFuel ->
    forall j, a <= j < a + Z.of_nat fuel - 1 ->
              occupied cfg st (renamed dst_root dst_ext j) = true.
Proof.
  induction fuel as [|fuel IH]; intros dst_file a Hloop j Hj; [lia|].
  cbn [collision_loop] in Hloop. fold (occupied cfg st dst_file) in Hloop.
  destruct (occupied cfg st dst_file); [|discriminate].
  apply bind_OutOfFuel in Hloop as [Hcmp|(same & Hcmp & Hloop)].
  - destruct (keep cfg); [discriminate|]. now apply cmp_not_OutOfFuel in Hcmp.
  - destruct same; [discriminate|].
    destruct (Z.eq_dec j a) as [->|Hne].
    + destruct fuel as [|fuel]; [lia|].
      cbn [collision_loop] in Hloop.
      fold (occupied cfg st (renamed dst_root dst_ext a)) in Hloop.
      now destruct (occupied cfg st (renamed dst_root dst_ext a)).
    + apply (IH _ _ Hloop). lia.
Qed.

(** The loop ends: among more renamed paths than there are files and
    claimed paths, one is free. *)
Lemma collision_loop_budget (cfg : config) (st : state)
    (src_file dst_root dst_ext dst_file : string) (a : Z) :
  collision_loop (budget st) cfg st src_file dst_root dst_ext dst_file a
  ≠ OutOfFuel.
Proof.
  intros Hloop.
  pose proof (collision_loop_OutOfFuel _ _ _ _ _ _ _ _ Hloop) as Htaken.
  set (taken := dom (files st) ∪ dom (test_file_dict st)) in *.
  set (n := size taken).
  assert (Hbudget : Z.of_nat (budget st) = Z.of_nat n + 2)
    by (unfold budget; fold taken; fold n; lia).
  set (tried := renamed dst_root dst_ext <$> seqZ a (Z.of_nat n + 1)).
  assert (Hnodup : NoDup tried).
  { apply NoDup_fmap_2_strong; [|apply NoDup_seqZ].
    intros i j _ _. apply renamed_inj. }
  assert (Hsub : list_to_set tried ⊆ taken).
  { intros p (j & -> & Hj)%elem_of_list_to_set%list_elem_of_fmap.
    apply elem_of_seqZ in Hj. apply (occupied_dom cfg), Htaken. lia. }
  apply subseteq_size in Hsub. rewrite size_list_to_set in Hsub by assumption.
  unfold tried in Hsub. rewrite length_fmap, length_seqZ in Hsub.
  fold n in Hsub. lia.
Qed.



(** ** One record *)

Lemma with_files_id (st : state) : with_files (files st) st = st.
Proof. now destruct st. Qed.

Lemma place_Ok (cfg : config) (st st' : state) (src_file dst_file : string) :
  place cfg st src_file dst_file = Ok st' ->
  exists dst_final identical a fs,
    collision_loop (budget st) cfg st src_file
      (Path.splitext dst_file).1 (Path.splitext dst_file).2 dst_file 1
    = Ok (dst_final, identical, a)
    /\ transfer cfg (files st) src_file dst_final identical = Ok fs
    /\ st' = with_files fs (settle cfg st src_file dst_final identical).
Proof.
  unfold place. destruct (Path.splitext dst_file) as [dst_root dst_ext].
  intros Hplace.
  apply bind_Ok in Hplace as ([[dst_final identical] a] & Hloop & Hplace).
  exists dst_final, identical, a. cbn [fst snd]. unfold transfer, settle.
  destruct (test cfg) eqn:Htest, identical, (copy cfg) eqn:Hcopy;
    cbn [negb] in Hplace.
  all: try (injection Hplace as <-; eexists; split; [exact Hloop|];
            split; [reflexivity|]; now destruct st).
  all: apply bind_Ok in Hplace as (fs & Hfs & Hplace); injection Hplace as <-;
    exists fs; split; [exact Hloop|]; split; [exact Hfs|reflexivity].
Qed.

Section SortOne.

Context `{Runtime}.

Lemma sort_one_Ok (cfg : config) (st st' : state) (data : gmap string string) :
  sort_one cfg st data = Ok st' ->
  exists src_file date info,
    data !! "SourceFile" = Some src_file
    /\ get_date data (media_type cfg) = Ok (date, info)
    /\ (st' = ignore st
        \/ exists d dst_file,
            date = Some d
            /\ destination cfg src_file d = Ok dst_file
            /\ place cfg st src_file dst_file = Ok st').
Proof.
  unfold sort_one. intros Hone.
  apply bind_Ok in Hone as (src_file & Hsrc & Hone).
  destruct (data !! "SourceFile") as [s|]; [|discriminate].
  injection Hsrc as ->.
  apply bind_Ok in Hone as ([date info] & Hdate & Hone).
  exists src_file, date, info. split; [reflexivity|]. split; [assumption|].
  destruct (ignored_dot src_file); [left; congruence|].
  destruct (ignored_at src_file); [left; congruence|].
  destruct (ignored_hash src_file); [left; congruence|].
  destruct date as [d|]; [|left; congruence].
  apply bind_Ok in Hone as (dst_file & Hdst & Hone).
  right. exists d, dst_file. auto.
Qed.

Lemma sort_one_counts (cfg : config) (st st' : state) (data : gmap string string) :
  sort_one cfg st data = Ok st' -> counts_one st st'.
Proof.
  intros (src_file & date & info & _ & _ & [->|Hplaced])%sort_one_Ok.
  - left. now destruct st.
  - destruct Hplaced as (d & dst_file & _ & _ & Hplace).
    apply place_Ok in Hplace as (dst_final & identical & a & fs & _ & _ & ->).
    unfold settle. destruct identical; [right; left|right; right];
      destruct (test cfg); cbn; repeat split; eauto.
Qed.

Lemma sort_loop_counts (cfg : config) (metadata : list (gmap string string)) :
  forall st st',
    sort_loop cfg st metadata = Ok st' ->
    num_ignored st' + num_duplicates st' + num_processed st'
    = num_ignored st + num_duplicates st + num_processed st
      + Z.of_nat (length metadata)
    /\ Z.of_nat (length (processed st')) - num_processed st'
       = Z.of_nat (length (processed st)) - num_processed st.
Proof.
  induction metadata as [|data rest IH]; intros st st' Hloop.
  - injection Hloop as <-. cbn [length]. lia.
  - cbn [sort_loop] in Hloop.
    apply bind_Ok in Hloop as (st1 & Hone & Hloop).
    apply IH in Hloop as [Hsum Hlen]. apply sort_one_counts in Hone.
    cbn [length]. rewrite Hsum, Hlen.
    destruct Hone as [(-> & -> & -> & ->)|[(-> & -> & -> & ->)
                                          |(-> & -> & -> & pair & ->)]];
      rewrite ?length_app; cbn [length]; lia.
Qed.

(** C10.  In a run that completes, every record adds one to exactly one
    of the three counters; the counters add up to the number of records
    and the list of processed pairs is as long as the processed counter
    says. *)
Theorem sort_counters (cfg : config) (fs : gmap string file)
    (metadata : list (gmap string string)) (st : state) :
  sort cfg fs metadata = Ok st ->
  num_ignored st + num_duplicates st + num_processed st
  = Z.of_nat (length metadata)
  /\ Z.of_nat (length (processed st)) = num_processed st
  /\ (forall before data after st1 st2,
         metadata = (before ++ data :: after)%list ->
         sort cfg fs before = Ok st1 ->
         sort_one cfg st1 data = Ok st2 ->
         counts_one st1 st2).
Proof.
  unfold sort. intros Hsort.
  apply sort_loop_counts in Hsort as [Hsum Hlen]. cbn in Hsum, Hlen.
  repeat split; try lia.
  intros before data after st1 st2 _ _ Hone. exact (sort_one_counts _ _ _ _ Hone).
Qed.

End SortOne.

(** ** Duplicates *)

Lemma cmp_files_identical (a b : file) :
  content a = content b -> FS.cmp_files a b = true.
Proof.
  unfold FS.cmp_files, st_size. intros ->.
  rewrite Nat.eqb_refl, String.eqb_refl. cbn [negb andb].
  now destruct (st_mtime a =? st_mtime b).
Qed.

Lemma collision_loop_identical (fuel : nat) (cfg : config) (st : state)
    (src_file dst_root dst_ext dst_file : string) (a : Z) (f g : file) :
  keep cfg = false ->
  files st !! src_file = Some f ->
  occupant cfg st dst_file = Some g ->
  content f = content g ->
  collision_loop (S fuel) cfg st src_file dst_root dst_ext dst_file a
  = Ok (dst_file, true, a).
Proof.
  intros Hkeep Hsrc Hocc Hsame. cbn [collision_loop]. rewrite Hkeep.
  unfold occupant in Hocc. unfold FS.isfile.
  destruct (files st !! dst_file) as [g'|] eqn:Hdisk.
  - injection Hocc as ->.
    rewrite bool_decide_eq_true_2 by eauto. cbn [orb].
    unfold FS.cmp. rewrite Hsrc, Hdisk. cbn.
    now rewrite (cmp_files_identical f g Hsame).
  - rewrite bool_decide_eq_false_2 by (intros [? ?]; discriminate).
    destruct (test cfg); [|discriminate].
    destruct (test_file_dict st !! dst_file) as [owner|] eqn:Hclaim;
      [|discriminate].
    cbn in Hocc.
    rewrite bool_decide_eq_true_2 by (apply elem_of_dom; eauto). cbn [orb andb].
    rewrite (lookup_total_correct _ _ _ Hclaim).
    unfold FS.cmp. rewrite Hsrc, Hocc. cbn.
    now rewrite (cmp_files_identical f g Hsame).
Qed.

(** C4.  With duplicate removal enabled ([keep] off), a source whose
    bytes are those of the file occupying the path the loop looks at:
    the loop stops there without renaming; the file is counted as a
    duplicate and is not listed as processed; a dry run and copy mode
    leave the files as they are, move mode removes the source. *)
Theorem duplicate_is_not_renamed (cfg : config) (st : state)
    (src_file dst_file : string) (f g : file) :
  keep cfg = false ->
  files st !! src_file = Some f ->
  occupant cfg st dst_file = Some g ->
  content f = content g ->
  (forall fuel dst_root dst_ext a,
      collision_loop (S fuel) cfg st src_file dst_root dst_ext dst_file a
      = Ok (dst_file, true, a))
  /\ (forall first a,
         collision_loop (budget st) cfg st src_file
           (Path.splitext first).1 (Path.splitext first).2 first 1
         = Ok (dst_file, true, a) ->
         exists st',
           place cfg st src_file first = Ok st'
           /\ num_duplicates st' = num_duplicates st + 1
           /\ num_processed st' = num_processed st
           /\ num_ignored st' = num_ignored st
           /\ processed st' = processed st
           /\ files st' = (if test cfg then files st
                           else if copy cfg then files st
                                else delete src_file (files st)))
  /\ (exists st',
         place cfg st src_file dst_file = Ok st'
         /\ num_duplicates st' = num_duplicates st + 1
         /\ processed st' = processed st
         /\ files st' = (if test cfg then files st
                         else if copy cfg then files st
                              else delete src_file (files st))).
Proof.
  intros Hkeep Hsrc Hocc Hsame.
  assert (Hstop : forall fuel dst_root dst_ext a,
             collision_loop (S fuel) cfg st src_file dst_root dst_ext dst_file a
             = Ok (dst_file, true, a))
    by (intros; now apply (collision_loop_identical _ _ _ _ _ _ _ _ f g)).
  assert (Hplace : forall first a,
             collision_loop (budget st) cfg st src_file
               (Path.splitext first).1 (Path.splitext first).2 first 1
             = Ok (dst_file, true, a) ->
             exists st',
               place cfg st src_file first = Ok st'
               /\ num_duplicates st' = num_duplicates st + 1
               /\ num_processed st' = num_processed st
               /\ num_ignored st' = num_ignored st
               /\ processed st' = processed st
               /\ files st' = (if test cfg then files st
                               else if copy cfg then files st
                                    else delete src_file (files st))).
  { intros first a Hloop. unfold place.
    destruct (Path.splitext first) as [dst_root dst_ext]. cbn [fst snd] in Hloop.
    rewrite Hloop. cbn.
    destruct (test cfg), (copy cfg); cbn; try (eexists; split; [reflexivity|];
      now destruct st).
    unfold FS.remove. cbn. rewrite Hsrc. cbn.
    eexists. split; [reflexivity|]. now destruct st. }
  split; [exact Hstop|]. split; [exact Hplace|].
  destruct (Hplace dst_file 1) as (st' & Hst' & Hdup & _ & _ & Hproc & Hfiles).
  - apply Hstop.
  - eauto.
Qed.

(** ** Ignored paths *)

Lemma ignorable_tests (src_file : string) :
  ignorable src_file ->
  ignored_dot src_file || ignored_at src_file || ignored_hash src_file = true.
Proof.
  intros [[rest ->]|[[rest ->]|[(rest & -> & Hslash)|Hinside]]].
  - assert (ignored_at ("@" +:+ rest) = true) as ->; [|now rewrite ?orb_true_r].
    unfold ignored_at, Str.startswith. now rewrite (prefix_refl_app "@" rest).
  - assert (ignored_hash ("#" +:+ rest) = true) as ->; [|now rewrite ?orb_true_r].
    unfold ignored_hash, Str.startswith. now rewrite (prefix_refl_app "#" rest).
  - assert (ignored_dot ("." +:+ rest) = true) as ->; [|reflexivity].
    unfold ignored_dot, Str.startswith. rewrite (prefix_refl_app "." rest).
    change (String.prefix "./" ("." +:+ rest)) with (String.prefix "/" rest).
    unfold Str.startswith in Hslash. now rewrite Hslash.
  - destruct Hinside as (before & mark & after & Hmark & ->).
    apply list_elem_of_In in Hmark. cbn in Hmark.
    destruct Hmark as [<-|[<-|[<-|[]]]].
    + assert (ignored_dot (before +:+ "/" +:+ "." +:+ after) = true) as ->;
        [|reflexivity].
      unfold ignored_dot.
      change (before +:+ "/" +:+ "." +:+ after)
        with (before +:+ "/." +:+ after).
      rewrite (contains_middle "/." before after). apply orb_true_r.
    + assert (ignored_at (before +:+ "/" +:+ "@" +:+ after) = true) as ->;
        [|now rewrite ?orb_true_r].
      unfold ignored_at.
      change (before +:+ "/" +:+ "@" +:+ after)
        with (before +:+ "/@" +:+ after).
      rewrite (contains_middle "/@" before after). apply orb_true_r.
    + assert (ignored_hash (before +:+ "/" +:+ "#" +:+ after) = true) as ->;
        [|now rewrite ?orb_true_r].
      unfold ignored_hash.
      change (before +:+ "/" +:+ "#" +:+ after)
        with (before +:+ "/#" +:+ after).
      rewrite (contains_middle "/#" before after). apply orb_true_r.
Qed.

Section Ignored.

Context `{Runtime}.

(** C9, as the code has it.  A record whose source path starts with [@]
    or [#], starts with a dot that is not followed by a slash, or has a
    component after a slash that starts with [.], [@] or [#], is counted
    as ignored and nothing else changes, whatever its date resolves to,
    once [get_date] has returned for it. *)
Theorem ignorable_is_ignored (cfg : config) (st : state)
    (data : gmap string string) (src_file : string)
    (r : option datetime * option string) :
  data !! "SourceFile" = Some src_file ->
  ignorable src_file ->
  get_date data (media_type cfg) = Ok r ->
  sort_one cfg st data = Ok (ignore st)
  /\ num_ignored (ignore st) = num_ignored st + 1
  /\ num_duplicates (ignore st) = num_duplicates st
  /\ num_processed (ignore st) = num_processed st
  /\ processed (ignore st) = processed st
  /\ files (ignore st) = files st
  /\ test_file_dict (ignore st) = test_file_dict st.
Proof.
  intros Hsrc Hpath%ignorable_tests Hdate.
  split; [|now destruct st].
  unfold sort_one. rewrite Hsrc, Hdate. cbn. destruct r as [date info].
  destruct (ignored_dot src_file); [reflexivity|].
  destruct (ignored_at src_file); [reflexivity|].
  destruct (ignored_hash src_file); [reflexivity|discriminate].
Qed.

End Ignored.

(** ** The ledger of a dry run *)

Lemma settle_ledger (cfg : config) (st : state) (src_file dst_file : string)
    (identical : bool) (fs : gmap string file) :
  test_file_dict (with_files fs (settle cfg st src_file dst_file identical))
  = if test cfg then <[dst_file := src_file]> (test_file_dict st)
    else test_file_dict st.
Proof. unfold settle. now destruct (test cfg), identical. Qed.

Lemma settle_processed (cfg : config) (st : state) (src_file dst_file : string)
    (identical : bool) (fs : gmap string file) :
  processed (with_files fs (settle cfg st src_file dst_file identical))
  = if identical then processed st
    else (processed st ++ [(src_file, dst_file)])%list.
Proof. unfold settle. now destruct (test cfg), identical. Qed.

Lemma settle_duplicates (cfg : config) (st : state) (src_file dst_file : string)
    (identical : bool) (fs : gmap string file) :
  num_duplicates (with_files fs (settle cfg st src_file dst_file identical))
  = if identical then num_duplicates st + 1 else num_duplicates st.
Proof. unfold settle. now destruct (test cfg), identical. Qed.

Section Ledger.

Context `{Runtime}.

Lemma sort_one_ledger (cfg : config) (st st' : state)
    (data : gmap string string) (key owner : string) :
  test cfg = true ->
  sort_one cfg st data = Ok st' ->
  test_file_dict st !! key = Some owner ->
  test_file_dict st' !! key = Some owner
  \/ (keep cfg = false
      /\ num_duplicates st' = num_duplicates st + 1
      /\ processed st' = processed st
      /\ exists src_file,
          data !! "SourceFile" = Some src_file
          /\ test_file_dict st' !! key = Some src_file).
Proof.
  intros Htest (src_file & date & info & Hsrc & _ & [->|Hplaced])%sort_one_Ok
    Hkey.
  - left. now destruct st.
  - destruct Hplaced as (d & dst_file & _ & _ & Hplace).
    apply place_Ok in Hplace
      as (dst_final & identical & a & fs & Hloop & _ & ->).
    rewrite settle_ledger, settle_duplicates, settle_processed, Htest.
    destruct (decide (dst_final = key)) as [->|Hne];
      [|left; now rewrite lookup_insert_ne].
    apply collision_loop_Ok in Hloop as (_ & _ & _ & _ & Hocc & Hkeep).
    assert (occupied cfg st key = true) as Hclaimed.
    { unfold occupied. rewrite Htest.
      rewrite (bool_decide_eq_true_2 (key ∈ dom (test_file_dict st)))
        by (apply elem_of_dom; eauto).
      apply orb_true_r. }
    rewrite Hclaimed in Hocc. subst identical.
    right. split; [now apply Hkeep|]. split; [reflexivity|].
    split; [reflexivity|]. exists src_file. split; [assumption|].
    apply lookup_insert_eq.
Qed.

(** C6, as the code has it.  In a dry run a path that has been claimed
    stays claimed to the end of the run.  A record that is ignored or
    processed leaves it with the source file it had; only a record that
    the collision loop finds to be a duplicate at that path, which needs
    [keep] off, reassigns it, to its own source file.  With [keep] on
    the ledger is write-once for the whole run. *)
Theorem ledger_reassigned_by_duplicates_only (cfg : config) (st : state)
    (key owner : string) :
  test cfg = true ->
  test_file_dict st !! key = Some owner ->
  (forall data st',
      sort_one cfg st data = Ok st' ->
      test_file_dict st' !! key = Some owner
      \/ (keep cfg = false
          /\ num_duplicates st' = num_duplicates st + 1
          /\ processed st' = processed st
          /\ exists src_file,
              data !! "SourceFile" = Some src_file
              /\ test_file_dict st' !! key = Some src_file))
  /\ (forall metadata st',
         sort_loop cfg st metadata = Ok st' ->
         is_Some (test_file_dict st' !! key))
  /\ (keep cfg = true ->
      forall metadata st',
        sort_loop cfg st metadata = Ok st' ->
        test_file_dict st' !! key = Some owner).
Proof.
  intros Htest Hkey. refine (conj _ (conj _ _)).
  - intros data st' Hone. now apply (sort_one_ledger cfg st st' data).
  - intros metadata. revert st owner Hkey.
    induction metadata as [|data rest IH]; intros st owner Hkey st' Hloop.
    + injection Hloop as <-. eauto.
    + cbn [sort_loop] in Hloop.
      apply bind_Ok in Hloop as (st1 & Hone & Hloop).
      destruct (sort_one_ledger cfg st st1 data key owner Htest Hone Hkey)
        as [Hsame|(_ & _ & _ & src_file & _ & Hnew)];
        eapply IH; eauto.
  - intros Hkeep metadata. revert st Hkey.
    induction metadata as [|data rest IH]; intros st Hkey st' Hloop.
    + now injection Hloop as <-.
    + cbn [sort_loop] in Hloop.
      apply bind_Ok in Hloop as (st1 & Hone & Hloop).
      destruct (sort_one_ledger cfg st st1 data key owner Htest Hone Hkey)
        as [Hsame|(Hoff & _)]; [eapply IH; eauto|congruence].
Qed.

End Ledger.

(** ** Collision chains *)

Lemma rpartition_app (c : ascii) (s x y : string) :
  Path.rpartition c s = Some (x, y) -> s = x +:+ String c y.
Proof.
  revert x y. induction s as [|a s IH]; intros x y; [discriminate|].
  cbn [Path.rpartition].
  destruct (Path.rpartition c s) as [[x' y']|].
  - intros [= <- <-]. rewrite string_app_cons. f_equal. now apply IH.
  - destruct (Ascii.eqb_spec a c) as [->|_]; [|discriminate].
    now intros [= <- <-].
Qed.

(** [os.path.splitext] cuts the path in two. *)
Lemma splitext_app (p : string) :
  (Path.splitext p).1 +:+ (Path.splitext p).2 = p.
Proof.
  unfold Path.splitext.
  destruct (Path.rpartition "/" p) as [[d b]|] eqn:Hdir.
  - apply rpartition_app in Hdir.
    destruct (Path.rpartition "." b) as [[stem e]|] eqn:Hext.
    + apply rpartition_app in Hext. destruct (Path.all_dots stem); cbn [fst snd].
      * clear. induction p as [|a p IH]; [reflexivity|].
        rewrite string_app_cons. now rewrite IH.
      * subst. rewrite !string_app_assoc. reflexivity.
    + cbn [fst snd]. clear. induction p as [|a p IH]; [reflexivity|].
      rewrite string_app_cons. now rewrite IH.
  - destruct (Path.rpartition "." p) as [[stem e]|] eqn:Hext.
    + apply rpartition_app in Hext. destruct (Path.all_dots stem); cbn [fst snd].
      * clear. induction p as [|a p IH]; [reflexivity|].
        rewrite string_app_cons. now rewrite IH.
      * now subst.
    + cbn [fst snd]. clear. induction p as [|a p IH]; [reflexivity|].
      rewrite string_app_cons. now rewrite IH.
Qed.

(** No path occurs twice in a chain. *)
Lemma candidate_inj (dst_root dst_ext dst_file : string) (i j : Z) :
  dst_root +:+ dst_ext = dst_file ->
  candidate dst_root dst_ext dst_file i = candidate dst_root dst_ext dst_file j ->
  i = j.
Proof.
  intros <-. unfold candidate.
  assert (Hlen : forall k, dst_root +:+ dst_ext ≠ renamed dst_root dst_ext k).
  { intros k Heq. apply (f_equal String.length) in Heq. unfold renamed in Heq.
    rewrite !string_length_app in Heq. cbn in Heq. lia. }
  destruct (Z.eqb_spec i 0) as [->|Hi], (Z.eqb_spec j 0) as [->|Hj].
  - reflexivity.
  - intros Heq. now apply Hlen in Heq.
  - intros Heq. symmetry in Heq. now apply Hlen in Heq.
  - apply renamed_inj.
Qed.


Lemma isfile_spec (fs : gmap string file) (p : string) :
  FS.isfile fs p = true <-> is_Some (fs !! p).
Proof. unfold FS.isfile. apply bool_decide_eq_true. Qed.

(** [filecmp.cmp] is called with its default [shallow=True]: files of
    the same size and modification time compare equal whatever their
    bytes are, so "compare different" is stronger than "differ". *)
Remark cmp_files_shallow :
  FS.cmp_files (mkFile 100 "first") (mkFile 100 "third") = true
  /\ FS.cmp_files (mkFile 100 "first") (mkFile 200 "third") = false.
Proof. split; reflexivity. Qed.










(** ** No destination is assigned twice *)

(** What the transfer leaves on disk. *)
Lemma transfer_keeps (cfg : config) (fs fs' : gmap string file)
    (src_file dst_file : string) (identical : bool) :
  transfer cfg fs src_file dst_file identical = Ok fs' ->
  (forall p, is_Some (fs !! p) ->
             p ≠ src_file \/ test cfg = true \/ copy cfg = true ->
             is_Some (fs' !! p))
  /\ (test cfg = false -> identical = false -> is_Some (fs' !! dst_file))
  /\ (test cfg = true -> fs' = fs).
Proof.
  unfold transfer, FS.remove, FS.copy2, FS.move.
  destruct (test cfg), identical, (copy cfg);
    try (intros [= <-]; repeat split; auto; discriminate).
  - destruct (fs !! src_file) as [f|]; [|discriminate]. intros [= <-].
    repeat split; try discriminate.
    intros p Hp [Hne|[?|?]]; try discriminate. now rewrite lookup_delete_ne.
  - destruct (fs !! src_file) as [f|]; [|discriminate].
    destruct (String.eqb src_file dst_file); [discriminate|]. intros [= <-].
    repeat split; try discriminate.
    + intros p Hp _. destruct (decide (dst_file = p)) as [->|Hne].
      * rewrite lookup_insert_eq. eauto.
      * now rewrite lookup_insert_ne.
    + intros _ _. rewrite lookup_insert_eq. eauto.
  - destruct (fs !! src_file) as [f|]; [|discriminate]. intros [= <-].
    repeat split; try discriminate.
    + intros p Hp [Hne|[?|?]]; try discriminate.
      destruct (decide (dst_file = p)) as [->|Hne'].
      * rewrite lookup_insert_eq. eauto.
      * rewrite lookup_insert_ne by assumption. now rewrite lookup_delete_ne.
    + intros _ _. rewrite lookup_insert_eq. eauto.
Qed.

Lemma occupied_settled (cfg : config) (st : state) (src_file dst_file : string)
    (identical : bool) (fs : gmap string file) (p : string) :
  occupied cfg (with_files fs (settle cfg st src_file dst_file identical)) p
  = FS.isfile fs p
    || (test cfg
        && bool_decide (p ∈ dom (<[dst_file := src_file]> (test_file_dict st)))).
Proof.
  unfold occupied. rewrite settle_ledger.
  destruct (test cfg); [|now rewrite !andb_false_l]. now destruct st, identical.
Qed.

Lemma sources_cons (data : gmap string string) (rest : list (gmap string string))
    (src_file : string) :
  data !! "SourceFile" = Some src_file ->
  sources (data :: rest) = src_file :: sources rest.
Proof. unfold sources. cbn [omap list_omap]. now intros ->. Qed.

Lemma placed_apart_placed (cfg : config) (st : state)
    (data : gmap string string) (rest : list (gmap string string))
    (src_file dst_final : string) (identical : bool) (a : Z)
    (fs : gmap string file) (dst_root dst_ext first : string) :
  placed_apart cfg st (data :: rest) ->
  data !! "SourceFile" = Some src_file ->
  collision_loop (budget st) cfg st src_file dst_root dst_ext first 1
  = Ok (dst_final, identical, a) ->
  transfer cfg (files st) src_file dst_final identical = Ok fs ->
  placed_apart cfg (with_files fs (settle cfg st src_file dst_final identical))
    rest.
Proof.
  intros (Hnodup & Htaken & Hmove) Hsrc Hloop Htransfer.
  rewrite (sources_cons _ _ _ Hsrc) in Hmove.
  apply collision_loop_Ok in Hloop as (_ & _ & _ & _ & Hocc & _).
  apply transfer_keeps in Htransfer as (Hkeeps & Hnew & Hdry).
  assert (Hold : forall d, d ∈ dsts st ->
                   occupied cfg
                     (with_files fs (settle cfg st src_file dst_final identical))
                     d = true).
  { intros d Hd. rewrite occupied_settled. specialize (Htaken d Hd).
    unfold occupied in Htaken. apply orb_true_iff in Htaken.
    apply orb_true_iff. destruct Htaken as [Hfile|Hclaim].
    - apply isfile_spec in Hfile.
      destruct (test cfg) eqn:Htest.
      + left. apply isfile_spec, Hkeeps; auto.
      + destruct (copy cfg) eqn:Hcopy.
        * left. apply isfile_spec, Hkeeps; auto.
        * left. apply isfile_spec, Hkeeps; [assumption|]. left.
          destruct (Hmove eq_refl eq_refl) as (_ & _ & Hapart).
          intros ->. apply (Hapart src_file Hd). apply list_elem_of_here.
    - right. apply andb_true_iff in Hclaim as [-> Hclaim].
      apply bool_decide_eq_true in Hclaim. cbn [andb].
      apply bool_decide_eq_true. rewrite dom_insert_L.
      now apply elem_of_union_r. }
  assert (Hfresh : identical = false -> dst_final ∉ dsts st).
  { intros -> Hd. apply Htaken in Hd. congruence. }
  unfold placed_apart, dsts. rewrite settle_processed.
  refine (conj _ (conj _ _)).
  - destruct identical; [assumption|]. rewrite fmap_app. cbn [fmap list_fmap snd].
    apply NoDup_app. split; [assumption|]. split; [|apply NoDup_singleton].
    intros d Hd ->%list_elem_of_singleton. now apply Hfresh.
  - destruct identical; [exact Hold|]. rewrite fmap_app. cbn [fmap list_fmap snd].
    intros d [Hd| ->%list_elem_of_singleton]%elem_of_app; [now apply Hold|].
    rewrite occupied_settled. apply orb_true_iff.
    destruct (test cfg) eqn:Htest.
    + right. cbn [andb]. apply bool_decide_eq_true. rewrite dom_insert_L.
      now apply elem_of_union_l, elem_of_singleton.
    + left. apply isfile_spec. now apply Hnew.
  - intros Htest Hcopy.
    destruct (Hmove Htest Hcopy) as (Hsources & Hexist & Hapart).
    apply NoDup_cons in Hsources as [Hnotin Hsources].
    split; [assumption|]. split.
    + intros s Hs. cbn [files with_files]. apply Hkeeps.
      * apply Hexist. now apply list_elem_of_further.
      * left. intros ->. contradiction.
    + assert (Hrest : forall d, d ∈ dsts st -> d ∉ sources rest).
      { intros d Hd Hin. apply (Hapart d Hd). now apply list_elem_of_further. }
      destruct identical; [exact Hrest|]. rewrite fmap_app. cbn [fmap list_fmap snd].
      intros d [Hd| ->%list_elem_of_singleton]%elem_of_app; [now apply Hrest|].
      intros Hin.
      assert (is_Some (files st !! dst_final)) as Hthere
        by (apply Hexist; now apply list_elem_of_further).
      unfold occupied in Hocc. apply orb_false_iff in Hocc as [Hfile _].
      apply isfile_spec in Hthere. congruence.
Qed.

Section Apart.

Context `{Runtime}.

Lemma placed_apart_step (cfg : config) (st st' : state)
    (data : gmap string string) (rest : list (gmap string string)) :
  placed_apart cfg st (data :: rest) ->
  sort_one cfg st data = Ok st' ->
  placed_apart cfg st' rest.
Proof.
  intros Hinv (src_file & date & info & Hsrc & _ & [->|Hplaced])%sort_one_Ok.
  - destruct Hinv as (Hnodup & Htaken & Hmove).
    rewrite (sources_cons _ _ _ Hsrc) in Hmove.
    refine (conj _ (conj _ _)).
    + exact Hnodup.
    + intros d Hd. exact (Htaken d Hd).
    + intros Htest Hcopy.
      destruct (Hmove Htest Hcopy) as (Hsources & Hexist & Hapart).
      apply NoDup_cons in Hsources as [_ Hsources].
      split; [assumption|]. split.
      * intros s Hs. exact (Hexist s (list_elem_of_further _ _ _ Hs)).
      * intros d Hd Hin. apply (Hapart d Hd).
        now apply list_elem_of_further.
  - destruct Hplaced as (d & dst_file & _ & _ & Hplace).
    apply place_Ok in Hplace
      as (dst_final & identical & a & fs & Hloop & Htransfer & ->).
    eapply placed_apart_placed; eauto.
Qed.


End Apart.

Section Chains.

Context `{Runtime}.





End Chains.

(** ** Worked examples *)


(** The same three photos copied, and in a dry run. *)
Lemma collision_chain_examples :
  (exists st,
      @sort Example.runtime (Example.cfg true false false) Example.disk
        Example.batch = Ok st
      /\ processed st = [("a/photo.jpg", "out/2021/06/photo.jpg");
                         ("b/photo.jpg", "out/2021/06/photo_1.jpg");
                         ("c/photo.jpg", "out/2021/06/photo_2.jpg")])
  /\ (exists st,
         @sort Example.runtime (Example.cfg false false true) Example.disk
           Example.batch = Ok st
         /\ processed st = [("a/photo.jpg", "out/2021/06/photo.jpg");
                            ("b/photo.jpg", "out/2021/06/photo_1.jpg");
                            ("c/photo.jpg", "out/2021/06/photo_2.jpg")]).
Proof.
  split; eexists; (split; [vm_compute; reflexivity|reflexivity]).
Qed.

(** The second twin meets the copy of the first: it is a duplicate, and
    moving removes it. *)
Lemma duplicate_is_not_renamed_witness :
  exists st',
    place (Example.cfg false false false) (initial Example.sorted_disk)
      "b/photo.jpg" "out/2021/06/photo.jpg" = Ok st'
    /\ num_duplicates st' = 0 + 1
    /\ processed st' = []
    /\ files st' = delete "b/photo.jpg" Example.sorted_disk.
Proof.
  destruct (duplicate_is_not_renamed (Example.cfg false false false)
              (initial Example.sorted_disk)
              "b/photo.jpg" "out/2021/06/photo.jpg"
              (mkFile 200 "first") (mkFile 100 "first"))
    as (_ & _ & st' & Hplace & Hdup & Hproc & Hfiles);
    [reflexivity | vm_compute; reflexivity | vm_compute; reflexivity
    | reflexivity |].
  exists st'. auto.
Defined.

(** C6 as the specification words it fails: in the dry run of the twins
    the first record claims the destination for [a/photo.jpg], and the
    second, a duplicate, reassigns the same key to [b/photo.jpg]. *)
Lemma ledger_key_reassigned :
  @sort Example.runtime (Example.cfg false false true) Example.twin_disk
    [Example.photo "a/photo.jpg" "2021:06:01 10:00:00"]
  = Ok Example.after_first
  /\ test_file_dict Example.after_first !! "out/2021/06/photo.jpg"
     = Some "a/photo.jpg"
  /\ exists st,
      @sort_one Example.runtime (Example.cfg false false true)
        Example.after_first
        (Example.photo "b/photo.jpg" "2021:06:01 10:00:00")
      = Ok st
      /\ test_file_dict st !! "out/2021/06/photo.jpg" = Some "b/photo.jpg".
Proof.
  split; [vm_compute; reflexivity|]. split; [vm_compute; reflexivity|].
  eexists. split; vm_compute; reflexivity.
Qed.

Lemma ledger_reassigned_by_duplicates_only_witness :
  exists st,
    @sort_one Example.runtime (Example.cfg false false true)
      Example.after_first
      (Example.photo "b/photo.jpg" "2021:06:01 10:00:00")
    = Ok st
    /\ (test_file_dict st !! "out/2021/06/photo.jpg" = Some "a/photo.jpg"
        \/ (keep (Example.cfg false false true) = false
            /\ num_duplicates st = num_duplicates Example.after_first + 1
            /\ processed st = processed Example.after_first
            /\ exists src_file,
                Example.photo "b/photo.jpg" "2021:06:01 10:00:00"
                !! "SourceFile" = Some src_file
                /\ test_file_dict st !! "out/2021/06/photo.jpg"
                   = Some src_file)).
Proof.
  eexists. split; [vm_compute; reflexivity|].
  apply (proj1 (@ledger_reassigned_by_duplicates_only Example.runtime
                  (Example.cfg false false true) Example.after_first
                  "out/2021/06/photo.jpg" "a/photo.jpg"
                  eq_refl ltac:(vm_compute; reflexivity))
           (Example.photo "b/photo.jpg" "2021:06:01 10:00:00")).
  vm_compute. reflexivity.
Defined.

(** C9 as the specification words it fails: a path that begins with a
    dot and a slash is not ignored but placed; and the date of a record
    is resolved before its path is looked at, so a hidden file with a
    date that [int] rejects stops the run. *)
Lemma leading_dot_slash_not_ignored :
  (exists st,
      @sort Example.runtime (Example.cfg true true true) ∅
        [Example.photo "./a.jpg" "2021:06:01 10:00:00"] = Ok st
      /\ num_ignored st = 0
      /\ processed st = [("./a.jpg", "out/2021/06/a.jpg")])
  /\ @sort Example.runtime (Example.cfg true true true) ∅
       [Example.photo ".trash/b.jpg" "2021:ab:01 10:00:00"]
     = Raise ValueError.
Proof.
  split; [eexists; split; [vm_compute; reflexivity|split; reflexivity]|].
  vm_compute. reflexivity.
Qed.

(** The examples of the specification: a component [.trash] and a
    leading [@eaDir]. *)
Lemma ignorable_is_ignored_witness :
  @sort_one Example.runtime (Example.cfg false false false)
    (initial Example.disk)
    (Example.photo "photos/.trash/x.jpg" "2021:06:01 10:00:00")
  = Ok (ignore (initial Example.disk))
  /\ @sort_one Example.runtime (Example.cfg false false false)
       (initial Example.disk)
       (Example.photo "@eaDir/x.jpg" "2021:06:01 10:00:00")
     = Ok (ignore (initial Example.disk)).
Proof.
  split.
  - eapply (@ignorable_is_ignored Example.runtime); [vm_compute; reflexivity| |
      vm_compute; reflexivity].
    do 3 right. exists "photos", ".", "trash/x.jpg". split; [|reflexivity].
    apply list_elem_of_here.
  - eapply (@ignorable_is_ignored Example.runtime); [vm_compute; reflexivity| |
      vm_compute; reflexivity].
    left. exists "eaDir/x.jpg". reflexivity.
Defined.

(** The twins and the hidden file, moved: one processed, one duplicate,
    one ignored. *)
Lemma sort_counters_witness :
  exists st,
    @sort Example.runtime (Example.cfg false false false) Example.twin_disk
      Example.twins = Ok st
    /\ (num_ignored st, num_duplicates st, num_processed st) = (1, 1, 1)
    /\ num_ignored st + num_duplicates st + num_processed st
       = Z.of_nat (length Example.twins)
    /\ Z.of_nat (length (processed st)) = num_processed st.
Proof.
  eexists. split; [vm_compute; reflexivity|]. split; [reflexivity|].
  destruct (@sort_counters Example.runtime (Example.cfg false false false)
              Example.twin_disk Example.twins _ ltac:(vm_compute; reflexivity))
    as (Hsum & Hlen & _).
  split; [exact Hsum|exact Hlen].
Defined.

(** * The disk after a run *)

(** The transfer, case by case. *)
Lemma transfer_Ok (cfg : config) (fs fs' : gmap string file)
    (src_file dst_file : string) (identical : bool) :
  transfer cfg fs src_file dst_file identical = Ok fs' ->
  (test cfg = true /\ fs' = fs)
  \/ (test cfg = false /\ identical = true /\ copy cfg = true /\ fs' = fs)
  \/ (test cfg = false /\ identical = true /\ copy cfg = false
      /\ is_Some (fs !! src_file) /\ fs' = delete src_file fs)
  \/ (test cfg = false /\ identical = false /\ copy cfg = true
      /\ src_file ≠ dst_file
      /\ exists f, fs !! src_file = Some f /\ fs' = <[dst_file := f]> fs)
  \/ (test cfg = false /\ identical = false /\ copy cfg = false
      /\ exists f, fs !! src_file = Some f
                   /\ fs' = <[dst_file := f]> (delete src_file fs)).
Proof.
  unfold transfer, FS.remove, FS.copy2, FS.move. intros Ht.
  destruct (test cfg); [injection Ht as <-; now left|right].
  destruct identical, (copy cfg).
  - injection Ht as <-. now left.
  - right; left. destruct (fs !! src_file) as [f|]; [|discriminate].
    injection Ht as <-. eauto 10.
  - do 2 right; left. destruct (fs !! src_file) as [f|]; [|discriminate].
    destruct (String.eqb_spec src_file dst_file); [discriminate|].
    injection Ht as <-. eauto 10.
  - do 3 right. destruct (fs !! src_file) as [f|]; [|discriminate].
    injection Ht as <-. eauto 10.
Qed.

Section Steps.

Context `{Runtime}.

Lemma sort_one_cases (cfg : config) (st st' : state) (data : gmap string string) :
  sort_one cfg st data = Ok st' ->
  exists src_file,
    data !! "SourceFile" = Some src_file
    /\ (st' = ignore st \/ placed cfg st st' src_file).
Proof.
  intros (src_file & date & info & Hsrc & _ & [->|Hplaced])%sort_one_Ok.
  - eauto.
  - destruct Hplaced as (d & first & _ & _ & Hplace).
    apply place_Ok in Hplace as (dst & identical & a & fs & Hloop & Ht & ->).
    exists src_file. split; [assumption|]. right.
    exists first, dst, identical, a, fs. auto.
Qed.

End Steps.

Lemma occupied_false_disk (cfg : config) (st : state) (p : string) :
  occupied cfg st p = false -> files st !! p = None.
Proof.
  unfold occupied. intros [Hfile _]%orb_false_iff.
  destruct (files st !! p) eqn:Hp; [|reflexivity].
  assert (FS.isfile (files st) p = true) by (apply isfile_spec; eauto).
  congruence.
Qed.

Section Disk.

Context `{Runtime}.

Lemma sort_one_disk (cfg : config) (st st' : state) (data : gmap string string) :
  sort_one cfg st data = Ok st' ->
  exists src_file,
    data !! "SourceFile" = Some src_file /\ disk_step cfg st st' src_file.
Proof.
  intros (src_file & Hsrc & [->|Hplaced])%sort_one_cases;
    exists src_file; (split; [assumption|]).
  - left. now destruct st.
  - destruct Hplaced as (first & d & identical & a & fs & Hloop & Ht & ->).
    apply collision_loop_Ok in Hloop as (_ & _ & _ & _ & Hocc & Hkeep).
    unfold disk_step. rewrite settle_processed. cbn [files with_files].
    apply transfer_Ok in Ht
      as [(Htest & ->)|[(Htest & -> & Hcopy & ->)
         |[(Htest & -> & Hcopy & Hthere & ->)
         |[(Htest & -> & Hcopy & Hne & f & Hf & ->)
          |(Htest & -> & Hcopy & f & Hf & ->)]]]].
    + destruct identical; [now left|]. right; left.
      apply occupied_false_disk in Hocc. eauto 10.
    + now left.
    + do 2 right; left. auto 10.
    + do 3 right; left. apply occupied_false_disk in Hocc. eauto 10.
    + do 4 right. apply occupied_false_disk in Hocc. eauto 10.
Qed.


End Disk.

Section Disk2.

Context `{Runtime}.

Lemma placed_apart_final (cfg : config) (metadata : list (gmap string string)) :
  forall st st',
    placed_apart cfg st metadata ->
    sort_loop cfg st metadata = Ok st' ->
    placed_apart cfg st' [].
Proof.
  induction metadata as [|data rest IH]; intros st st' Hinv Hloop.
  - now injection Hloop as <-.
  - cbn [sort_loop] in Hloop.
    apply bind_Ok in Hloop as (st1 & Hone & Hloop).
    eapply IH; [|exact Hloop]. eapply placed_apart_step; eauto.
Qed.

Lemma sort_loop_appends (cfg : config) (metadata : list (gmap string string)) :
  forall st st',
    sort_loop cfg st metadata = Ok st' ->
    exists l, processed st' = (processed st ++ l)%list
              /\ l.*1 `sublist_of` sources metadata.
Proof.
  induction metadata as [|data rest IH]; intros st st' Hloop.
  - injection Hloop as <-. exists []. now rewrite app_nil_r.
  - cbn [sort_loop] in Hloop.
    apply bind_Ok in Hloop as (st1 & Hone & Hloop).
    destruct (IH _ _ Hloop) as (l & Hl & Hsub).
    apply sort_one_disk in Hone as (src_file & Hsrc & Hstep).
    rewrite (sources_cons _ _ _ Hsrc).
    assert (exists l1, processed st1 = (processed st ++ l1)%list
                       /\ l1.*1 `sublist_of` [src_file]) as (l1 & Hp & Hl1).
    { destruct Hstep as [(_ & Hp)|[(_ & _ & d & _ & Hp)|[(_ & _ & _ & _ & _ & Hp)
        |[(_ & _ & d & f & _ & _ & _ & Hp)|(_ & _ & d & f & _ & _ & _ & Hp)]]]];
        try (exists []; rewrite app_nil_r; split; [assumption|apply sublist_nil_l]);
        exists [(src_file, d)]; (split; [assumption|reflexivity]). }
    exists (l1 ++ l)%list. rewrite Hl, Hp, <- app_assoc. split; [reflexivity|].
    rewrite fmap_app. change (src_file :: sources rest)
      with ([src_file] ++ sources rest)%list.
    now apply sublist_app.
Qed.

Lemma dry_run_disk (cfg : config) (metadata : list (gmap string string)) :
  forall st st',
    test cfg = true ->
    sort_loop cfg st metadata = Ok st' ->
    files st' = files st
    /\ forall pair, pair ∈ processed st' ->
                    pair ∈ processed st \/ files st !! pair.2 = None.
Proof.
  induction metadata as [|data rest IH]; intros st st' Htest Hloop.
  - injection Hloop as <-. auto.
  - cbn [sort_loop] in Hloop.
    apply bind_Ok in Hloop as (st1 & Hone & Hloop).
    destruct (IH _ _ Htest Hloop) as [Hfiles Hpairs].
    apply sort_one_disk in Hone as (src_file & _ & Hstep).
    destruct Hstep as [(Hf & Hp)|[(_ & Hf & d & Hd & Hp)
      |[(Hno & _)|[(Hno & _)|(Hno & _)]]]]; try congruence.
    + rewrite Hfiles, Hf. split; [reflexivity|]. intros pair Hin.
      destruct (Hpairs pair Hin) as [Hold|Hfree]; [left|right]; congruence.
    + rewrite Hfiles, Hf. split; [reflexivity|]. intros pair Hin.
      destruct (Hpairs pair Hin) as [Hold|Hfree]; [|right; congruence].
      rewrite Hp in Hold.
      apply elem_of_app in Hold as [Hold| ->%list_elem_of_singleton];
        [now left|now right].
Qed.

(** X2.  A dry run leaves the disk as it is, and the destinations it
    reports are free on disk and claimed in its ledger. *)
Theorem dry_run_touches_nothing (cfg : config) (fs : gmap string file)
    (metadata : list (gmap string string)) (st : state) :
  test cfg = true ->
  sort cfg fs metadata = Ok st ->
  files st = fs
  /\ forall src_file dst_file,
      (src_file, dst_file) ∈ processed st ->
      fs !! dst_file = None /\ is_Some (test_file_dict st !! dst_file).
Proof.
  intros Htest Hrun. unfold sort in Hrun.
  destruct (dry_run_disk cfg metadata _ _ Htest Hrun) as [Hfiles Hpairs].
  split; [exact Hfiles|]. intros src_file dst_file Hin.
  destruct (Hpairs _ Hin) as [Hnil|Hfree];
    [cbn in Hnil; now apply not_elem_of_nil in Hnil|].
  cbn in Hfree, Hfiles. split; [assumption|].
  assert (placed_apart cfg st []) as (_ & Htaken & _).
  { apply (placed_apart_final cfg metadata (initial fs)); [|exact Hrun].
    refine (conj (NoDup_nil_2) (conj _ _)).
    - intros d Hd. cbn in Hd. now apply not_elem_of_nil in Hd.
    - congruence. }
  specialize (Htaken dst_file).
  assert (dst_file ∈ dsts st) as Hd.
  { unfold dsts. apply list_elem_of_fmap. now exists (src_file, dst_file). }
  apply Htaken in Hd. unfold occupied, FS.isfile in Hd.
  rewrite Hfiles, Hfree in Hd.
  rewrite bool_decide_eq_false_2 in Hd by (intros [? ?]; discriminate).
  apply andb_true_iff in Hd as [_ Hd]. apply bool_decide_eq_true in Hd.
  now apply elem_of_dom.
Qed.


End Disk2.

Section Disk3.

Context `{Runtime}.


(** X4.  The processed pairs are reported in the order of the records:
    their sources form a subsequence of the records' source paths. *)
Theorem processed_in_input_order (cfg : config) (fs : gmap string file)
    (metadata : list (gmap string string)) (st : state) :
  sort cfg fs metadata = Ok st ->
  (processed st).*1 `sublist_of` sources metadata.
Proof.
  intros Hrun. unfold sort in Hrun.
  destruct (sort_loop_appends _ _ _ _ Hrun) as (l & Hl & Hsub).
  now rewrite Hl.
Qed.



Lemma run_invents_nothing (cfg : config) (metadata : list (gmap string string)) :
  forall st st',
    sort_loop cfg st metadata = Ok st' ->
    forall q g, files st' !! q = Some g -> exists p, files st !! p = Some g.
Proof.
  induction metadata as [|data rest IH]; intros st st' Hloop q g Hq.
  - injection Hloop as <-. eauto.
  - cbn [sort_loop] in Hloop.
    apply bind_Ok in Hloop as (st1 & Hone & Hloop).
    destruct (IH _ _ Hloop q g Hq) as (p & Hp).
    apply sort_one_disk in Hone as (src_file & _ & Hstep).
    destruct Hstep as [(Hf & _)|[(_ & Hf & _)|[(_ & _ & _ & _ & Hf & _)
      |[(_ & _ & d & f & _ & Hsrc & Hf & _)|(_ & _ & d & f & _ & Hsrc & Hf & _)]]]];
      rewrite Hf in Hp; eauto.
    + apply lookup_delete_Some in Hp as [_ Hp]. eauto.
    + apply lookup_insert_Some in Hp as [[_ <-]|[_ Hp]]; eauto.
    + apply lookup_insert_Some in Hp as [[_ <-]|[_ Hp]]; eauto.
      apply lookup_delete_Some in Hp as [_ Hp]. eauto.
Qed.



(** X7.  No mode invents content: every file on disk after a run is a
    file that was on disk, under some path, before it. *)
Theorem sort_invents_nothing (cfg : config) (fs : gmap string file)
    (metadata : list (gmap string string)) (st : state) (q : string) (g : file) :
  sort cfg fs metadata = Ok st ->
  files st !! q = Some g ->
  exists p, fs !! p = Some g.
Proof. intros Hrun. exact (run_invents_nothing cfg metadata _ _ Hrun q g). Qed.

End Disk3.

(** ** Worked examples of the runs *)


(** The dry run of the three photos. *)
Lemma dry_run_touches_nothing_witness :
  exists st,
    @sort Example.runtime (Example.cfg false false true) Example.disk
      Example.batch = Ok st
    /\ files st = Example.disk
    /\ forall src_file dst_file,
        (src_file, dst_file) ∈ processed st ->
        Example.disk !! dst_file = None
        /\ is_Some (test_file_dict st !! dst_file).
Proof.
  eexists. split; [vm_compute; reflexivity|].
  apply (@dry_run_touches_nothing Example.runtime
           (Example.cfg false false true) Example.disk Example.batch);
    [reflexivity | vm_compute; reflexivity].
Defined.


(** The twins and the hidden file: only the first twin is processed. *)
Lemma processed_in_input_order_witness :
  exists st,
    @sort Example.runtime (Example.cfg false false false) Example.twin_disk
      Example.twins = Ok st
    /\ (processed st).*1 `sublist_of` sources Example.twins.
Proof.
  eexists. split; [vm_compute; reflexivity|].
  apply (@processed_in_input_order Example.runtime
           (Example.cfg false false false) Example.twin_disk Example.twins).
  vm_compute. reflexivity.
Defined.



(** The twins moved: what is on disk afterwards was there before. *)
Lemma sort_invents_nothing_witness :
  exists st,
    @sort Example.runtime (Example.cfg false false false) Example.twin_disk
      Example.twins = Ok st
    /\ exists p, Example.twin_disk !! p = Some (mkFile 100 "first").
Proof.
  eexists. split; [vm_compute; reflexivity|].
  eapply (@sort_invents_nothing Example.runtime
            (Example.cfg false false false) Example.twin_disk Example.twins
            _ "out/2021/06/photo.jpg"); vm_compute; reflexivity.
Defined.

(** * Edge cases, paths and texts *)

(** ** Edge cases of one record *)

Lemma collision_loop_missing_source (fuel : nat) (cfg : config) (st : state)
    (src_file dst_root dst_ext : string) :
  files st !! src_file = None ->
  forall (dst_file : string) (a : Z),
    collision_loop fuel cfg st src_file dst_root dst_ext dst_file a = OutOfFuel
    \/ collision_loop fuel cfg st src_file dst_root dst_ext dst_file a
       = Raise FileNotFoundError
    \/ exists d a',
        collision_loop fuel cfg st src_file dst_root dst_ext dst_file a
        = Ok (d, false, a').
Proof.
  intros Hsrc. induction fuel as [|fuel IH]; intros dst_file a; [now left|].
  cbn [collision_loop].
  destruct (FS.isfile (files st) dst_file
            || test cfg && bool_decide (dst_file ∈ dom (test_file_dict st)));
    [|right; right; eauto].
  destruct (keep cfg).
  - apply IH.
  - unfold FS.cmp. rewrite Hsrc. right; left. reflexivity.
Qed.

Section Edge.

Context `{Runtime}.

Lemma sort_one_maps_to (cfg : config) (st : state) (data : gmap string string)
    (src_file first : string) :
  maps_to cfg data src_file first ->
  sort_one cfg st data = place cfg st src_file first.
Proof.
  intros (Hsrc & Hdot & Hat & Hhash & date & info & Hdate & Hdst).
  unfold sort_one. rewrite Hsrc. cbn. rewrite Hdate. cbn.
  rewrite Hdot, Hat, Hhash, Hdst. reflexivity.
Qed.

(** X8.  A dated record whose file is not on disk stops a real run:
    copying or moving it raises [FileNotFoundError]. *)
Theorem missing_source_raises (cfg : config) (st : state)
    (data : gmap string string) (src_file first : string) :
  test cfg = false ->
  maps_to cfg data src_file first ->
  files st !! src_file = None ->
  sort_one cfg st data = Raise FileNotFoundError.
Proof.
  intros Htest Hmaps Hsrc. rewrite (sort_one_maps_to _ _ _ _ _ Hmaps).
  unfold place. destruct (Path.splitext first) as [dst_root dst_ext].
  destruct (collision_loop_missing_source (budget st) cfg st src_file
              dst_root dst_ext Hsrc first 1) as [Hout|[->|(d & a & ->)]].
  - now apply collision_loop_budget in Hout.
  - reflexivity.
  - cbn. rewrite Htest. cbn. unfold FS.copy2, FS.move. cbn.
    rewrite Hsrc. now destruct (copy cfg).
Qed.

(** X9.  A file that already sits at its destination is its own
    duplicate when [keep] is off: it is counted as a duplicate, not as
    processed, and move mode removes it from disk. *)
Theorem file_in_place_is_duplicate (cfg : config) (st : state)
    (data : gmap string string) (src_file : string) (f : file) :
  keep cfg = false ->
  maps_to cfg data src_file src_file ->
  files st !! src_file = Some f ->
  exists st',
    sort_one cfg st data = Ok st'
    /\ num_duplicates st' = num_duplicates st + 1
    /\ processed st' = processed st
    /\ files st' = (if test cfg || copy cfg then files st
                    else delete src_file (files st)).
Proof.
  intros Hkeep Hmaps Hsrc. rewrite (sort_one_maps_to _ _ _ _ _ Hmaps).
  unfold place. destruct (Path.splitext src_file) as [dst_root dst_ext].
  unfold budget.
  rewrite (collision_loop_identical _ cfg st src_file dst_root dst_ext
             src_file 1 f f Hkeep Hsrc); [|unfold occupant; now rewrite Hsrc|
             reflexivity].
  cbn. unfold FS.remove.
  destruct (test cfg), (copy cfg); cbn; rewrite ?Hsrc; cbn; eauto.
Qed.

Lemma via_gps_result (data : gmap string string) (date_video : datetime) r :
  via_gps data date_video = Ok (Some r) ->
  exists d text, r = (Some d, Some (TAG_DATE_VIDEO +:+ text)).
Proof.
  unfold via_gps.
  destruct (data !! TAG_GPS_LATITUDE); [|discriminate].
  destruct (data !! TAG_GPS_LONGITUDE); [|discriminate].
  intros (o & _ & Hk)%bind_Ok. destruct o as [o|]; [|discriminate].
  apply bind_Ok in Hk as (moved & _ & [= <-]). eauto.
Qed.

Lemma via_file_result (data : gmap string string) (date_video : datetime) r :
  via_file data date_video = Ok (Some r) ->
  exists d text, r = (Some d, Some (TAG_DATE_VIDEO +:+ text)).
Proof.
  unfold via_file.
  destruct (data !! TAG_DATE_FILE); [|discriminate].
  intros ([date_file offset_file] & _ & Hk)%bind_Ok.
  destruct date_file; [|discriminate]. destruct offset_file; [|discriminate].
  apply bind_Ok in Hk as (local & _ & Hk).
  destruct (_ <=? 3); [|discriminate].
  apply bind_Ok in Hk as (moved & _ & [= <-]). eauto.
Qed.

(** X10.  [get_date] returns a date and an info text together or
    neither; a date comes from the tag of the media type, which the
    record then has with a text that [parse_date] accepts, and the info
    text starts with the name of that tag. *)
Theorem get_date_info_with_date (data : gmap string string)
    (media_type : string) (date : option datetime) (info : option string) :
  get_date data media_type = Ok (date, info) ->
  (date = None /\ info = None)
  \/ exists tag raw parsed offset d text,
      ((media_type = MEDIA_TYPE_PHOTO /\ tag = TAG_DATE_PHOTO /\ d = parsed)
       \/ (media_type = MEDIA_TYPE_VIDEO /\ tag = TAG_DATE_VIDEO))
      /\ data !! tag = Some raw
      /\ parse_date raw = Ok (Some parsed, offset)
      /\ date = Some d
      /\ info = Some (tag +:+ text).
Proof.
  unfold get_date.
  destruct (String.eqb_spec media_type MEDIA_TYPE_PHOTO) as [->|_].
  - destruct (data !! TAG_DATE_PHOTO) as [raw|] eqn:Hraw;
      [|intros [= <- <-]; now left].
    intros ([parsed offset] & Hparse & Hk)%bind_Ok.
    destruct parsed as [parsed|]; injection Hk as <- <-; [right|now left].
    exists TAG_DATE_PHOTO, raw, parsed, offset, parsed. eauto 10.
  - destruct (String.eqb_spec media_type MEDIA_TYPE_VIDEO) as [->|_];
      [|intros [= <- <-]; now left].
    destruct (data !! TAG_DATE_VIDEO) as [raw|] eqn:Hraw;
      [|intros [= <- <-]; now left].
    intros ([parsed offset] & Hparse & Hk)%bind_Ok.
    destruct parsed as [parsed|]; [|injection Hk as <- <-; now left].
    right. exists TAG_DATE_VIDEO, raw, parsed, offset.
    apply bind_Ok in Hk as (gps & Hgps & Hk). destruct gps as [r|].
    + apply via_gps_result in Hgps as (d & text & ->).
      injection Hk as <- <-. exists d, text. eauto 10.
    + apply bind_Ok in Hk as (file & Hfile & Hk). destruct file as [r|].
      * apply via_file_result in Hfile as (d & text & ->).
        injection Hk as <- <-. exists d, text. eauto 10.
      * injection Hk as <- <-. exists parsed. eauto 10.
Qed.

End Edge.

(** A photo whose file is gone, copied. *)
Lemma missing_source_raises_witness :
  @sort_one Example.runtime (Example.cfg true false false)
    (initial Example.disk) (Example.photo "gone.jpg" "2021:06:01 10:00:00")
  = Raise FileNotFoundError.
Proof.
  apply (@missing_source_raises Example.runtime (Example.cfg true false false)
           (initial Example.disk)
           (Example.photo "gone.jpg" "2021:06:01 10:00:00")
           "gone.jpg" "out/2021/06/gone.jpg").
  - reflexivity.
  - repeat (split; [vm_compute; reflexivity|]).
    eexists _, _. split; vm_compute; reflexivity.
  - vm_compute. reflexivity.
Defined.

(** The copy of the first twin, sorted again by a move: it is removed. *)
Lemma file_in_place_is_duplicate_witness :
  exists st',
    @sort_one Example.runtime (Example.cfg false false false)
      (initial Example.sorted_disk)
      (Example.photo "out/2021/06/photo.jpg" "2021:06:01 10:00:00") = Ok st'
    /\ num_duplicates st' = 0 + 1
    /\ processed st' = []
    /\ files st' = delete "out/2021/06/photo.jpg" Example.sorted_disk.
Proof.
  apply (@file_in_place_is_duplicate Example.runtime
           (Example.cfg false false false) (initial Example.sorted_disk)
           (Example.photo "out/2021/06/photo.jpg" "2021:06:01 10:00:00")
           "out/2021/06/photo.jpg" (mkFile 100 "first")).
  - reflexivity.
  - repeat (split; [vm_compute; reflexivity|]).
    eexists _, _. split; vm_compute; reflexivity.
  - vm_compute. reflexivity.
Defined.

(** The video taken in Tokyo: the date comes with its info text. *)
Lemma get_date_info_with_date_witness :
  exists date info,
    @get_date Example.runtime Example.video_gps MEDIA_TYPE_VIDEO
    = Ok (date, info)
    /\ ((date = None /\ info = None)
        \/ exists tag raw parsed offset d text,
            ((MEDIA_TYPE_VIDEO = MEDIA_TYPE_PHOTO /\ tag = TAG_DATE_PHOTO
              /\ d = parsed)
             \/ (MEDIA_TYPE_VIDEO = MEDIA_TYPE_VIDEO /\ tag = TAG_DATE_VIDEO))
            /\ Example.video_gps !! tag = Some raw
            /\ @parse_date Example.runtime raw = Ok (Some parsed, offset)
            /\ date = Some d
            /\ info = Some (tag +:+ text)).
Proof.
  eexists _, _. split; [vm_compute; reflexivity|].
  apply (@get_date_info_with_date Example.runtime Example.video_gps
           MEDIA_TYPE_VIDEO).
  vm_compute. reflexivity.
Defined.

(** ** Paths and destinations *)










Lemma string_app_nil_r (s : string) : s +:+ "" = s.
Proof.
  induction s as [|c s IH]; [reflexivity|]. now rewrite string_app_cons, IH.
Qed.


Section Destination.

Context `{Runtime}.


End Destination.

(** ** The offset as it is displayed *)

Lemma format_offset_minutes (q : Z) (s : Z) :
  Z.quot s 60 = q ->
  format_offset (mkTimedelta s)
  = (if q <? 0 then "-" else "+") +:+ " "
    +:+ Str.pad2 (Z.abs q / 60) +:+ ":" +:+ Str.pad2 (Z.abs q mod 60).
Proof. intros <-. reflexivity. Qed.

(** X12.  An offset of [h] hours and [m] minutes is displayed as
    [+ hh:mm] and its negative as [- hh:mm]; seconds below a minute are
    dropped, so that an offset of less than a minute either way is
    displayed as [+ 00:00]. *)
Theorem format_offset_shape (h m s : Z) :
  0 <= h -> 0 <= m < 60 -> 0 <= s < 60 ->
  format_offset (mkTimedelta (h * 3600 + m * 60 + s))
  = "+ " +:+ Str.pad2 h +:+ ":" +:+ Str.pad2 m
  /\ format_offset (mkTimedelta (- (h * 3600 + m * 60 + s)))
     = (if (h =? 0) && (m =? 0) then "+" else "-")
       +:+ " " +:+ Str.pad2 h +:+ ":" +:+ Str.pad2 m.
Proof.
  intros Hh Hm Hs.
  assert (Z.quot (h * 3600 + m * 60 + s) 60 = h * 60 + m) as Hq.
  { rewrite Z.quot_div_nonneg by lia.
    symmetry. apply (Z.div_unique _ _ _ s); lia. }
  assert ((h * 60 + m) / 60 = h) as Hdiv
    by (symmetry; apply (Z.div_unique _ _ _ m); lia).
  assert ((h * 60 + m) mod 60 = m) as Hmod
    by (symmetry; apply (Z.mod_unique _ _ h); lia).
  split.
  - rewrite (format_offset_minutes (h * 60 + m)) by exact Hq.
    rewrite (proj2 (Z.ltb_ge _ _)) by lia.
    rewrite Z.abs_eq by lia. now rewrite Hdiv, Hmod.
  - rewrite (format_offset_minutes (- (h * 60 + m)))
      by (rewrite Z.quot_opp_l by lia; now rewrite Hq).
    rewrite Z.abs_opp, Z.abs_eq by lia. rewrite Hdiv, Hmod.
    destruct (Z.eqb_spec h 0) as [->|Hh0]; cbn [andb].
    + destruct (Z.eqb_spec m 0) as [->|Hm0]; [reflexivity|].
      now rewrite (proj2 (Z.ltb_lt _ _)) by lia.
    + now rewrite (proj2 (Z.ltb_lt _ _)) by lia.
Qed.

(** ** The paths that are ignored *)

Lemma prefix_true (p s : string) :
  String.prefix p s = true -> exists rest, s = p +:+ rest.
Proof.
  revert s. induction p as [|x p IH]; intros s.
  - intros _. exists s. now rewrite string_app_nil.
  - destruct s as [|y s]; [discriminate|]. cbn [String.prefix].
    destruct (ascii_dec x y) as [<-|]; [|discriminate].
    intros [rest ->]%IH. exists rest. now rewrite string_app_cons.
Qed.

Lemma contains_true (sub s : string) :
  Str.contains sub s = true -> exists a b, s = a +:+ sub +:+ b.
Proof.
  induction s as [|c s IH]; cbn [Str.contains].
  - rewrite orb_false_r. intros [rest ->]%prefix_true.
    exists "", rest. now rewrite string_app_nil.
  - intros [[rest ->]%prefix_true|Hs]%orb_true_iff.
    + exists "", rest. now rewrite string_app_nil.
    + destruct (IH Hs) as (a & b & ->). exists (String c a), b.
      now rewrite string_app_cons.
Qed.

Lemma tests_ignorable (src_file : string) :
  ignored_dot src_file || ignored_at src_file || ignored_hash src_file = true ->
  ignorable src_file.
Proof.
  unfold ignored_dot, ignored_at, ignored_hash, Str.startswith, ignorable.
  intros [[[[Hdot Hslash]%andb_true_iff|Hin]%orb_true_iff
          |[Hat|Hin]%orb_true_iff]%orb_true_iff
         |[Hhash|Hin]%orb_true_iff]%orb_true_iff.
  - apply prefix_true in Hdot as [rest ->]. do 2 right; left. exists rest.
    split; [reflexivity|]. apply negb_true_iff in Hslash.
    change ("." +:+ rest) with (String "." rest) in Hslash.
    destruct rest as [|c rest]; [reflexivity|].
    unfold Str.startswith. cbn [String.prefix] in *.
    destruct (ascii_dec "." "."); [|congruence].
    destruct (ascii_dec "/" c); [|reflexivity].
    now destruct rest.
  - apply contains_true in Hin as (a & b & ->). do 3 right.
    exists a, ".", b. split; [apply list_elem_of_here|].
    now rewrite !string_app_cons, !string_app_nil.
  - apply prefix_true in Hat as [rest ->]. left. eauto.
  - apply contains_true in Hin as (a & b & ->). do 3 right.
    exists a, "@", b. split; [apply list_elem_of_further, list_elem_of_here|].
    now rewrite !string_app_cons, !string_app_nil.
  - apply prefix_true in Hhash as [rest ->]. right; left. eauto.
  - apply contains_true in Hin as (a & b & ->). do 3 right.
    exists a, "#", b. split; [do 2 apply list_elem_of_further; apply list_elem_of_here|].
    now rewrite !string_app_cons, !string_app_nil.
Qed.

Section IgnoredExactly.

Context `{Runtime}.

(** X13.  A record that [sort] gets through is counted as ignored
    exactly when its path is one the three tests catch or no date is
    found for it. *)
Theorem ignored_exactly (cfg : config) (st st' : state)
    (data : gmap string string) (src_file : string)
    (date : option datetime) (info : option string) :
  data !! "SourceFile" = Some src_file ->
  get_date data (media_type cfg) = Ok (date, info) ->
  sort_one cfg st data = Ok st' ->
  num_ignored st' = num_ignored st + 1 <-> ignorable src_file \/ date = None.
Proof.
  intros Hsrc Hdate. unfold sort_one. rewrite Hsrc. cbn. rewrite Hdate. cbn.
  destruct (ignored_dot src_file || ignored_at src_file
            || ignored_hash src_file) eqn:Htests.
  - assert (ignorable src_file) by now apply tests_ignorable.
    destruct (ignored_dot src_file); [intros [= <-]; cbn; tauto|].
    destruct (ignored_at src_file); [intros [= <-]; cbn; tauto|].
    destruct (ignored_hash src_file); [intros [= <-]; cbn; tauto|].
    discriminate.
  - assert (~ ignorable src_file) as Hnot
      by (intros Hi%ignorable_tests; congruence).
    apply orb_false_iff in Htests as [[-> ->]%orb_false_iff ->].
    destruct date as [d|]; [|intros [= <-]; cbn; tauto].
    intros (first & _ & Hplace)%bind_Ok.
    apply place_Ok in Hplace as (dst & identical & a & fs & _ & _ & ->).
    assert (num_ignored (with_files fs (settle cfg st src_file dst identical))
            = num_ignored st) as ->
      by (unfold settle; destruct identical, (test cfg); reflexivity).
    split; [lia|]. intros [?|?]; [tauto|discriminate].
Qed.

End IgnoredExactly.

(** ** Strings of digits *)

Lemma only_impl (P Q : ascii -> bool) (s : string) :
  (forall c, P c = true -> Q c = true) -> only P s = true -> only Q s = true.
Proof.
  intros HPQ. induction s as [|c r IH]; [reflexivity|]. cbn [only].
  intros [Hc Hr]%andb_true_iff. now rewrite (HPQ c Hc), IH.
Qed.

Lemma only_app (P : ascii -> bool) (a b : string) :
  only P (a +:+ b) = only P a && only P b.
Proof.
  induction a as [|c a IH]; [now rewrite string_app_nil|].
  rewrite string_app_cons. cbn [only]. now rewrite IH, andb_assoc.
Qed.

Lemma digit_plain (c : ascii) :
  Str.is_digit c = true ->
  Str.is_space c = false /\ Str.is_sep c = false
  /\ Ascii.eqb c ":" = false /\ Ascii.eqb c "." = false
  /\ Ascii.eqb c "_" = false /\ Ascii.eqb c "+" = false
  /\ Ascii.eqb c "-" = false.
Proof.
  destruct c as [[] [] [] [] [] [] [] []]; vm_compute; intros Hd;
    try discriminate Hd; repeat split.
Qed.

Lemma split_plain (sep : ascii) (s : string) :
  only (fun c => negb (Ascii.eqb c sep)) s = true -> Str.split sep s = [s].
Proof.
  induction s as [|c r IH]; [reflexivity|]. cbn [only Str.split].
  intros [Hc Hr]%andb_true_iff. apply negb_true_iff in Hc. rewrite Hc.
  now rewrite IH.
Qed.

Lemma split_app (sep : ascii) (a r : string) :
  only (fun c => negb (Ascii.eqb c sep)) a = true ->
  Str.split sep (a +:+ String sep r) = a :: Str.split sep r.
Proof.
  induction a as [|c a IH].
  - intros _. rewrite string_app_nil. cbn [Str.split].
    now rewrite Ascii.eqb_refl.
  - cbn [only]. intros [Hc Ha]%andb_true_iff. apply negb_true_iff in Hc.
    rewrite string_app_cons. cbn [Str.split]. now rewrite Hc, IH.
Qed.

Lemma split_ws_plain (s : string) :
  s ≠ "" -> only (fun c => negb (Str.is_space c)) s = true ->
  Str.split_ws s = [s].
Proof.
  induction s as [|c r IH]; [easy|]. intros _. cbn [only Str.split_ws].
  intros [Hc Hr]%andb_true_iff. apply negb_true_iff in Hc. rewrite Hc.
  destruct r as [|c' r']; [reflexivity|].
  rewrite IH by easy. cbn [only] in Hr.
  apply andb_true_iff in Hr as [Hc' _]. apply negb_true_iff in Hc'.
  now rewrite Hc'.
Qed.

Lemma split_ws_app (a r : string) (c : ascii) :
  a ≠ "" -> only (fun c => negb (Str.is_space c)) a = true ->
  Str.is_space c = true ->
  Str.split_ws (a +:+ String c r) = a :: Str.split_ws r.
Proof.
  intros Hne Ha Hspace. induction a as [|x a IH]; [easy|].
  cbn [only] in Ha. apply andb_true_iff in Ha as [Hx Ha].
  apply negb_true_iff in Hx. rewrite string_app_cons.
  cbn [Str.split_ws]. rewrite Hx. destruct a as [|y a].
  - rewrite string_app_nil. rewrite Hspace. cbn [Str.split_ws].
    now rewrite Hspace.
  - rewrite string_app_cons. rewrite <- string_app_cons.
    rewrite IH by easy. cbn [only] in Ha.
    apply andb_true_iff in Ha as [Hy _]. apply negb_true_iff in Hy.
    now rewrite Hy.
Qed.

Lemma re_split_plain (s : string) :
  only (fun c => negb (Str.is_sep c)) s = true -> Str.re_split s = [s].
Proof.
  induction s as [|c r IH]; [reflexivity|]. cbn [only Str.re_split].
  intros [Hc Hr]%andb_true_iff. apply negb_true_iff in Hc. rewrite Hc.
  now rewrite IH.
Qed.

Lemma re_split_app (a r : string) (c : ascii) :
  only (fun c => negb (Str.is_sep c)) a = true -> Str.is_sep c = true ->
  Str.re_split (a +:+ String c r) = a :: String c "" :: Str.re_split r.
Proof.
  intros Ha Hsep. induction a as [|x a IH].
  - rewrite string_app_nil. cbn [Str.re_split]. now rewrite Hsep.
  - cbn [only] in Ha. apply andb_true_iff in Ha as [Hx Ha].
    apply negb_true_iff in Hx. rewrite string_app_cons.
    cbn [Str.re_split]. now rewrite Hx, IH.
Qed.

Lemma rev_acc_app (a b acc : string) :
  Str.rev_acc (a +:+ b) acc = Str.rev_acc b (Str.rev_acc a acc).
Proof.
  revert acc. induction a as [|c a IH]; intros acc;
    [now rewrite string_app_nil|].
  rewrite string_app_cons. cbn [Str.rev_acc]. apply IH.
Qed.

Lemma rev_acc_rev (s acc : string) :
  Str.rev_acc s acc = Str.rev s +:+ acc.
Proof.
  unfold Str.rev. revert acc. induction s as [|c s IH]; intros acc.
  - cbn. now rewrite string_app_nil.
  - cbn [Str.rev_acc]. rewrite (IH (String c "")), IH.
    rewrite string_app_assoc. now rewrite string_app_cons, string_app_nil.
Qed.

Lemma rev_rev (s : string) : Str.rev (Str.rev s) = s.
Proof.
  induction s as [|c s IH]; [reflexivity|].
  unfold Str.rev at 2. cbn [Str.rev_acc]. rewrite rev_acc_rev.
  unfold Str.rev at 1. rewrite rev_acc_app. cbn [Str.rev_acc].
  rewrite rev_acc_rev, IH. now rewrite string_app_nil_r.
Qed.

Lemma rev_last (s : string) (c : ascii) :
  Str.rev (s +:+ String c "") = String c (Str.rev s).
Proof. unfold Str.rev. now rewrite rev_acc_app. Qed.

(** A text that neither starts nor ends with white space is not
    changed by [strip]. *)
Lemma strip_ends (c d : ascii) (s : string) :
  Str.is_space c = false -> Str.is_space d = false ->
  Str.strip (String c (s +:+ String d "")) = String c (s +:+ String d "").
Proof.
  intros Hc Hd. unfold Str.strip. cbn [Str.lstrip]. rewrite Hc.
  rewrite <- string_app_cons, rev_last. cbn [Str.lstrip]. rewrite Hd.
  rewrite <- rev_last. apply rev_rev.
Qed.

Lemma strip_one (c : ascii) :
  Str.is_space c = false -> Str.strip (String c "") = String c "".
Proof. intros Hc. unfold Str.strip. cbn. rewrite Hc. cbn. now rewrite Hc. Qed.

Lemma last_char (s : string) :
  s ≠ "" -> exists r d, s = r +:+ String d "".
Proof.
  induction s as [|c s IH]; [easy|]. intros _. destruct s as [|c' s'].
  - exists "", c. reflexivity.
  - destruct IH as (r & d & ->); [easy|]. exists (String c r), d.
    now rewrite string_app_cons.
Qed.

Lemma only_last (P : ascii -> bool) (r : string) (d : ascii) :
  only P (r +:+ String d "") = true -> P d = true.
Proof.
  rewrite only_app. cbn [only]. rewrite andb_true_r.
  now intros [_ ?]%andb_true_iff.
Qed.

(** A nonempty text without white space at its ends. *)
Lemma strip_id (s : string) :
  (exists c r, s = String c r /\ Str.is_space c = false) ->
  (exists r d, s = r +:+ String d "" /\ Str.is_space d = false) ->
  Str.strip s = s.
Proof.
  intros (c & r & -> & Hc) (r' & d & Heq & Hd).
  destruct r' as [|c' r'].
  - rewrite string_app_nil in Heq. injection Heq as -> ->.
    now apply strip_one.
  - rewrite string_app_cons in Heq. injection Heq as <- ->.
    now apply strip_ends.
Qed.

Lemma numeral_spec (s : string) (n : Z) :
  numeral s n = true ->
  s ≠ "" /\ only Str.is_digit s = true /\ Str.digits 0 false s = Some n.
Proof.
  unfold numeral. intros [[Hne Hd]%andb_true_iff Hv]%andb_true_iff.
  split; [intros ->; discriminate|]. split; [assumption|].
  destruct (Str.digits 0 false s) as [z|]; [|discriminate].
  now apply Z.eqb_eq in Hv as ->.
Qed.

Lemma numeral_strip (s : string) (n : Z) :
  numeral s n = true -> Str.strip s = s.
Proof.
  intros (Hne & Hd & _)%numeral_spec. apply strip_id.
  - destruct s as [|c r]; [easy|]. exists c, r. split; [reflexivity|].
    cbn [only] in Hd. apply andb_true_iff in Hd as [Hc _].
    now apply digit_plain in Hc.
  - destruct (last_char s Hne) as (r & d & ->). exists r, d.
    split; [reflexivity|]. apply only_last in Hd. now apply digit_plain in Hd.
Qed.

(** [int] reads a numeral as its value. *)
Lemma int_numeral (s : string) (n : Z) :
  numeral s n = true -> Str.int s = Ok n.
Proof.
  intros Hnum. unfold Str.int. rewrite (numeral_strip s n Hnum).
  apply numeral_spec in Hnum as (Hne & Hd & Hv).
  destruct s as [|c r]; [easy|]. cbn [only] in Hd.
  apply andb_true_iff in Hd as [Hc _].
  destruct (digit_plain c Hc) as (_ & _ & _ & _ & _ & Hplus & Hminus).
  assert (match String c r with
          | String "+" d => Str.digits 0 false d
          | String "-" d => Z.opp <$> Str.digits 0 false d
          | d => Str.digits 0 false d
          end = Str.digits 0 false (String c r)) as ->.
  { destruct c as [[] [] [] [] [] [] [] []]; try reflexivity;
      discriminate. }
  now rewrite Hv.
Qed.

Lemma only_digit_not (x : ascii) (s : string) :
  Str.is_digit x = false ->
  only Str.is_digit s = true -> only (fun c => negb (Ascii.eqb c x)) s = true.
Proof.
  intros Hx. apply only_impl. intros c Hc. apply negb_true_iff.
  destruct (Ascii.eqb_spec c x) as [->|]; [congruence|reflexivity].
Qed.

Lemma only_digit_nonspace (s : string) :
  only Str.is_digit s = true ->
  only (fun c => negb (Str.is_space c)) s = true.
Proof.
  apply only_impl. intros c Hc. apply negb_true_iff.
  now apply digit_plain in Hc.
Qed.

Lemma only_digit_nonsep (s : string) :
  only Str.is_digit s = true ->
  only (fun c => negb (Str.is_sep c)) s = true.
Proof.
  apply only_impl. intros c Hc. apply negb_true_iff.
  now apply digit_plain in Hc.
Qed.

Lemma contains_dot_digits (s : string) :
  only Str.is_digit s = true -> Str.contains "." s = false.
Proof.
  induction s as [|c r IH]; [reflexivity|]. cbn [only Str.contains].
  intros [Hc Hr]%andb_true_iff. rewrite (IH Hr), orb_false_r.
  apply digit_plain in Hc as (_ & _ & _ & Hdot & _).
  cbn [String.prefix]. destruct (ascii_dec "." c) as [<-|]; [|reflexivity].
  discriminate.
Qed.

(** ** [parse_date] on well-formed texts *)

Lemma pad2_numeral (n : Z) : 0 <= n < 100 -> numeral (Str.pad2 n) n = true.
Proof.
  intros Hn.
  assert (forallb (fun n => numeral (Str.pad2 n) n) (seqZ 0 100) = true)
    as Hall by (vm_compute; reflexivity).
  rewrite forallb_forall in Hall. apply Hall.
  apply list_elem_of_In, elem_of_seqZ. lia.
Qed.

Lemma pad4_numeral (n : Z) :
  0 <= n < 10000 ->
  numeral (pad4 n) n = true /\ (1 <= n -> Str.gt (pad4 n) "0000" = true).
Proof.
  intros Hn.
  assert (forallb (fun n => numeral (pad4 n) n
                            && ((n =? 0) || Str.gt (pad4 n) "0000"))
            (seqZ 0 10000) = true)
    as Hall by (vm_compute; reflexivity).
  rewrite forallb_forall in Hall.
  destruct (proj1 (andb_true_iff _ _) (Hall n ltac:(apply list_elem_of_In,
              elem_of_seqZ; lia))) as [Hnum Hgt].
  split; [assumption|]. intros Hpos.
  apply orb_true_iff in Hgt as [Hzero|Hgt]; [lia|assumption].
Qed.

Ltac strings :=
  repeat match goal with
         | |- context [String ?c "" +:+ ?x] =>
             change (String c "" +:+ x) with (String c x)
         end.

Lemma date_entries_numerals (ys ms ds : string) (y m d : Z) :
  numeral ys y = true -> numeral ms m = true -> numeral ds d = true ->
  Str.split ":" (ys +:+ ":" +:+ ms +:+ ":" +:+ ds) = [ys; ms; ds].
Proof.
  intros (_ & Hy & _)%numeral_spec (_ & Hm & _)%numeral_spec
         (_ & Hd & _)%numeral_spec. strings.
  rewrite !split_app by now apply only_digit_not.
  rewrite split_plain by now apply only_digit_not. reflexivity.
Qed.

Lemma parse_date_entries_numerals (ys ms ds : string) (y m d : Z) :
  numeral ys y = true -> numeral ms m = true -> numeral ds d = true ->
  Str.gt ys "0000" = true ->
  parse_date_entries [ys; ms; ds] = Ok (Some (y, m, d)).
Proof.
  intros Hy Hm Hd Hgt. unfold parse_date_entries, item. cbn [length nth].
  rewrite Hgt. cbn [Nat.eqb andb].
  assert (Str.contains "." (Str.join [ys; ms; ds]) = false) as ->.
  { apply contains_dot_digits. cbn [Str.join fold_right].
    rewrite !only_app.
    apply numeral_spec in Hy as (_ & -> & _).
    apply numeral_spec in Hm as (_ & -> & _).
    now apply numeral_spec in Hd as (_ & -> & _). }
  cbn [negb]. now rewrite (int_numeral _ _ Hy), (int_numeral _ _ Hm),
    (int_numeral _ _ Hd).
Qed.

Lemma parse_time_entries_numerals (hs mis ss : string) (h mi s : Z) :
  numeral hs h = true -> numeral mis mi = true -> numeral ss s = true ->
  parse_time_entries [hs; mis; ss] = Ok (h, mi, s)
  /\ parse_time_entries [hs; mis] = Ok (h, mi, 0)
  /\ forall frac,
      parse_time_entries [hs; mis; ss +:+ "." +:+ frac] = Ok (h, mi, s).
Proof.
  intros Hh Hmi Hs. unfold parse_time_entries, item. cbn [length nth Nat.eqb].
  rewrite (int_numeral _ _ Hh), (int_numeral _ _ Hmi). cbn.
  pose proof Hs as (_ & Hd & _)%numeral_spec.
  repeat split.
  - rewrite split_plain by now apply only_digit_not.
    cbn [nth]. now rewrite (int_numeral _ _ Hs).
  - intros frac. strings. rewrite split_app by now apply only_digit_not.
    cbn [nth]. now rewrite (int_numeral _ _ Hs).
Qed.

Lemma nonspace_field (a : string) (n : Z) :
  numeral a n = true -> only (fun c => negb (Str.is_space c)) a = true.
Proof. intros (_ & Ha & _)%numeral_spec. now apply only_digit_nonspace. Qed.

Lemma nonsep_field (a : string) (n : Z) :
  numeral a n = true -> only (fun c => negb (Str.is_sep c)) a = true.
Proof. intros (_ & Ha & _)%numeral_spec. now apply only_digit_nonsep. Qed.

(** The tokens of a text of two parts without white space. *)
Lemma elements_two (D T : string) :
  D ≠ "" -> T ≠ "" ->
  only (fun c => negb (Str.is_space c)) D = true ->
  only (fun c => negb (Str.is_space c)) T = true ->
  Str.split_ws (Str.strip (D +:+ " " +:+ T)) = [D; T].
Proof.
  intros HD HT HDs HTs. strings. rewrite strip_id.
  - rewrite split_ws_app by easy. now rewrite split_ws_plain.
  - destruct D as [|c D]; [easy|]. exists c, (D +:+ String " " T).
    split; [now rewrite string_app_cons|]. cbn [only] in HDs.
    apply andb_true_iff in HDs as [Hc _]. now apply negb_true_iff in Hc.
  - destruct (last_char T HT) as (r & d & ->).
    exists (D +:+ String " " r), d. split.
    + rewrite string_app_assoc. now rewrite string_app_cons.
    + apply only_last in HTs. now apply negb_true_iff in HTs.
Qed.

Lemma elements_one (D : string) :
  D ≠ "" -> only (fun c => negb (Str.is_space c)) D = true ->
  Str.split_ws (Str.strip D) = [D].
Proof.
  intros HD HDs. rewrite strip_id.
  - now apply split_ws_plain.
  - destruct D as [|c D]; [easy|]. exists c, D. split; [reflexivity|].
    cbn [only] in HDs. apply andb_true_iff in HDs as [Hc _].
    now apply negb_true_iff in Hc.
  - destruct (last_char D HD) as (r & d & ->). exists r, d.
    split; [reflexivity|]. apply only_last in HDs.
    now apply negb_true_iff in HDs.
Qed.

Lemma app_nonempty (a b : string) : a ≠ "" -> a +:+ b ≠ "".
Proof. destruct a; [easy|]. now rewrite string_app_cons. Qed.

Lemma triple_plain (P : ascii -> bool) (a b c : string) :
  P ":"%char = true -> only P a = true -> only P b = true -> only P c = true ->
  only P (a +:+ ":" +:+ b +:+ ":" +:+ c) = true.
Proof.
  intros Hcolon Ha Hb Hc. strings. rewrite only_app, Ha. cbn [only andb].
  rewrite Hcolon, only_app, Hb. cbn [only andb]. now rewrite Hcolon.
Qed.

Lemma pair_plain (P : ascii -> bool) (a b : string) :
  P ":"%char = true -> only P a = true -> only P b = true ->
  only P (a +:+ ":" +:+ b) = true.
Proof.
  intros Hcolon Ha Hb. strings. rewrite only_app, Ha. cbn [only andb].
  now rewrite Hcolon.
Qed.

Lemma days_in_month_bound (y m : Z) : Datetime.days_in_month y m <= 31.
Proof.
  unfold Datetime.days_in_month, Datetime.DAYS_IN_MONTH.
  destruct (_ && _); [lia|]. destruct (m =? 2); [lia|].
  destruct (_ || _); lia.
Qed.

Lemma valid_bounds (y m d h mi s : Z) :
  Datetime.valid y m d h mi s = true ->
  1 <= y < 10000 /\ 0 <= m < 100 /\ 0 <= d < 100
  /\ 0 <= h < 100 /\ 0 <= mi < 100 /\ 0 <= s < 100.
Proof.
  unfold Datetime.valid, Datetime.MINYEAR, Datetime.MAXYEAR.
  pose proof (days_in_month_bound y m).
  rewrite !andb_true_iff, !Z.leb_le. lia.
Qed.

Lemma offset_in_range (s : Z) :
  -400000 <= s <= 400000 ->
  (- Datetime.MAXDAYS <=? s / 86400) && (s / 86400 <=? Datetime.MAXDAYS) = true.
Proof.
  intros Hs. unfold Datetime.MAXDAYS.
  assert (-5 <= s / 86400) by (apply Z.div_le_lower_bound; lia).
  assert (s / 86400 <= 5) by (apply Z.div_le_upper_bound; lia).
  apply andb_true_iff. rewrite !Z.leb_le. lia.
Qed.

Section ParseText.

Context `{Runtime}.

Lemma parse_fields_two (text D T : string) ymd hms (offset : timedelta) :
  Str.split_ws (Str.strip text) = [D; T] ->
  parse_date_entries (Str.split ":" D) = Ok (Some ymd) ->
  parse_time_entries (Str.split ":" (item (Str.re_split T) 0)) = Ok hms ->
  parse_offset_entries (Str.re_split T) = Ok offset ->
  parse_fields text = Ok (Some (ymd, hms, offset)).
Proof.
  intros Helements Hdate Htime Hoffset. unfold parse_fields.
  rewrite Helements. cbn [length Nat.ltb Nat.leb]. unfold item in *.
  cbn [nth]. rewrite Hdate. cbn. rewrite Htime. cbn. now rewrite Hoffset.
Qed.

Lemma parse_fields_one (text D : string) ymd :
  Str.split_ws (Str.strip text) = [D] ->
  parse_date_entries (Str.split ":" D) = Ok (Some ymd) ->
  parse_fields text = Ok (Some (ymd, (12, 0, 0), Datetime.zero)).
Proof.
  intros Helements Hdate. unfold parse_fields.
  rewrite Helements. cbn [length Nat.ltb Nat.leb]. unfold item.
  cbn [nth]. now rewrite Hdate.
Qed.

Lemma parse_date_fields (text : string) (y m d h mi s : Z)
    (offset : timedelta) (formatted : string) :
  parse_fields text = Ok (Some (y, m, d, (h, mi, s), offset)) ->
  Datetime.valid y m d h mi s = true ->
  strftime (mkDatetime y m d h mi s) "%Y/%m" = Ok formatted ->
  parse_date text = Ok (Some (mkDatetime y m d h mi s), Some offset).
Proof.
  intros Hfields Hvalid Hformat. unfold parse_date. rewrite Hfields. cbn.
  unfold Datetime.new. rewrite Hvalid. cbn. now rewrite Hformat.
Qed.

End ParseText.

Lemma numeral_nonempty (a : string) (n : Z) : numeral a n = true -> a ≠ "".
Proof. now intros (? & _)%numeral_spec. Qed.

Lemma noncolon_field (a : string) (n : Z) :
  numeral a n = true ->
  only (fun c => negb (Ascii.eqb c ":")) a = true.
Proof. intros (_ & Ha & _)%numeral_spec. now apply only_digit_not. Qed.

Section Tokens.

Context `{Runtime}.

Lemma date_token (ys ms ds : string) (y m d : Z) :
  numeral ys y = true -> numeral ms m = true -> numeral ds d = true ->
  Str.gt ys "0000" = true ->
  ys +:+ ":" +:+ ms +:+ ":" +:+ ds ≠ ""
  /\ only (fun c => negb (Str.is_space c)) (ys +:+ ":" +:+ ms +:+ ":" +:+ ds)
     = true
  /\ parse_date_entries (Str.split ":" (ys +:+ ":" +:+ ms +:+ ":" +:+ ds))
     = Ok (Some (y, m, d)).
Proof.
  intros Hy Hm Hd Hgt. split; [|split].
  - apply app_nonempty. now apply numeral_nonempty in Hy.
  - apply triple_plain; eauto using nonspace_field.
  - rewrite (date_entries_numerals _ _ _ _ _ _ Hy Hm Hd).
    now apply parse_date_entries_numerals.
Qed.

Lemma time_token (hs mis ss : string) (h mi s : Z) :
  numeral hs h = true -> numeral mis mi = true -> numeral ss s = true ->
  hs +:+ ":" +:+ mis +:+ ":" +:+ ss ≠ ""
  /\ only (fun c => negb (Str.is_space c)) (hs +:+ ":" +:+ mis +:+ ":" +:+ ss)
     = true
  /\ only (fun c => negb (Str.is_sep c)) (hs +:+ ":" +:+ mis +:+ ":" +:+ ss)
     = true
  /\ parse_time_entries (Str.split ":" (hs +:+ ":" +:+ mis +:+ ":" +:+ ss))
     = Ok (h, mi, s).
Proof.
  intros Hh Hmi Hs. split; [|split; [|split]].
  - apply app_nonempty. now apply numeral_nonempty in Hh.
  - apply triple_plain; eauto using nonspace_field.
  - apply triple_plain; eauto using nonsep_field.
  - rewrite (date_entries_numerals _ _ _ _ _ _ Hh Hmi Hs).
    now apply parse_time_entries_numerals.
Qed.

Lemma time_token_fraction (hs mis ss frac : string) (h mi s n : Z) :
  numeral hs h = true -> numeral mis mi = true -> numeral ss s = true ->
  numeral frac n = true ->
  let T := hs +:+ ":" +:+ mis +:+ ":" +:+ ss +:+ "." +:+ frac in
  T ≠ ""
  /\ only (fun c => negb (Str.is_space c)) T = true
  /\ only (fun c => negb (Str.is_sep c)) T = true
  /\ parse_time_entries (Str.split ":" T) = Ok (h, mi, s).
Proof.
  intros Hh Hmi Hs Hfrac T.
  assert (forall P : ascii -> bool,
             P ":"%char = true -> P "."%char = true ->
             (forall a k, numeral a k = true -> only P a = true) ->
             only P T = true) as Hplain.
  { intros P Hcolon Hdot HP. unfold T. strings.
    rewrite only_app, (HP _ _ Hh). cbn [only andb]. rewrite Hcolon.
    rewrite only_app, (HP _ _ Hmi). cbn [only andb]. rewrite Hcolon.
    rewrite only_app, (HP _ _ Hs). cbn [only andb]. rewrite Hdot.
    now apply (HP frac n). }
  split; [|split; [|split]].
  - apply app_nonempty. now apply numeral_nonempty in Hh.
  - apply Hplain; eauto using nonspace_field.
  - apply Hplain; eauto using nonsep_field.
  - unfold T. strings.
    rewrite !split_app by eauto using noncolon_field.
    rewrite split_plain.
    + change (String "." frac) with ("." +:+ frac).
      now apply parse_time_entries_numerals.
    + rewrite only_app, (noncolon_field _ _ Hs). cbn [only andb].
      apply (noncolon_field _ _ Hfrac).
Qed.

Lemma time_token_minutes (hs mis : string) (h mi : Z) :
  numeral hs h = true -> numeral mis mi = true ->
  hs +:+ ":" +:+ mis ≠ ""
  /\ only (fun c => negb (Str.is_space c)) (hs +:+ ":" +:+ mis) = true
  /\ only (fun c => negb (Str.is_sep c)) (hs +:+ ":" +:+ mis) = true
  /\ parse_time_entries (Str.split ":" (hs +:+ ":" +:+ mis)) = Ok (h, mi, 0).
Proof.
  intros Hh Hmi. split; [|split; [|split]].
  - apply app_nonempty. now apply numeral_nonempty in Hh.
  - apply pair_plain; eauto using nonspace_field.
  - apply pair_plain; eauto using nonsep_field.
  - strings. rewrite split_app by eauto using noncolon_field.
    rewrite split_plain by eauto using noncolon_field.
    now apply (parse_time_entries_numerals hs mis hs h mi h).
Qed.

Lemma fields_no_offset (D T : string) ymd hms :
  D ≠ "" -> only (fun c => negb (Str.is_space c)) D = true ->
  parse_date_entries (Str.split ":" D) = Ok (Some ymd) ->
  T ≠ "" -> only (fun c => negb (Str.is_space c)) T = true ->
  only (fun c => negb (Str.is_sep c)) T = true ->
  parse_time_entries (Str.split ":" T) = Ok hms ->
  parse_fields (D +:+ " " +:+ T) = Ok (Some (ymd, hms, Datetime.zero))
  /\ parse_fields (D +:+ " " +:+ T +:+ "Z")
     = Ok (Some (ymd, hms, Datetime.zero)).
Proof.
  intros HD HDs Hdate HT HTs HTp Htime. split.
  - apply (parse_fields_two _ D T); auto using elements_two;
      rewrite re_split_plain by assumption; [assumption|reflexivity].
  - apply (parse_fields_two _ D (T +:+ "Z")).
    + apply elements_two; auto using app_nonempty.
      rewrite only_app, HTs. reflexivity.
    + assumption.
    + rewrite re_split_app by easy. assumption.
    + rewrite re_split_app by easy. reflexivity.
Qed.

Lemma fields_offset (D T ohs oms : string) (oh om : Z) ymd hms :
  D ≠ "" -> only (fun c => negb (Str.is_space c)) D = true ->
  parse_date_entries (Str.split ":" D) = Ok (Some ymd) ->
  T ≠ "" -> only (fun c => negb (Str.is_space c)) T = true ->
  only (fun c => negb (Str.is_sep c)) T = true ->
  parse_time_entries (Str.split ":" T) = Ok hms ->
  numeral ohs oh = true -> numeral oms om = true ->
  0 <= oh < 100 -> 0 <= om < 100 ->
  parse_fields (D +:+ " " +:+ T +:+ "+" +:+ ohs +:+ ":" +:+ oms)
  = Ok (Some (ymd, hms, mkTimedelta (oh * 3600 + om * 60)))
  /\ parse_fields (D +:+ " " +:+ T +:+ "-" +:+ ohs +:+ ":" +:+ oms)
     = Ok (Some (ymd, hms, mkTimedelta (- (oh * 3600 + om * 60)))).
Proof.
  intros HD HDs Hdate HT HTs HTp Htime Hoh Hom Hh Hm.
  assert (forall sign : ascii,
             Str.is_sep sign = true -> Str.is_space sign = false ->
             Str.split_ws (Str.strip (D +:+ " " +:+ T +:+ String sign ""
                                      +:+ ohs +:+ ":" +:+ oms))
             = [D; T +:+ String sign "" +:+ ohs +:+ ":" +:+ oms]
             /\ Str.re_split (T +:+ String sign "" +:+ ohs +:+ ":" +:+ oms)
                = [T; String sign ""; ohs +:+ ":" +:+ oms]) as Htokens.
  { intros sign Hsep Hspace. split.
    - apply elements_two; auto using app_nonempty.
      strings. rewrite only_app, HTs. cbn [only andb]. rewrite Hspace.
      cbn [negb andb]. change (String ":" oms) with (":" +:+ oms).
      apply pair_plain; eauto using nonspace_field.
    - strings. rewrite re_split_app by assumption.
      rewrite re_split_plain; [reflexivity|].
      change (String ":" oms) with (":" +:+ oms).
      apply pair_plain; eauto using nonsep_field. }
  assert (Str.split ":" (ohs +:+ ":" +:+ oms) = [ohs; oms]) as Hsplit.
  { strings. rewrite split_app by eauto using noncolon_field.
    now rewrite split_plain by eauto using noncolon_field. }
  split.
  - destruct (Htokens "+"%char eq_refl eq_refl) as [Helements Hentries].
    apply (parse_fields_two _ D _ _ _ _ Helements Hdate);
      rewrite Hentries; [assumption|].
    unfold parse_offset_entries, item. cbn [length nth Nat.ltb Nat.leb].
    rewrite Hsplit. cbn [length nth Nat.eqb].
    rewrite (int_numeral _ _ Hoh), (int_numeral _ _ Hom). cbn.
    unfold Datetime.delta. now rewrite offset_in_range by lia.
  - destruct (Htokens "-"%char eq_refl eq_refl) as [Helements Hentries].
    apply (parse_fields_two _ D _ _ _ _ Helements Hdate);
      rewrite Hentries; [assumption|].
    unfold parse_offset_entries, item. cbn [length nth Nat.ltb Nat.leb].
    rewrite Hsplit. cbn [length nth Nat.eqb].
    rewrite (int_numeral _ _ Hoh), (int_numeral _ _ Hom). cbn.
    unfold Datetime.delta. rewrite offset_in_range by lia. cbn.
    unfold Datetime.mul. cbn [total_seconds].
    rewrite offset_in_range by lia. do 3 f_equal. lia.
Qed.

End Tokens.

Section RoundTrip.

Context `{Runtime}.

Lemma exif_date_token (y m d h mi s : Z) :
  Datetime.valid y m d h mi s = true ->
  exif_date (mkDatetime y m d h mi s) ≠ ""
  /\ only (fun c => negb (Str.is_space c)) (exif_date (mkDatetime y m d h mi s))
     = true
  /\ parse_date_entries (Str.split ":" (exif_date (mkDatetime y m d h mi s)))
     = Ok (Some (y, m, d)).
Proof.
  intros (Hy & Hm & Hd & _)%valid_bounds. unfold exif_date. cbn [year month day].
  destruct (pad4_numeral y ltac:(lia)) as [Hys Hgt].
  apply (date_token _ _ _ y m d); auto using pad2_numeral.
  apply Hgt. lia.
Qed.

Lemma exif_time_token (y m d h mi s : Z) :
  Datetime.valid y m d h mi s = true ->
  exif_time (mkDatetime y m d h mi s) ≠ ""
  /\ only (fun c => negb (Str.is_space c)) (exif_time (mkDatetime y m d h mi s))
     = true
  /\ only (fun c => negb (Str.is_sep c)) (exif_time (mkDatetime y m d h mi s))
     = true
  /\ parse_time_entries (Str.split ":" (exif_time (mkDatetime y m d h mi s)))
     = Ok (h, mi, s).
Proof.
  intros (_ & _ & _ & Hh & Hmi & Hs)%valid_bounds.
  unfold exif_time. cbn [hour minute second].
  apply (time_token _ _ _ h mi s); auto using pad2_numeral.
Qed.

(** X14.  [parse_date] reads back the text of every valid date that
    [strftime] accepts: [YYYY:MM:DD HH:MM:SS] gives the date itself with
    the offset [timedelta(0)], and so does the text followed by [Z] or
    by a fraction of a second, which is dropped. *)
Theorem parse_date_round_trip (date : datetime) (formatted : string) :
  Datetime.valid (year date) (month date) (day date)
                 (hour date) (minute date) (second date) = true ->
  strftime date "%Y/%m" = Ok formatted ->
  parse_date (exif_text date) = Ok (Some date, Some Datetime.zero)
  /\ parse_date (exif_text date +:+ "Z") = Ok (Some date, Some Datetime.zero)
  /\ forall frac n,
      numeral frac n = true ->
      parse_date (exif_text date +:+ "." +:+ frac)
      = Ok (Some date, Some Datetime.zero).
Proof.
  destruct date as [y m d h mi s]. cbn [year month day hour minute second].
  intros Hvalid Hformat.
  destruct (exif_date_token _ _ _ _ _ _ Hvalid) as (HD & HDs & Hdate).
  destruct (exif_time_token _ _ _ _ _ _ Hvalid) as (HT & HTs & HTp & Htime).
  destruct (fields_no_offset _ _ _ _ HD HDs Hdate HT HTs HTp Htime)
    as [Hplain HZ].
  split; [|split].
  - now apply (parse_date_fields _ _ _ _ _ _ _ _ formatted).
  - unfold exif_text. rewrite !string_app_assoc.
    now apply (parse_date_fields _ _ _ _ _ _ _ _ formatted).
  - intros frac n Hfrac.
    apply (parse_date_fields _ _ _ _ _ _ _ _ formatted); [|assumption..].
    unfold exif_text, exif_time. cbn [hour minute second].
    rewrite !string_app_assoc.
    apply valid_bounds in Hvalid as (_ & _ & _ & Hh & Hmi & Hs).
    destruct (time_token_fraction (Str.pad2 h) (Str.pad2 mi) (Str.pad2 s)
                frac h mi s n) as (HF & HFs & HFp & Hftime);
      auto using pad2_numeral.
    now apply fields_no_offset.
Qed.

(** X15.  A text with an offset of [oh] hours and [om] minutes after
    the time gives the date as it is written, not shifted, with that
    offset; with a minus sign the offset is negated. *)
Theorem parse_date_reads_offset (date : datetime) (formatted : string)
    (oh om : Z) :
  Datetime.valid (year date) (month date) (day date)
                 (hour date) (minute date) (second date) = true ->
  strftime date "%Y/%m" = Ok formatted ->
  0 <= oh < 100 -> 0 <= om < 100 ->
  parse_date (exif_text date +:+ "+" +:+ Str.pad2 oh +:+ ":" +:+ Str.pad2 om)
  = Ok (Some date, Some (mkTimedelta (oh * 3600 + om * 60)))
  /\ parse_date (exif_text date +:+ "-" +:+ Str.pad2 oh +:+ ":" +:+ Str.pad2 om)
     = Ok (Some date, Some (mkTimedelta (- (oh * 3600 + om * 60)))).
Proof.
  destruct date as [y m d h mi s]. cbn [year month day hour minute second].
  intros Hvalid Hformat Hoh Hom.
  destruct (exif_date_token _ _ _ _ _ _ Hvalid) as (HD & HDs & Hdate).
  destruct (exif_time_token _ _ _ _ _ _ Hvalid) as (HT & HTs & HTp & Htime).
  destruct (fields_offset _ _ (Str.pad2 oh) (Str.pad2 om) oh om _ _
              HD HDs Hdate HT HTs HTp Htime) as [Hplus Hminus];
    auto using pad2_numeral.
  unfold exif_text. rewrite !string_app_assoc.
  split; now apply (parse_date_fields _ _ _ _ _ _ _ _ formatted).
Qed.

(** X16.  What the text leaves out gets the defaults of the code: a
    date without a time is read as noon of that day, and a time without
    seconds as the full minute. *)
Theorem parse_date_defaults (date : datetime) (noon full : string) :
  Datetime.valid (year date) (month date) (day date)
                 (hour date) (minute date) 0 = true ->
  strftime (mkDatetime (year date) (month date) (day date) 12 0 0) "%Y/%m"
  = Ok noon ->
  strftime (mkDatetime (year date) (month date) (day date)
                       (hour date) (minute date) 0) "%Y/%m"
  = Ok full ->
  parse_date (exif_date date)
  = Ok (Some (mkDatetime (year date) (month date) (day date) 12 0 0),
        Some Datetime.zero)
  /\ parse_date (exif_date date +:+ " " +:+ Str.pad2 (hour date)
                 +:+ ":" +:+ Str.pad2 (minute date))
     = Ok (Some (mkDatetime (year date) (month date) (day date)
                            (hour date) (minute date) 0),
           Some Datetime.zero).
Proof.
  destruct date as [y m d h mi s]. cbn [year month day hour minute second].
  intros Hvalid Hnoon Hfull.
  assert (exif_date (mkDatetime y m d h mi s)
          = exif_date (mkDatetime y m d h mi 0)) as -> by reflexivity.
  destruct (exif_date_token _ _ _ _ _ _ Hvalid) as (HD & HDs & Hdate).
  split.
  - apply (parse_date_fields _ _ _ _ _ _ _ _ noon); [| |exact Hnoon].
    + apply (parse_fields_one _ _ _ (elements_one _ HD HDs) Hdate).
    + unfold Datetime.valid in *.
      repeat match type of Hvalid with
             | _ && _ = true => apply andb_true_iff in Hvalid as [Hvalid ?]
             end.
      repeat (apply andb_true_iff; split); try assumption; reflexivity.
  - apply (parse_date_fields _ _ _ _ _ _ _ _ full);
      [|assumption|exact Hfull].
    apply valid_bounds in Hvalid as (_ & _ & _ & Hh & Hmi & _).
    destruct (time_token_minutes (Str.pad2 h) (Str.pad2 mi) h mi)
      as (HT & HTs & HTp & Htime); auto using pad2_numeral.
    now apply fields_no_offset.
Qed.

End RoundTrip.


(** Nine hours, as for Tokyo, with seconds to spare. *)
Lemma format_offset_shape_witness :
  format_offset (mkTimedelta (9 * 3600 + 0 * 60 + 59)) = "+ 09:00"
  /\ format_offset (mkTimedelta (- (9 * 3600 + 0 * 60 + 59))) = "- 09:00".
Proof. apply (format_offset_shape 9 0 59); lia. Defined.

(** The hidden twin has a date and is ignored for its path. *)
Lemma ignored_exactly_witness :
  num_ignored (ignore (initial Example.twin_disk))
  = num_ignored (initial Example.twin_disk) + 1
  <-> ignorable ".trash/photo.jpg"
      \/ Some (mkDatetime 2021 6 1 10 0 0) = None.
Proof.
  apply (@ignored_exactly Example.runtime (Example.cfg false false false)
           (initial Example.twin_disk) (ignore (initial Example.twin_disk))
           (Example.photo ".trash/photo.jpg" "2021:06:01 10:00:00")
           ".trash/photo.jpg" (Some (mkDatetime 2021 6 1 10 0 0))
           (Some "EXIF:DateTimeOriginal defined in local time"));
    vm_compute; reflexivity.
Defined.

(** Noon of the first of June 2021. *)
Lemma parse_date_round_trip_witness :
  exif_text Example.noon = "2021:06:01 12:00:00"
  /\ @parse_date Example.runtime (exif_text Example.noon)
     = Ok (Some Example.noon, Some Datetime.zero)
  /\ @parse_date Example.runtime (exif_text Example.noon +:+ "Z")
     = Ok (Some Example.noon, Some Datetime.zero)
  /\ forall frac n,
      numeral frac n = true ->
      @parse_date Example.runtime (exif_text Example.noon +:+ "." +:+ frac)
      = Ok (Some Example.noon, Some Datetime.zero).
Proof.
  split; [vm_compute; reflexivity|].
  apply (@parse_date_round_trip Example.runtime Example.noon "2021/06");
    vm_compute; reflexivity.
Defined.

(** The file date of the video written in Tokyo. *)
Lemma parse_date_reads_offset_witness :
  exif_text (mkDatetime 2021 6 1 21 0 3) +:+ "+" +:+ Str.pad2 9
  +:+ ":" +:+ Str.pad2 0 = "2021:06:01 21:00:03+09:00"
  /\ @parse_date Example.runtime
       (exif_text (mkDatetime 2021 6 1 21 0 3) +:+ "+" +:+ Str.pad2 9
        +:+ ":" +:+ Str.pad2 0)
     = Ok (Some (mkDatetime 2021 6 1 21 0 3),
           Some (mkTimedelta (9 * 3600 + 0 * 60)))
  /\ @parse_date Example.runtime
       (exif_text (mkDatetime 2021 6 1 21 0 3) +:+ "-" +:+ Str.pad2 9
        +:+ ":" +:+ Str.pad2 0)
     = Ok (Some (mkDatetime 2021 6 1 21 0 3),
           Some (mkTimedelta (- (9 * 3600 + 0 * 60)))).
Proof.
  split; [vm_compute; reflexivity|].
  apply (@parse_date_reads_offset Example.runtime
           (mkDatetime 2021 6 1 21 0 3) "2021/06" 9 0);
    [vm_compute; reflexivity | vm_compute; reflexivity | lia | lia].
Defined.

(** The first of June 2021 without a time, and at 21:05. *)
Lemma parse_date_defaults_witness :
  @parse_date Example.runtime (exif_date (mkDatetime 2021 6 1 21 5 0))
  = Ok (Some (mkDatetime 2021 6 1 12 0 0), Some Datetime.zero)
  /\ @parse_date Example.runtime
       (exif_date (mkDatetime 2021 6 1 21 5 0) +:+ " " +:+ Str.pad2 21
        +:+ ":" +:+ Str.pad2 5)
     = Ok (Some (mkDatetime 2021 6 1 21 5 0), Some Datetime.zero).
Proof.
  apply (@parse_date_defaults Example.runtime (mkDatetime 2021 6 1 21 5 0)
           "2021/06" "2021/06"); vm_compute; reflexivity.
Defined.

(** * Runs compared *)

(** ** Sorting the same records again *)



Section Rerun.

Context `{Runtime}.



End Rerun.

Section Again.

Context `{Runtime}.



End Again.


(** ** What a dry run foretells *)



Section Foretold.

Context `{Runtime}.




End Foretold.


(** ** The number of files and the length of a chain *)


Section Accounts.

Context `{Runtime}.




End Accounts.

(** X20.  The number the loop appends is bounded by the paths that are
    taken: when the loop is left, the suffix of the name it has reached
    is at most the number of files on disk and, in a dry run, claimed
    paths. *)
Theorem suffix_is_bounded (cfg : config) (st : state)
    (src_file first dst_final : string) (identical : bool) (a : Z) :
  collision_loop (budget st) cfg st src_file
    (Path.splitext first).1 (Path.splitext first).2 first 1
  = Ok (dst_final, identical, a) ->
  dst_final = candidate (Path.splitext first).1 (Path.splitext first).2
                first (a - 1)
  /\ 0 <= a - 1
     <= Z.of_nat (size (dom (files st) ∪ dom (test_file_dict st))).
Proof.
  intros Hloop.
  apply collision_loop_Ok in Hloop as (Ha & Hfinal & Hfirst & Htaken & _).
  set (dst_root := (Path.splitext first).1) in *.
  set (dst_ext := (Path.splitext first).2) in *.
  split.
  - rewrite Hfinal. unfold candidate.
    destruct (Z.eqb_spec a 1) as [->|Hne]; [reflexivity|].
    now rewrite (proj2 (Z.eqb_neq _ _)) by lia.
  - split; [lia|].
    set (taken := dom (files st) ∪ dom (test_file_dict st)).
    set (tried := candidate dst_root dst_ext first <$> seqZ 0 (a - 1)).
    assert (Hnodup : NoDup tried).
    { apply NoDup_fmap_2_strong; [|apply NoDup_seqZ].
      intros i j _ _. apply candidate_inj. apply splitext_app. }
    assert (Hsub : list_to_set tried ⊆ taken).
    { intros p (j & -> & Hj)%elem_of_list_to_set%list_elem_of_fmap.
      apply elem_of_seqZ in Hj. apply (occupied_dom cfg). unfold candidate.
      destruct (Z.eqb_spec j 0) as [->|Hj0]; [apply Hfirst|apply Htaken]; lia. }
    apply subseteq_size in Hsub.
    rewrite size_list_to_set in Hsub by assumption.
    unfold tried in Hsub. rewrite length_fmap, length_seqZ in Hsub.
    fold taken. lia.
Qed.


(** The third photo of the batch once the first two are in place. *)
Lemma suffix_is_bounded_witness :
  exists st dst_final a,
    collision_loop (budget st) (Example.cfg true false false) st
      "c/photo.jpg" (Path.splitext "out/2021/06/photo.jpg").1
      (Path.splitext "out/2021/06/photo.jpg").2 "out/2021/06/photo.jpg" 1
    = Ok (dst_final, false, a)
    /\ dst_final = "out/2021/06/photo_2.jpg"
    /\ a - 1 = 2
    /\ dst_final
       = candidate (Path.splitext "out/2021/06/photo.jpg").1
           (Path.splitext "out/2021/06/photo.jpg").2 "out/2021/06/photo.jpg"
           (a - 1)
    /\ 0 <= a - 1
       <= Z.of_nat (size (dom (files st) ∪ dom (test_file_dict st))).
Proof.
  exists (initial (<["out/2021/06/photo.jpg" := mkFile 100 "first"]>
                    (<["out/2021/06/photo_1.jpg" := mkFile 200 "second"]>
                       Example.disk))).
  eexists _, _. split; [vm_compute; reflexivity|].
  split; [reflexivity|]. split; [reflexivity|].
  apply (suffix_is_bounded (Example.cfg true false false) _ "c/photo.jpg"
           "out/2021/06/photo.jpg" _ false).
  vm_compute. reflexivity.
Defined.

(** * The script the rewrite started from *)

(** ** The parser of [sortphotos.py] *)

Lemma digit_printable (c : ascii) : Str.is_digit c = true -> printable c = true.
Proof.
  destruct c as [[] [] [] [] [] [] [] []]; vm_compute; intros Hd;
    try discriminate Hd; reflexivity.
Qed.

Lemma numeral_printable (s : string) (n : Z) :
  numeral s n = true -> only printable s = true.
Proof.
  intros (_ & Hd & _)%numeral_spec. revert Hd. apply only_impl.
  apply digit_printable.
Qed.

Lemma exif_text_printable (date : datetime) :
  Datetime.valid (year date) (month date) (day date)
                 (hour date) (minute date) (second date) = true ->
  only printable (exif_text date) = true.
Proof.
  intros (Hy & Hm & Hd & Hh & Hmi & Hs)%valid_bounds.
  destruct (pad4_numeral (year date) ltac:(lia)) as [Hys _].
  unfold exif_text. rewrite only_app.
  change (" " +:+ exif_time date) with (String " " (exif_time date)).
  cbn [only]. change (printable " ") with true. cbn [andb].
  apply andb_true_iff. split.
  - apply triple_plain; eauto using numeral_printable, pad2_numeral.
  - apply triple_plain; eauto using numeral_printable, pad2_numeral.
Qed.

Section ExifParser.

Context `{Runtime} `{Python2}.

Lemma exif_fields_two (text D T : string) (b : bool) ymd hms dateadd :
  strip_split text = [D; T] ->
  exif_date_entries (Str.split ":" D) = Ok (Some ymd) ->
  exif_time_entries (Str.split ":" (item (Str.re_split T) 0)) = Ok hms ->
  exif_time_zone b (Str.re_split T) = Ok dateadd ->
  exif_fields text b = Ok (Some (ymd, hms, dateadd)).
Proof.
  intros Helements Hdate Htime Hzone. unfold exif_fields.
  rewrite Helements. cbn [length Nat.ltb Nat.leb]. unfold item in *.
  cbn [nth]. rewrite Hdate. cbn. rewrite Htime. cbn. now rewrite Hzone.
Qed.

Lemma parse_date_exif_fields (text : string) (b : bool) (y m d h mi s : Z)
    (dateadd : option timedelta) (formatted : string) :
  exif_fields text b = Ok (Some (y, m, d, (h, mi, s), dateadd)) ->
  Datetime.valid y m d h mi s = true ->
  strftime (mkDatetime y m d h mi s) "%Y/%m-%b" = Ok formatted ->
  parse_date_exif text b
  = match dateadd with
    | Some dateadd =>
        moved ← Datetime.add (mkDatetime y m d h mi s) dateadd; Ok (Some moved)
    | None => Ok (Some (mkDatetime y m d h mi s))
    end.
Proof.
  intros Hfields Hvalid Hformat. unfold parse_date_exif. rewrite Hfields. cbn.
  unfold Datetime.new. rewrite Hvalid. cbn. now rewrite Hformat.
Qed.

Lemma exif_date_entries_text (y m d h mi s : Z) :
  plain_python2 ->
  Datetime.valid y m d h mi s = true ->
  exif_date_entries (Str.split ":" (exif_date (mkDatetime y m d h mi s)))
  = Ok (Some (y, m, d)).
Proof.
  intros [_ Hint] (Hy & Hm & Hd & _)%valid_bounds.
  unfold exif_date. cbn [year month day].
  destruct (pad4_numeral y ltac:(lia)) as [Hys Hgt].
  pose proof (pad2_numeral m Hm) as Hms. pose proof (pad2_numeral d Hd) as Hds.
  rewrite (date_entries_numerals _ _ _ _ _ _ Hys Hms Hds).
  unfold exif_date_entries, item. cbn [length nth].
  rewrite Hgt by lia. cbn [Nat.eqb andb].
  assert (Str.contains "." (Str.join [pad4 y; Str.pad2 m; Str.pad2 d]) = false)
    as ->.
  { apply contains_dot_digits. cbn [Str.join fold_right]. rewrite !only_app.
    apply numeral_spec in Hys as (_ & -> & _).
    apply numeral_spec in Hms as (_ & -> & _).
    now apply numeral_spec in Hds as (_ & -> & _). }
  cbn [negb]. now rewrite (Hint _ _ Hys), (Hint _ _ Hms), (Hint _ _ Hds).
Qed.

Lemma exif_time_entries_text (y m d h mi s : Z) :
  plain_python2 ->
  Datetime.valid y m d h mi s = true ->
  exif_time_entries (Str.split ":" (exif_time (mkDatetime y m d h mi s)))
  = Ok (h, mi, s).
Proof.
  intros [_ Hint] (_ & _ & _ & Hh & Hmi & Hs)%valid_bounds.
  unfold exif_time. cbn [hour minute second].
  pose proof (pad2_numeral h Hh) as Hhs.
  pose proof (pad2_numeral mi Hmi) as Hmis.
  pose proof (pad2_numeral s Hs) as Hss.
  rewrite (date_entries_numerals _ _ _ _ _ _ Hhs Hmis Hss).
  unfold exif_time_entries, item. cbn [length nth Nat.eqb].
  rewrite (Hint _ _ Hhs), (Hint _ _ Hmis). cbn.
  apply numeral_spec in Hss as Hd. destruct Hd as (_ & Hd & _).
  rewrite split_plain by now apply only_digit_not.
  cbn [nth]. now rewrite (Hint _ _ Hss).
Qed.

(** The tokens of a text with a zone after the time. *)
Lemma exif_zone_tokens (date : datetime) (sign : ascii) (zh zm : Z) :
  plain_python2 ->
  Datetime.valid (year date) (month date) (day date)
                 (hour date) (minute date) (second date) = true ->
  Str.is_sep sign = true -> printable sign = true ->
  0 <= zh < 100 -> 0 <= zm < 100 ->
  let zone := Str.pad2 zh +:+ ":" +:+ Str.pad2 zm in
  strip_split (exif_text date +:+ String sign "" +:+ zone)
  = [exif_date date; exif_time date +:+ String sign "" +:+ zone]
  /\ Str.re_split (exif_time date +:+ String sign "" +:+ zone)
     = [exif_time date; String sign ""; zone]
  /\ Str.split ":" zone = [Str.pad2 zh; Str.pad2 zm].
Proof.
  intros [Htokens _] Hvalid Hsep Hprint Hzh Hzm zone.
  pose proof (pad2_numeral zh Hzh) as Hzhs.
  pose proof (pad2_numeral zm Hzm) as Hzms.
  destruct date as [y m d h mi s]. cbn [year month day hour minute second] in *.
  destruct (exif_date_token _ _ _ _ _ _ Hvalid) as (HD & HDs & _).
  destruct (exif_time_token _ _ _ _ _ _ Hvalid) as (HT & HTs & HTp & _).
  assert (Str.is_space sign = false) as Hspace.
  { unfold Str.is_sep in Hsep.
    destruct (Ascii.eqb_spec sign "+") as [->|_]; [reflexivity|].
    destruct (Ascii.eqb_spec sign "-") as [->|_]; [reflexivity|].
    destruct (Ascii.eqb_spec sign "Z") as [->|_]; [reflexivity|discriminate]. }
  split; [|split].
  - rewrite Htokens.
    + unfold exif_text. rewrite !string_app_assoc.
      apply elements_two; auto using app_nonempty.
      unfold zone. strings. rewrite only_app, HTs. cbn [only andb].
      rewrite Hspace. cbn [negb andb]. change (String ":" ?x) with (":" +:+ x).
      apply pair_plain; eauto using nonspace_field.
    + rewrite only_app, exif_text_printable by assumption.
      unfold zone. strings. cbn [only andb]. rewrite Hprint. cbn [andb].
      change (String ":" ?x) with (":" +:+ x).
      apply pair_plain; eauto using numeral_printable.
  - unfold zone. strings. rewrite re_split_app by assumption.
    rewrite re_split_plain; [reflexivity|].
    change (String ":" ?x) with (":" +:+ x).
    apply pair_plain; eauto using nonsep_field.
  - unfold zone. strings. rewrite split_app by eauto using noncolon_field.
    now rewrite split_plain by eauto using noncolon_field.
Qed.

End ExifParser.

Section ExifZone.

Context `{Runtime} `{Python2}.

Lemma exif_zone_fields (date : datetime) (sign : ascii) (zh zm : Z)
    (b : bool) (dateadd : option timedelta) :
  plain_python2 ->
  Datetime.valid (year date) (month date) (day date)
                 (hour date) (minute date) (second date) = true ->
  Str.is_sep sign = true -> printable sign = true ->
  0 <= zh < 100 -> 0 <= zm < 100 ->
  exif_time_zone b [exif_time date; String sign "";
                    Str.pad2 zh +:+ ":" +:+ Str.pad2 zm] = Ok dateadd ->
  exif_fields (exif_text date +:+ String sign ""
               +:+ Str.pad2 zh +:+ ":" +:+ Str.pad2 zm) b
  = Ok (Some (year date, month date, day date,
              (hour date, minute date, second date), dateadd)).
Proof.
  intros Hplain Hvalid Hsep Hprint Hzh Hzm Hzone.
  destruct (exif_zone_tokens date sign zh zm Hplain Hvalid Hsep Hprint Hzh Hzm)
    as (Helements & Hentries & _).
  destruct date as [y m d h mi s]. cbn [year month day hour minute second] in *.
  apply (exif_fields_two _ _ _ _ _ _ _ Helements).
  - now apply exif_date_entries_text.
  - rewrite Hentries. unfold item. cbn [nth].
    now apply (exif_time_entries_text y m d).
  - now rewrite Hentries.
Qed.

Lemma exif_zone_adjust (date : datetime) (sign : ascii) (zh zm : Z) :
  plain_python2 ->
  0 <= zh < 100 -> 0 <= zm < 100 ->
  exif_time_zone false [exif_time date; String sign "";
                        Str.pad2 zh +:+ ":" +:+ Str.pad2 zm]
  = Ok (Some (mkTimedelta ((if Ascii.eqb sign "+" then - zh else zh) * 3600
                           + zm * 60))).
Proof.
  intros [_ Hint] Hzh Hzm.
  pose proof (pad2_numeral zh Hzh) as Hzhs.
  pose proof (pad2_numeral zm Hzm) as Hzms.
  unfold exif_time_zone, item. cbn [negb andb length nth Nat.ltb Nat.leb].
  assert (Str.split ":" (Str.pad2 zh +:+ ":" +:+ Str.pad2 zm)
          = [Str.pad2 zh; Str.pad2 zm]) as ->.
  { strings. rewrite split_app by eauto using noncolon_field.
    now rewrite split_plain by eauto using noncolon_field. }
  cbn [length nth Nat.eqb]. rewrite (Hint _ _ Hzhs), (Hint _ _ Hzms).
  assert (String.eqb (String sign "") "+" = Ascii.eqb sign "+") as ->.
  { cbn. now destruct (Ascii.eqb sign "+"). }
  unfold mbind, result_bind, Datetime.delta. cbv beta iota.
  destruct (Ascii.eqb sign "+"); rewrite offset_in_range by lia;
    do 3 f_equal; lia.
Qed.

(** X21.  [parse_date_exif] on the text of a valid date that
    [strftime] accepts, under any Python 2: the text alone gives the
    date; with a zone after the time, local-time mode gives the date as
    written, and otherwise the date is moved by the zone with the sign
    turned round for the hours only: [+hh:mm] moves it by minus [hh]
    hours and plus [mm] minutes, [-hh:mm] by plus [hh] hours and plus
    [mm] minutes. *)
Theorem parse_date_exif_time_zone (date : datetime) (formatted : string)
    (zh zm : Z) (use_local_time : bool) :
  plain_python2 ->
  Datetime.valid (year date) (month date) (day date)
                 (hour date) (minute date) (second date) = true ->
  strftime date "%Y/%m-%b" = Ok formatted ->
  0 <= zh < 100 -> 0 <= zm < 100 ->
  parse_date_exif (exif_text date) use_local_time = Ok (Some date)
  /\ parse_date_exif
       (exif_text date +:+ "+" +:+ Str.pad2 zh +:+ ":" +:+ Str.pad2 zm) true
     = Ok (Some date)
  /\ parse_date_exif
       (exif_text date +:+ "-" +:+ Str.pad2 zh +:+ ":" +:+ Str.pad2 zm) true
     = Ok (Some date)
  /\ parse_date_exif
       (exif_text date +:+ "+" +:+ Str.pad2 zh +:+ ":" +:+ Str.pad2 zm) false
     = (moved ← Datetime.add date (mkTimedelta (- zh * 3600 + zm * 60));
        Ok (Some moved))
  /\ parse_date_exif
       (exif_text date +:+ "-" +:+ Str.pad2 zh +:+ ":" +:+ Str.pad2 zm) false
     = (moved ← Datetime.add date (mkTimedelta (zh * 3600 + zm * 60));
        Ok (Some moved)).
Proof.
  intros Hplain Hvalid Hformat Hzh Hzm.
  pose proof (exif_zone_fields date "+" zh zm) as Hplus.
  pose proof (exif_zone_fields date "-" zh zm) as Hminus.
  pose proof (exif_zone_adjust date "+" zh zm Hplain Hzh Hzm) as Hadd_plus.
  pose proof (exif_zone_adjust date "-" zh zm Hplain Hzh Hzm) as Hadd_minus.
  cbn [Ascii.eqb Bool.eqb] in Hadd_plus, Hadd_minus.
  destruct date as [y m d h mi s]. cbn [year month day hour minute second] in *.
  split; [|split; [|split; [|split]]].
  - rewrite (parse_date_exif_fields _ _ y m d h mi s None formatted);
      [reflexivity| |assumption..].
    destruct (exif_date_token _ _ _ _ _ _ Hvalid) as (HD & HDs & _).
    destruct (exif_time_token _ _ _ _ _ _ Hvalid) as (HT & HTs & HTp & _).
    apply (exif_fields_two _ (exif_date (mkDatetime y m d h mi s))
             (exif_time (mkDatetime y m d h mi s))).
    + destruct Hplain as [Htokens _]. rewrite Htokens.
      * now apply elements_two.
      * now apply exif_text_printable.
    + now apply exif_date_entries_text.
    + rewrite re_split_plain by assumption. unfold item. cbn [nth].
      now apply (exif_time_entries_text y m d).
    + rewrite re_split_plain by assumption. unfold exif_time_zone.
      now destruct use_local_time.
  - rewrite (parse_date_exif_fields _ _ y m d h mi s None formatted);
      [reflexivity| |assumption..].
    now apply (Hplus true None Hplain Hvalid).
  - rewrite (parse_date_exif_fields _ _ y m d h mi s None formatted);
      [reflexivity| |assumption..].
    now apply (Hminus true None Hplain Hvalid).
  - rewrite (parse_date_exif_fields _ _ y m d h mi s
               (Some (mkTimedelta (- zh * 3600 + zm * 60))) formatted);
      [reflexivity| |assumption..].
    now apply (Hplus false _ Hplain Hvalid).
  - rewrite (parse_date_exif_fields _ _ y m d h mi s
               (Some (mkTimedelta (zh * 3600 + zm * 60))) formatted);
      [reflexivity| |assumption..].
    now apply (Hminus false _ Hplain Hvalid).
Qed.



End ExifZone.

Lemma python2_like_str_plain : @plain_python2 python2_like_str.
Proof. split; [reflexivity|]. intros s n. apply int_numeral. Qed.

(** Nine in the evening in Delhi, five and a half hours ahead: the
    code arrives at 16:30:03, an hour after the time in UTC. *)
Lemma parse_date_exif_time_zone_witness :
  exif_text (mkDatetime 2021 6 1 21 0 3) +:+ "+" +:+ Str.pad2 5
  +:+ ":" +:+ Str.pad2 30 = "2021:06:01 21:00:03+05:30"
  /\ Datetime.add (mkDatetime 2021 6 1 21 0 3)
       (mkTimedelta (- 5 * 3600 + 30 * 60))
     = Ok (mkDatetime 2021 6 1 16 30 3)
  /\ @parse_date_exif Example.runtime python2_like_str
       (exif_text (mkDatetime 2021 6 1 21 0 3)) false
     = Ok (Some (mkDatetime 2021 6 1 21 0 3))
  /\ @parse_date_exif Example.runtime python2_like_str
       (exif_text (mkDatetime 2021 6 1 21 0 3) +:+ "+" +:+ Str.pad2 5
        +:+ ":" +:+ Str.pad2 30) true
     = Ok (Some (mkDatetime 2021 6 1 21 0 3))
  /\ @parse_date_exif Example.runtime python2_like_str
       (exif_text (mkDatetime 2021 6 1 21 0 3) +:+ "-" +:+ Str.pad2 5
        +:+ ":" +:+ Str.pad2 30) true
     = Ok (Some (mkDatetime 2021 6 1 21 0 3))
  /\ @parse_date_exif Example.runtime python2_like_str
       (exif_text (mkDatetime 2021 6 1 21 0 3) +:+ "+" +:+ Str.pad2 5
        +:+ ":" +:+ Str.pad2 30) false
     = (moved ← Datetime.add (mkDatetime 2021 6 1 21 0 3)
                  (mkTimedelta (- 5 * 3600 + 30 * 60));
        Ok (Some moved))
  /\ @parse_date_exif Example.runtime python2_like_str
       (exif_text (mkDatetime 2021 6 1 21 0 3) +:+ "-" +:+ Str.pad2 5
        +:+ ":" +:+ Str.pad2 30) false
     = (moved ← Datetime.add (mkDatetime 2021 6 1 21 0 3)
                  (mkTimedelta (5 * 3600 + 30 * 60));
        Ok (Some moved)).
Proof.
  split; [vm_compute; reflexivity|]. split; [vm_compute; reflexivity|].
  apply (@parse_date_exif_time_zone Example.runtime python2_like_str
           (mkDatetime 2021 6 1 21 0 3) "2021/06-b" 5 30 false).
  - apply python2_like_str_plain.
  - vm_compute. reflexivity.
  - vm_compute. reflexivity.
  - lia.
  - lia.
Defined.


(** ** The oldest date of a record *)

Lemma lex_lt_irrefl (a : list Z) : lex_lt a a = false.
Proof.
  induction a as [|x a IH]; [reflexivity|]. cbn [lex_lt].
  now rewrite Z.ltb_irrefl, IH, andb_false_r.
Qed.

Lemma lex_lt_trans (a b c : list Z) :
  lex_lt a b = true -> lex_lt b c = true -> lex_lt a c = true.
Proof.
  revert b c. induction a as [|x a IH]; intros [|y b] [|z c]; try easy.
  cbn [lex_lt].
  intros [Hxy|[Hxy Hab]%andb_true_iff]%orb_true_iff
         [Hyz|[Hyz Hbc]%andb_true_iff]%orb_true_iff;
    apply orb_true_iff.
  - left. apply Z.ltb_lt. apply Z.ltb_lt in Hxy, Hyz. lia.
  - left. apply Z.ltb_lt. apply Z.ltb_lt in Hxy. apply Z.eqb_eq in Hyz. lia.
  - left. apply Z.ltb_lt. apply Z.ltb_lt in Hyz. apply Z.eqb_eq in Hxy. lia.
  - right. apply andb_true_iff. split.
    + apply Z.eqb_eq. apply Z.eqb_eq in Hxy, Hyz. lia.
    + now apply (IH b c).
Qed.

Lemma lex_lt_total (a b : list Z) :
  length a = length b -> lex_lt a b = false -> a ≠ b -> lex_lt b a = true.
Proof.
  revert b. induction a as [|x a IH]; intros [|y b]; try easy.
  cbn [length lex_lt]. intros [= Hlen] [Hxy Hab]%orb_false_iff Hne.
  apply orb_true_iff. apply Z.ltb_ge in Hxy.
  destruct (Z.eq_dec x y) as [->|Hxy'].
  - right. rewrite Z.eqb_refl in *. cbn [andb] in *.
    apply IH; [assumption..|]. intros ->. now apply Hne.
  - left. apply Z.ltb_lt. lia.
Qed.

Lemma stamp_fields_inj (a b : stamp) : stamp_fields a = stamp_fields b -> a = b.
Proof.
  destruct a as [[] ?], b as [[] ?]. unfold stamp_fields. cbn.
  now intros [= -> -> -> -> -> -> ->].
Qed.

Lemma stamp_eqb_eq (a b : stamp) : stamp_eqb a b = true <-> a = b.
Proof.
  unfold stamp_eqb. rewrite bool_decide_eq_true. split.
  - apply stamp_fields_inj.
  - now intros ->.
Qed.

Lemma stamp_lt_irrefl (a : stamp) : stamp_lt a a = false.
Proof. apply lex_lt_irrefl. Qed.

Lemma stamp_lt_trans (a b c : stamp) :
  stamp_lt a b = true -> stamp_lt b c = true -> stamp_lt a c = true.
Proof. apply lex_lt_trans. Qed.

Lemma stamp_lt_total (a b : stamp) :
  stamp_lt a b = false -> stamp_eqb a b = false -> stamp_lt b a = true.
Proof.
  intros Hlt Heq. apply lex_lt_total; [reflexivity|assumption|].
  intros Hf. apply stamp_fields_inj in Hf.
  apply stamp_eqb_eq in Hf. congruence.
Qed.

Section OldestProps.

Context `{Runtime} `{Python2}.

Variables (use_local_time : bool) (groups tags : list string).

Lemma oldest_loop_app (st : oldest) (seen : list (string * value))
    (entry : string * value) :
  oldest_loop use_local_time groups tags st (seen ++ [entry])
  = (st ← oldest_loop use_local_time groups tags st seen;
     oldest_step use_local_time groups tags st entry).
Proof.
  revert st. induction seen as [|e seen IH]; intros st; cbn [app oldest_loop].
  - unfold mbind, result_bind.
    now destruct (oldest_step use_local_time groups tags st entry).
  - unfold mbind, result_bind in *.
    destruct (oldest_step use_local_time groups tags st e);
      [apply IH|reflexivity..].
Qed.

Lemma oldest_step_cases (st st' : oldest) (entry : string * value) :
  oldest_step use_local_time groups tags st entry = Ok st' ->
  match tag_date use_local_time groups tags entry with
  | Some d =>
      if stamp_lt (d, 0) (oldest_date st)
      then st' = mkOldest true (d, 0) [entry.1]
      else if stamp_eqb (d, 0) (oldest_date st)
           then st' = mkOldest (date_available st) (oldest_date st)
                               (oldest_keys st ++ [entry.1])
           else st' = st
  | None => st' = st
  end.
Proof.
  destruct entry as [key date]. unfold oldest_step, tag_date. cbn [fst snd].
  destruct (considered groups tags key); [|congruence].
  destruct (first_text date) as [text| |]; [|discriminate..].
  cbn -[stamp_lt stamp_eqb].
  destruct (parse_date_exif text use_local_time) as [[d|]| |];
    cbn -[stamp_lt stamp_eqb];
    try congruence.
  destruct (stamp_lt (d, 0) (oldest_date st)); [congruence|].
  destruct (stamp_eqb (d, 0) (oldest_date st)); congruence.
Qed.

Lemma keys_dated_app (at_ : stamp) (seen : list (string * value))
    (entry : string * value) :
  keys_dated use_local_time groups tags at_ (seen ++ [entry])
  = (keys_dated use_local_time groups tags at_ seen
     ++ keys_dated use_local_time groups tags at_ [entry])%list.
Proof. unfold keys_dated. now rewrite List.filter_app, fmap_app. Qed.

Lemma dates_seen_app (seen : list (string * value)) (entry : string * value)
    (d : datetime) :
  d ∈ dates_seen use_local_time groups tags (seen ++ [entry])
  <-> d ∈ dates_seen use_local_time groups tags seen
      \/ tag_date use_local_time groups tags entry = Some d.
Proof.
  unfold dates_seen. rewrite omap_app, elem_of_app.
  assert (omap (tag_date use_local_time groups tags) [entry]
          = match tag_date use_local_time groups tags entry with
            | Some d' => [d']
            | None => []
            end) as -> by reflexivity.
  destruct (tag_date use_local_time groups tags entry) as [d'|].
  - rewrite list_elem_of_singleton. split; intros [?|?]; auto; right; congruence.
  - split; [intros [?|Hnil]; [auto|now apply not_elem_of_nil in Hnil]|].
    intros [?|?]; [auto|discriminate].
Qed.

Lemma dates_seen_cons (entry : string * value) (seen : list (string * value))
    (d : datetime) :
  d ∈ dates_seen use_local_time groups tags (entry :: seen)
  <-> tag_date use_local_time groups tags entry = Some d
      \/ d ∈ dates_seen use_local_time groups tags seen.
Proof.
  unfold dates_seen.
  change (omap (tag_date use_local_time groups tags) (entry :: seen))
    with (match tag_date use_local_time groups tags entry with
          | Some d' => d' :: omap (tag_date use_local_time groups tags) seen
          | None => omap (tag_date use_local_time groups tags) seen
          end).
  destruct (tag_date use_local_time groups tags entry) as [d'|].
  - rewrite elem_of_cons. split; intros [?|?]; auto; left; congruence.
  - split; [auto|]. intros [?|?]; [discriminate|assumption].
Qed.

Lemma keys_dated_below (at_ : stamp) (floor : stamp)
    (seen : list (string * value)) :
  stamp_lt at_ floor = true ->
  (forall d, d ∈ dates_seen use_local_time groups tags seen ->
             stamp_lt (d, 0) floor = false) ->
  keys_dated use_local_time groups tags at_ seen = [].
Proof.
  intros Hbelow Hfloor. unfold keys_dated.
  induction seen as [|e seen IH]; [reflexivity|]. cbn [List.filter].
  setoid_rewrite dates_seen_cons in Hfloor.
  destruct (tag_date use_local_time groups tags e) as [d|] eqn:He.
  - destruct (stamp_eqb (d, 0) at_) eqn:Heq.
    + apply stamp_eqb_eq in Heq. subst at_.
      rewrite (Hfloor d) in Hbelow; [discriminate|]. now left.
    + apply IH. intros d' Hd'. apply Hfloor. now right.
  - apply IH. intros d' Hd'. apply Hfloor. now right.
Qed.

Lemma oldest_so_far_step (now : stamp) (st st' : oldest)
    (seen : list (string * value)) (entry : string * value) :
  oldest_so_far use_local_time groups tags now st seen ->
  oldest_step use_local_time groups tags st entry = Ok st' ->
  oldest_so_far use_local_time groups tags now st' (seen ++ [entry]).
Proof.
  intros (Hfloor & Hnow & Hkeys) Hstep%oldest_step_cases.
  assert (Hold : forall d,
             d ∈ dates_seen use_local_time groups tags seen ->
             d ∈ dates_seen use_local_time groups tags (seen ++ [entry]))
    by (intros d Hd; apply dates_seen_app; now left).
  assert (Hkept : date_available st = true ->
            stamp_lt (oldest_date st) now = true
            /\ exists d,
                d ∈ dates_seen use_local_time groups tags (seen ++ [entry])
                /\ oldest_date st = (d, 0)).
  { intros Ha. rewrite Ha in Hnow. destruct Hnow as (? & d & ? & ?). eauto. }
  unfold oldest_so_far. rewrite keys_dated_app. unfold keys_dated at 2.
  cbn [List.filter].
  destruct (tag_date use_local_time groups tags entry) as [d|] eqn:He.
  - assert (Hnew : d ∈ dates_seen use_local_time groups tags (seen ++ [entry]))
      by (apply dates_seen_app; now right).
    destruct (stamp_lt (d, 0) (oldest_date st)) eqn:Hlt.
    + subst st'. cbn [oldest_date date_available oldest_keys].
      rewrite (proj2 (stamp_eqb_eq _ _) eq_refl). split; [|split].
      * intros d' [Hd'|Hd']%dates_seen_app.
        -- destruct (stamp_lt (d', 0) (d, 0)) eqn:Hd; [|reflexivity].
           rewrite <- (Hfloor d' Hd'). symmetry.
           now apply (stamp_lt_trans _ (d, 0)).
        -- assert (d' = d) as -> by congruence. apply stamp_lt_irrefl.
      * split; [|eauto].
        destruct (date_available st); [|now rewrite <- Hnow].
        apply (stamp_lt_trans _ (oldest_date st)); [assumption|].
        now apply Hkept.
      * now rewrite (keys_dated_below _ (oldest_date st)).
    + assert (Hfloor' : forall d',
                 d' ∈ dates_seen use_local_time groups tags (seen ++ [entry]) ->
                 stamp_lt (d', 0) (oldest_date st) = false).
      { intros d' [Hd'|Hd']%dates_seen_app; [auto|].
        now assert (d' = d) as -> by congruence. }
      destruct (stamp_eqb (d, 0) (oldest_date st)) eqn:Heq; subst st';
        cbn [oldest_date date_available oldest_keys]; rewrite ?Heq;
        (split; [|split]); try assumption.
      * destruct (date_available st); [auto|assumption].
      * rewrite Hkeys. reflexivity.
      * destruct (date_available st); [auto|assumption].
      * rewrite Hkeys. cbn. now rewrite app_nil_r.
  - subst st'. split; [|split].
    + intros d' [Hd'|Hd']%dates_seen_app; [auto|congruence].
    + destruct (date_available st); [auto|assumption].
    + rewrite Hkeys. cbn. now rewrite app_nil_r.
Qed.

Lemma oldest_so_far_run (now : stamp) (data : list (string * value))
    (st : oldest) :
  oldest_loop use_local_time groups tags (mkOldest false now []) data = Ok st ->
  oldest_so_far use_local_time groups tags now st data.
Proof.
  revert st. induction data as [|entry seen IH] using rev_ind; intros st.
  - intros [= <-]. unfold oldest_so_far. cbn. repeat split.
    intros d Hd. now apply not_elem_of_nil in Hd.
  - rewrite oldest_loop_app. intros (st1 & Hseen & Hstep)%bind_Ok.
    apply (oldest_so_far_step now st1); auto.
Qed.

End OldestProps.

Section OldestResult.

Context `{Runtime} `{Python2}.

Lemma oldest_step_Raise (use_local_time : bool) (groups tags : list string)
    (st : oldest) (entry : string * value) (e : exn) :
  oldest_step use_local_time groups tags st entry = Raise e ->
  e = OtherError "IndexError"
  /\ entry.2 = Items [] /\ considered groups tags entry.1 = true.
Proof.
  destruct entry as [key date]. unfold oldest_step. cbn [fst snd].
  destruct (considered groups tags key); [|discriminate].
  destruct date as [text|[|text texts]]; cbn -[stamp_lt stamp_eqb].
  - destruct (parse_date_exif text use_local_time) as [[d|]| |];
      cbn -[stamp_lt stamp_eqb]; try discriminate.
    destruct (stamp_lt _ _); [discriminate|].
    destruct (stamp_eqb _ _); discriminate.
  - now intros [= <-].
  - destruct (parse_date_exif text use_local_time) as [[d|]| |];
      cbn -[stamp_lt stamp_eqb]; try discriminate.
    destruct (stamp_lt _ _); [discriminate|].
    destruct (stamp_eqb _ _); discriminate.
Qed.

Lemma oldest_loop_Raise (use_local_time : bool) (groups tags : list string)
    (data : list (string * value)) (e : exn) :
  forall st,
    oldest_loop use_local_time groups tags st data = Raise e ->
    e = OtherError "IndexError"
    /\ exists key, (key, Items []) ∈ data /\ considered groups tags key = true.
Proof.
  induction data as [|entry rest IH]; intros st; [discriminate|].
  cbn [oldest_loop].
  destruct (oldest_step use_local_time groups tags st entry) as [st1|e1|]
    eqn:Hstep; cbn; [|intros [= <-]|discriminate].
  - intros (-> & key & Hin & Hc)%IH. split; [reflexivity|].
    exists key. split; [now apply list_elem_of_further|assumption].
  - apply oldest_step_Raise in Hstep as (-> & Hitems & Hc).
    split; [reflexivity|]. destruct entry as [key date]. cbn in *. subst date.
    exists key. split; [apply list_elem_of_here|assumption].
Qed.

(** X23.  [get_oldest_timestamp] returns the oldest of the dates it
    sees that lie before [now], and with it exactly the keys that carry
    that date, in the order of the record; when no date lies before
    [now] it returns no date. *)
Theorem get_oldest_timestamp_minimum (now : stamp)
    (data : list (string * value))
    (additional_groups_to_ignore additional_tags_to_ignore : list string)
    (use_local_time : bool) (src_file : value) (oldest_date : option datetime)
    (oldest_keys : list string) :
  get_oldest_timestamp now data additional_groups_to_ignore
    additional_tags_to_ignore use_local_time
  = Ok (src_file, oldest_date, oldest_keys) ->
  match oldest_date with
  | Some d =>
      stamp_lt (d, 0) now = true
      /\ d ∈ dates_seen use_local_time
               (ignore_groups additional_groups_to_ignore)
               (ignore_tags additional_tags_to_ignore) data
      /\ (forall d',
             d' ∈ dates_seen use_local_time
                    (ignore_groups additional_groups_to_ignore)
                    (ignore_tags additional_tags_to_ignore) data ->
             stamp_lt (d', 0) (d, 0) = false)
      /\ oldest_keys
         = keys_dated use_local_time
             (ignore_groups additional_groups_to_ignore)
             (ignore_tags additional_tags_to_ignore) (d, 0) data
  | None =>
      forall d',
        d' ∈ dates_seen use_local_time
               (ignore_groups additional_groups_to_ignore)
               (ignore_tags additional_tags_to_ignore) data ->
        stamp_lt (d', 0) now = false
  end.
Proof.
  unfold get_oldest_timestamp.
  intros (src & _ & (st & Hloop & [= _ <- <-])%bind_Ok)%bind_Ok.
  apply oldest_so_far_run in Hloop as (Hfloor & Hnow & Hkeys).
  destruct (date_available st).
  - destruct Hnow as (Hbefore & d & Hd & Heq). rewrite Heq in *. cbn [fst].
    auto.
  - now rewrite Hnow in Hfloor.
Qed.

(** X24.  A text the parser stumbles over does not stop
    [get_oldest_timestamp]: the only exceptions it raises are the
    [KeyError] of a record without [SourceFile] and the [IndexError] of
    an empty list under a key that is looked at. *)
Theorem get_oldest_timestamp_raises_only (now : stamp)
    (data : list (string * value))
    (additional_groups_to_ignore additional_tags_to_ignore : list string)
    (use_local_time : bool) (e : exn) :
  get_oldest_timestamp now data additional_groups_to_ignore
    additional_tags_to_ignore use_local_time = Raise e ->
  (e = KeyError
   /\ (list_to_map data : gmap string value) !! "SourceFile" = None)
  \/ (e = OtherError "IndexError"
      /\ exists key,
          (key, Items []) ∈ data
          /\ considered (ignore_groups additional_groups_to_ignore)
               (ignore_tags additional_tags_to_ignore) key = true).
Proof.
  unfold get_oldest_timestamp.
  destruct ((list_to_map data : gmap string value) !! "SourceFile")
    as [src|]; cbn; [|intros [= <-]; now left].
  destruct (oldest_loop _ _ _ _ data) as [st|e1|] eqn:Hloop; cbn;
    [discriminate|intros [= <-]|discriminate].
  right. now apply oldest_loop_Raise in Hloop.
Qed.

End OldestResult.

Lemma get_oldest_timestamp_minimum_witness :
  @get_oldest_timestamp Example.runtime python2_like_str
    (mkDatetime 2026 11 3 12 0 0, 42) dated_record [] [] true
  = Ok (Scalar "a/photo.jpg", Some Example.noon,
        ["EXIF:CreateDate"; "EXIF:DateTimeOriginal"])
  /\ stamp_lt (Example.noon, 0) (mkDatetime 2026 11 3 12 0 0, 42) = true
  /\ Example.noon
     ∈ @dates_seen Example.runtime python2_like_str true
         (ignore_groups []) (ignore_tags []) dated_record
  /\ (forall d',
         d' ∈ @dates_seen Example.runtime python2_like_str true
                (ignore_groups []) (ignore_tags []) dated_record ->
         stamp_lt (d', 0) (Example.noon, 0) = false)
  /\ ["EXIF:CreateDate"; "EXIF:DateTimeOriginal"]
     = @keys_dated Example.runtime python2_like_str true
         (ignore_groups []) (ignore_tags []) (Example.noon, 0) dated_record.
Proof.
  split; [vm_compute; reflexivity|].
  apply (@get_oldest_timestamp_minimum Example.runtime python2_like_str
           (mkDatetime 2026 11 3 12 0 0, 42) dated_record [] [] true
           (Scalar "a/photo.jpg") (Some Example.noon)
           ["EXIF:CreateDate"; "EXIF:DateTimeOriginal"]).
  vm_compute. reflexivity.
Defined.

(** An empty list where a date is looked for. *)
Lemma get_oldest_timestamp_raises_only_witness :
  @get_oldest_timestamp Example.runtime python2_like_str
    (mkDatetime 2026 11 3 12 0 0, 42)
    [("SourceFile", Scalar "a/photo.jpg"); ("EXIF:CreateDate", Items [])]
    [] [] false
  = Raise (OtherError "IndexError")
  /\ ((OtherError "IndexError" = KeyError
       /\ (list_to_map [("SourceFile", Scalar "a/photo.jpg");
                        ("EXIF:CreateDate", Items [])]
           : gmap string value) !! "SourceFile" = None)
      \/ (OtherError "IndexError" = OtherError "IndexError"
          /\ exists key,
              (key, Items []) ∈ [("SourceFile", Scalar "a/photo.jpg");
                                 ("EXIF:CreateDate", Items [])]
              /\ considered (ignore_groups []) (ignore_tags []) key = true)).
Proof.
  split; [vm_compute; reflexivity|].
  apply (@get_oldest_timestamp_raises_only Example.runtime python2_like_str
           (mkDatetime 2026 11 3 12 0 0, 42) _ [] [] false).
  vm_compute. reflexivity.
Defined.
